(** * STM32_XPD USB device class drivers: CDC, DFU and RNDIS

    A shallow embedding of
      Middlewares/STM32_USB_Device_Library/Class/CDC/Src/usbd_cdc.c
      Middlewares/STM32_USB_Device_Library/Class/DFU/Src/usbd_dfu.c
      Middlewares/STM32_USB_Device_Library/Class/RNDIS/Src/usbd_rndis.c
      Middlewares/STM32_USB_Device_Library/Class/RNDIS/Inc/rndis.h
      Middlewares/STM32_USB_Device_Library/Class/RNDIS/Inc/usbd_rndis.h

    The drivers come first, then the facts about single calls, then the
    protocols call by call.

    Conventions.
    - Machine integers are [Z] with the wrap-around written out
      ([wrap8], [wrap16], [wrap32]).
    - The device instance [USBD_HandleTypeDef] is passed explicitly; every
      call into an external collaborator (the low level driver
      [USBD_LL_*], the control helpers [USBD_Ctl*], the user callbacks) is
      appended to the [trace] of the device, in program order.
    - [pClassData] is an [option]: [None] is the NULL pointer.  An access
      through a pointer that the source does not guard is a [deref], which
      crashes with [NullDeref] on [None].  Entry points whose source guards
      every access return a plain pair and cannot crash.
    - Values that an external collaborator returns (the block returned by
      [USBD_malloc], the status of [USBD_LL_Transmit], the byte count of
      [USBD_LL_GetRxDataSize]) are arguments of the embedded function.
    - A user callback is a call recorded in the trace.  It acts on the
      handle only through the buffer it is handed (Control, Read, GetStatus,
      QuerySetServer): the callback of the embedding returns the new content
      of that buffer. *)

From stdpp Require Import base numbers list.

Local Open Scope Z_scope.

(** ** Machine integers *)

Definition wrap8  (x : Z) : Z := x mod 2^8.
Definition wrap16 (x : Z) : Z := x mod 2^16.
Definition wrap32 (x : Z) : Z := x mod 2^32.

(** Whether the elements of a list are pairwise different. *)
Fixpoint distinctb (l : list Z) : bool :=
  match l with
  | [] => true
  | x :: tl => negb (existsb (Z.eqb x) tl) && distinctb tl
  end.

(** A pointer is an address; [NULL] is address zero. *)
Definition ptr := Z.
Definition NULL : ptr := 0.

(** ** Faults and the error monad *)

Inductive Fault : Type :=
| NullDeref       (* access through a NULL class handle *)
| BufferOverrun.  (* store past the end of a fixed-size array *)

Inductive Result (A : Type) : Type :=
| Ok (a : A)
| Crash (f : Fault).
Arguments Ok {A} a.
Arguments Crash {A} f.

Definition rbind {A B : Type} (m : Result A) (k : A -> Result B) : Result B :=
  match m with
  | Ok a => k a
  | Crash f => Crash f
  end.

Notation "x <- m ;; k" := (rbind m (fun x => k))
  (at level 100, m at next level, right associativity).

Definition deref {A : Type} (p : option A) : Result A :=
  match p with
  | Some a => Ok a
  | None => Crash NullDeref
  end.

(** ** The device core's types (usbd_def.h) *)

(** [USBD_StatusTypeDef]: the three enumerators the class drivers use. *)
Inductive USBD_StatusTypeDef : Type := USBD_OK | USBD_BUSY | USBD_FAIL.

Definition USBD_Status_eqb (a b : USBD_StatusTypeDef) : bool :=
  match a, b with
  | USBD_OK, USBD_OK | USBD_BUSY, USBD_BUSY | USBD_FAIL, USBD_FAIL => true
  | _, _ => false
  end.

Inductive USBD_SpeedTypeDef : Type :=
  USBD_SPEED_HIGH | USBD_SPEED_FULL | USBD_SPEED_LOW.

Inductive USBD_EP_Type : Type := USBD_EP_TYPE_BULK | USBD_EP_TYPE_INTR.

Record USBD_SetupReqTypedef : Type := {
  bmRequest : Z;   (* uint8_t  *)
  bRequest  : Z;   (* uint8_t  *)
  wValue    : Z;   (* uint16_t *)
  wIndex    : Z;   (* uint16_t *)
  wLength   : Z    (* uint16_t *)
}.

(** The constants of usbd_def.h / usbd_conf.h that the drivers use.  The
    header is not among the sources, so the drivers are embedded for any
    value of them. *)
Class UsbdDef : Type := {
  USB_REQ_TYPE_MASK      : Z;
  USB_REQ_TYPE_CLASS     : Z;
  USB_REQ_TYPE_STANDARD  : Z;
  USB_REQ_GET_DESCRIPTOR : Z;
  USB_REQ_GET_INTERFACE  : Z;
  USB_REQ_SET_INTERFACE  : Z;
  USBD_EP0_IDLE          : Z;
  USB_FS_MAX_PACKET_SIZE : Z;
  USB_HS_MAX_PACKET_SIZE : Z;
  DEVICE_HS              : bool   (* whether DEVICE_HS is #defined *)
}.

(** The values of USB 2.0 chapter 9 and of ST's usbd_def.h, used where a
    concrete run is evaluated. *)
Definition usb_2_0 : UsbdDef := {|
  USB_REQ_TYPE_MASK      := 0x60;
  USB_REQ_TYPE_CLASS     := 0x20;
  USB_REQ_TYPE_STANDARD  := 0x00;
  USB_REQ_GET_DESCRIPTOR := 0x06;
  USB_REQ_GET_INTERFACE  := 0x0A;
  USB_REQ_SET_INTERFACE  := 0x0B;
  USBD_EP0_IDLE          := 0;
  USB_FS_MAX_PACKET_SIZE := 64;
  USB_HS_MAX_PACKET_SIZE := 512;
  DEVICE_HS              := false
|}.

(** ** Calls to external collaborators *)

Inductive Event : Type :=
(* low level driver *)
| LL_OpenEP (ep : Z) (ep_type : USBD_EP_Type) (mps : Z)
| LL_CloseEP (ep : Z)
| LL_FlushEP (ep : Z)
| LL_Transmit (ep : Z) (pbuf : ptr) (size : Z)
| LL_TransmitBytes (ep : Z) (bytes : list Z) (size : Z)
| LL_PrepareReceive (ep : Z) (pbuf : ptr) (size : Z)
(* control transfer helpers; [buf] is the content of the source array *)
| CtlSendData (buf : list Z) (len : Z)
| CtlPrepareRx (len : Z)
| CtlError
(* device core *)
| Core_Stop
| Core_Start
| Core_Delay (ms : Z)
| Core_DeInit
| Core_SystemReset
(* user interface callbacks *)
| Itf_Init
| Itf_DeInit
| CDC_Control (cmd : Z) (len : Z)
| CDC_Transmitted (pbuf : ptr) (len : Z)
| CDC_Received (pbuf : ptr) (len : Z)
| RNDIS_PacketReceived (data : ptr) (len : Z)
| RNDIS_QuerySetServer (oid : Z) (buf_offset : Z)
| Media_Erase (addr : Z)
| Media_Write (addr : Z) (src : list Z) (len : Z)
| Media_Read (addr : Z) (len : Z)
| Media_GetStatus (addr : Z) (op : Z).

(** [USBD_HandleTypeDef], for a class handle of type [H].  [pUserData], the
    registered interface table, is an argument of the entry points. *)
Record USBD_HandleTypeDef (H : Type) : Type := {
  pClassData : option H;
  dev_speed  : USBD_SpeedTypeDef;
  ep0_state  : Z;
  trace      : list Event
}.
Arguments pClassData {H} _.
Arguments dev_speed {H} _.
Arguments ep0_state {H} _.
Arguments trace {H} _.

Definition set_pClassData {H : Type} (p : option H)
    (pdev : USBD_HandleTypeDef H) : USBD_HandleTypeDef H :=
  {| pClassData := p; dev_speed := dev_speed pdev;
     ep0_state := ep0_state pdev; trace := trace pdev |}.

Definition emit {H : Type} (e : Event)
    (pdev : USBD_HandleTypeDef H) : USBD_HandleTypeDef H :=
  {| pClassData := pClassData pdev; dev_speed := dev_speed pdev;
     ep0_state := ep0_state pdev; trace := trace pdev ++ [e] |}.

Definition emit_if {H : Type} (present : bool) (e : Event)
    (pdev : USBD_HandleTypeDef H) : USBD_HandleTypeDef H :=
  if present then emit e pdev else pdev.

(** A device before any class is configured. *)
Definition unconfigured {H : Type} : USBD_HandleTypeDef H :=
  {| pClassData := None; dev_speed := USBD_SPEED_FULL; ep0_state := 0;
     trace := [] |}.

(** The endpoints that a sequence of low level calls leaves open. *)
Definition open_endpoints_step (acc : list Z) (e : Event) : list Z :=
  match e with
  | LL_OpenEP ep _ _ => acc ++ [ep]
  | LL_CloseEP ep => filter (fun x => x <> ep) acc
  | _ => acc
  end.

Definition open_endpoints (tr : list Event) : list Z :=
  fold_left open_endpoints_step tr [].

(** Modelled from the spec: the device core (usbd_core.c) is not among the
    sources.  "All operations return a binary success/failure status": the
    core activates the class when [Init] returns [USBD_OK] and treats any
    other status as a class activation failure. *)
Definition class_activation_failure (st : USBD_StatusTypeDef) : bool :=
  negb (USBD_Status_eqb st USBD_OK).

(** * DFU class driver (usbd_dfu.c) *)

Module DFU.

(** The constants of usbd_dfu.h and usbd_conf.h.  Neither header is among
    the sources, so the driver is embedded for any value of them; the state
    codes are an enumeration of nine different values. *)
Class UsbdDfuDef : Type := {
  (* protocol states *)
  DFU_STATE_IDLE                : Z;
  DFU_STATE_DNLOAD_SYNC         : Z;
  DFU_STATE_DNLOAD_BUSY         : Z;
  DFU_STATE_DNLOAD_IDLE         : Z;
  DFU_STATE_MANIFEST_SYNC       : Z;
  DFU_STATE_MANIFEST            : Z;
  DFU_STATE_MANIFEST_WAIT_RESET : Z;
  DFU_STATE_UPLOAD_IDLE         : Z;
  DFU_STATE_ERROR               : Z;
  DFU_STATE_distinct :
    distinctb [DFU_STATE_IDLE; DFU_STATE_DNLOAD_SYNC; DFU_STATE_DNLOAD_BUSY;
               DFU_STATE_DNLOAD_IDLE; DFU_STATE_MANIFEST_SYNC;
               DFU_STATE_MANIFEST; DFU_STATE_MANIFEST_WAIT_RESET;
               DFU_STATE_UPLOAD_IDLE; DFU_STATE_ERROR] = true;
  (* status (error) codes *)
  DFU_ERROR_NONE       : Z;
  DFU_ERROR_UNKNOWN    : Z;
  DFU_ERROR_STALLEDPKT : Z;
  (* manifestation sub-states *)
  DFU_MANIFEST_COMPLETE    : Z;
  DFU_MANIFEST_IN_PROGRESS : Z;
  (* block 0 commands *)
  DFU_CMD_GETCOMMANDS       : Z;
  DFU_CMD_SETADDRESSPOINTER : Z;
  DFU_CMD_ERASE             : Z;
  (* media operations *)
  DFU_MEDIA_ERASE   : Z;
  DFU_MEDIA_PROGRAM : Z;
  (* class requests *)
  DFU_DETACH      : Z;
  DFU_DOWNLOAD    : Z;
  DFU_UPLOAD      : Z;
  DFU_GETSTATUS   : Z;
  DFU_CLEARSTATUS : Z;
  DFU_GETSTATE    : Z;
  DFU_ABORT       : Z;
  (* descriptors and configuration *)
  DFU_DESCRIPTOR_TYPE       : Z;
  USB_DFU_DESC_SIZ          : Z;
  USBD_DFU_MAX_ITF_NUM      : Z;
  USBD_DFU_XFER_SIZE        : Z;
  USBD_DFU_DOWNLOAD_SUPPORT : Z;
  USBD_DFU_UPLOAD_SUPPORT   : Z;
  USBD_DFU_DETACH_SUPPORT   : Z
}.

(** [dev_status[6]]: the wire status record
    [bStatus, bwPollTimeout (3 bytes, little endian), bState, iString]. *)
Record DevStatus : Type := {
  ds0 : Z;   (* dev_status[0], bStatus *)
  ds1 : Z;   (* dev_status[1], bwPollTimeout, low byte *)
  ds2 : Z;   (* dev_status[2] *)
  ds3 : Z;   (* dev_status[3], bwPollTimeout, high byte *)
  ds4 : Z;   (* dev_status[4], bState *)
  ds5 : Z    (* dev_status[5], iString *)
}.

Definition DevStatus_bytes (s : DevStatus) : list Z :=
  [ds0 s; ds1 s; ds2 s; ds3 s; ds4 s; ds5 s].

(** [USBD_DFU_HandleTypeDef]: the fields usbd_dfu.c uses. *)
Record USBD_DFU_HandleTypeDef : Type := {
  buffer      : list Z;     (* buffer.d8[USBD_DFU_XFER_SIZE] *)
  dev_state   : Z;          (* uint8_t *)
  dev_status  : DevStatus;  (* uint8_t [6] *)
  manif_state : Z;          (* uint8_t *)
  wblock_num  : Z;
  wlength     : Z;
  data_ptr    : Z;          (* uint32_t *)
  alt_setting : Z           (* uint8_t *)
}.

(** [USBD_DFU_MediaTypeDef]: a callback that is a NULL function pointer is
    [false] or [None].  [Read] returns the new content of the buffer it is
    handed, [GetStatus] the new content of the status record it is handed. *)
Record USBD_DFU_MediaTypeDef : Type := {
  StartAddress : Z;
  Init      : bool;
  DeInit    : bool;
  Erase     : bool;
  Write     : bool;
  Read      : option (list Z -> Z -> Z -> list Z);
  GetStatus : option (Z -> Z -> DevStatus -> DevStatus)
}.

Definition Dev : Type := USBD_HandleTypeDef USBD_DFU_HandleTypeDef.

(** *** Field updates *)

Definition set_buffer (v : list Z) (h : USBD_DFU_HandleTypeDef) :=
  {| buffer := v; dev_state := dev_state h; dev_status := dev_status h;
     manif_state := manif_state h; wblock_num := wblock_num h;
     wlength := wlength h; data_ptr := data_ptr h;
     alt_setting := alt_setting h |}.
Definition set_dev_state (v : Z) (h : USBD_DFU_HandleTypeDef) :=
  {| buffer := buffer h; dev_state := v; dev_status := dev_status h;
     manif_state := manif_state h; wblock_num := wblock_num h;
     wlength := wlength h; data_ptr := data_ptr h;
     alt_setting := alt_setting h |}.
Definition set_dev_status (v : DevStatus) (h : USBD_DFU_HandleTypeDef) :=
  {| buffer := buffer h; dev_state := dev_state h; dev_status := v;
     manif_state := manif_state h; wblock_num := wblock_num h;
     wlength := wlength h; data_ptr := data_ptr h;
     alt_setting := alt_setting h |}.
Definition set_manif_state (v : Z) (h : USBD_DFU_HandleTypeDef) :=
  {| buffer := buffer h; dev_state := dev_state h; dev_status := dev_status h;
     manif_state := v; wblock_num := wblock_num h;
     wlength := wlength h; data_ptr := data_ptr h;
     alt_setting := alt_setting h |}.
Definition set_wblock_num (v : Z) (h : USBD_DFU_HandleTypeDef) :=
  {| buffer := buffer h; dev_state := dev_state h; dev_status := dev_status h;
     manif_state := manif_state h; wblock_num := v;
     wlength := wlength h; data_ptr := data_ptr h;
     alt_setting := alt_setting h |}.
Definition set_wlength (v : Z) (h : USBD_DFU_HandleTypeDef) :=
  {| buffer := buffer h; dev_state := dev_state h; dev_status := dev_status h;
     manif_state := manif_state h; wblock_num := wblock_num h;
     wlength := v; data_ptr := data_ptr h;
     alt_setting := alt_setting h |}.
Definition set_data_ptr (v : Z) (h : USBD_DFU_HandleTypeDef) :=
  {| buffer := buffer h; dev_state := dev_state h; dev_status := dev_status h;
     manif_state := manif_state h; wblock_num := wblock_num h;
     wlength := wlength h; data_ptr := v;
     alt_setting := alt_setting h |}.
Definition set_alt_setting (v : Z) (h : USBD_DFU_HandleTypeDef) :=
  {| buffer := buffer h; dev_state := dev_state h; dev_status := dev_status h;
     manif_state := manif_state h; wblock_num := wblock_num h;
     wlength := wlength h; data_ptr := data_ptr h;
     alt_setting := v |}.

(** [hdfu->dev_status[i] = v] *)
Definition set_ds (i : nat) (v : Z) (h : USBD_DFU_HandleTypeDef) :=
  let s := dev_status h in
  set_dev_status
    match i with
    | 0%nat => {| ds0 := v; ds1 := ds1 s; ds2 := ds2 s; ds3 := ds3 s; ds4 := ds4 s; ds5 := ds5 s |}
    | 1%nat => {| ds0 := ds0 s; ds1 := v; ds2 := ds2 s; ds3 := ds3 s; ds4 := ds4 s; ds5 := ds5 s |}
    | 2%nat => {| ds0 := ds0 s; ds1 := ds1 s; ds2 := v; ds3 := ds3 s; ds4 := ds4 s; ds5 := ds5 s |}
    | 3%nat => {| ds0 := ds0 s; ds1 := ds1 s; ds2 := ds2 s; ds3 := v; ds4 := ds4 s; ds5 := ds5 s |}
    | 4%nat => {| ds0 := ds0 s; ds1 := ds1 s; ds2 := ds2 s; ds3 := ds3 s; ds4 := v; ds5 := ds5 s |}
    | _     => {| ds0 := ds0 s; ds1 := ds1 s; ds2 := ds2 s; ds3 := ds3 s; ds4 := ds4 s; ds5 := v |}
    end h.

(** [hdfu->buffer.d8[i]] *)
Definition d8 (h : USBD_DFU_HandleTypeDef) (i : nat) : Z := nth i (buffer h) 0.

(** The statement sequence that every state change of the driver ends with:
      dev_status[1] = p; dev_status[2] = 0; dev_status[3] = 0;
      dev_status[4] = dev_state; *)
Definition sync_status (p : Z) (h : USBD_DFU_HandleTypeDef) :=
  let h := set_ds 1 p h in
  let h := set_ds 2 0 h in
  let h := set_ds 3 0 h in
  set_ds 4 (dev_state h) h.

(** The statement sequence of DFU_Abort, DFU_Detach and DFU_ClearStatus:
      dev_state = st; dev_status[0] = err; dev_status[1..3] = 0;
      dev_status[4] = dev_state; dev_status[5] = 0; *)
Definition reset_status (st err : Z) (h : USBD_DFU_HandleTypeDef) :=
  let h := set_dev_state st h in
  let h := set_ds 0 err h in
  let h := set_ds 1 0 h in
  let h := set_ds 2 0 h in
  let h := set_ds 3 0 h in
  let h := set_ds 4 (dev_state h) h in
  set_ds 5 0 h.

Section Driver.
Context `{UD : UsbdDef} `{DD : UsbdDfuDef}.

(** The bmAttributes byte of the DFU functional descriptor in
    [USBD_DFU_CfgDesc]. *)
Definition DFU_bmAttributes : Z :=
  wrap8 (Z.lor USBD_DFU_DOWNLOAD_SUPPORT
          (Z.lor (Z.shiftl USBD_DFU_UPLOAD_SUPPORT 1)
                 (Z.shiftl USBD_DFU_DETACH_SUPPORT 3))).

(** The DFU functional descriptor, at offset [9 * (USBD_DFU_MAX_ITF_NUM + 1)]
    of [USBD_DFU_CfgDesc]. *)
Definition DFU_FunctionalDesc : list Z :=
  [0x09; DFU_DESCRIPTOR_TYPE; DFU_bmAttributes; 0xFF; 0x00;
   wrap8 USBD_DFU_XFER_SIZE; wrap8 (Z.shiftr USBD_DFU_XFER_SIZE 8);
   0x1A; 0x01].

(** [DFU_MANIFEST_TOLERANT()] *)
Definition DFU_MANIFEST_TOLERANT : bool :=
  negb (Z.land DFU_bmAttributes 0x04 =? 0).

(** The state test shared by DFU_Abort and DFU_Detach. *)
Definition abortable (st : Z) : bool :=
  (st =? DFU_STATE_IDLE) || (st =? DFU_STATE_DNLOAD_SYNC)
  || (st =? DFU_STATE_DNLOAD_IDLE) || (st =? DFU_STATE_MANIFEST_SYNC)
  || (st =? DFU_STATE_UPLOAD_IDLE).

(** [USBD_DFU_Init].  [mem] is what [USBD_malloc] returns. *)
Definition USBD_DFU_Init (mem : option USBD_DFU_HandleTypeDef)
    (media : USBD_DFU_MediaTypeDef) (pdev : Dev) (cfgidx : Z)
    : USBD_StatusTypeDef * Dev :=
  match mem with
  | Some hdfu =>
      let hdfu := set_alt_setting 0 hdfu in
      let hdfu := set_data_ptr (StartAddress media) hdfu in
      let hdfu := set_wblock_num 0 hdfu in
      let hdfu := set_wlength 0 hdfu in
      let hdfu := set_manif_state DFU_MANIFEST_COMPLETE hdfu in
      let hdfu := set_dev_state DFU_STATE_IDLE hdfu in
      let hdfu := set_ds 0 DFU_ERROR_NONE hdfu in
      let hdfu := set_ds 1 0 hdfu in
      let hdfu := set_ds 2 0 hdfu in
      let hdfu := set_ds 3 0 hdfu in
      let hdfu := set_ds 4 DFU_STATE_IDLE hdfu in
      let hdfu := set_ds 5 0 hdfu in
      let pdev := set_pClassData (Some hdfu) pdev in
      (USBD_OK, emit_if (Init media) Itf_Init pdev)
  | None => (USBD_OK, set_pClassData None pdev)
  end.

(** [USBD_DFU_DeInit] *)
Definition USBD_DFU_DeInit (media : USBD_DFU_MediaTypeDef) (pdev : Dev)
    (cfgidx : Z) : USBD_StatusTypeDef * Dev :=
  match pClassData pdev with
  | Some _ =>
      let pdev := emit_if (DeInit media) Itf_DeInit pdev in
      (USBD_OK, set_pClassData None pdev)
  | None => (USBD_OK, pdev)
  end.

(** [DFU_Leave].  Without manifestation tolerance the source does not
    return: [USBD_SystemReset] is the last call, and the device returned is
    the one at that call. *)
Definition DFU_Leave (pdev : Dev) : Result Dev :=
  hdfu <- deref (pClassData pdev) ;;
  let hdfu := set_manif_state DFU_MANIFEST_COMPLETE hdfu in
  if DFU_MANIFEST_TOLERANT then
    let hdfu := set_dev_state DFU_STATE_MANIFEST_SYNC hdfu in
    let hdfu := sync_status 0 hdfu in
    Ok (set_pClassData (Some hdfu) pdev)
  else
    let hdfu := set_dev_state DFU_STATE_MANIFEST_WAIT_RESET hdfu in
    let hdfu := sync_status 0 hdfu in
    let pdev := set_pClassData (Some hdfu) pdev in
    let pdev := emit Core_DeInit pdev in
    Ok (emit Core_SystemReset pdev).

(** The little endian address in [buffer.d8[1..4]]. *)
Definition buffer_address (h : USBD_DFU_HandleTypeDef) : Z :=
  wrap32 (Z.lor (d8 h 1)
           (Z.lor (Z.shiftl (d8 h 2) 8)
             (Z.lor (Z.shiftl (d8 h 3) 16) (Z.shiftl (d8 h 4) 24)))).

(** [((hdfu->wblock_num - 2) * USBD_DFU_XFER_SIZE) + hdfu->data_ptr],
    assigned to [uint32_t addr]. *)
Definition block_address (h : USBD_DFU_HandleTypeDef) : Z :=
  wrap32 ((wblock_num h - 2) * USBD_DFU_XFER_SIZE + data_ptr h).

(** [USBD_DFU_EP0_TxReady] *)
Definition USBD_DFU_EP0_TxReady (media : USBD_DFU_MediaTypeDef) (pdev : Dev)
    : Result (USBD_StatusTypeDef * Dev) :=
  hdfu <- deref (pClassData pdev) ;;
  if dev_state hdfu =? DFU_STATE_DNLOAD_BUSY then
    let '(hdfu, pdev) :=
      if wblock_num hdfu =? 0 then
        if (d8 hdfu 0 =? DFU_CMD_GETCOMMANDS) && (wlength hdfu =? 1) then
          (hdfu, pdev)
        else if (d8 hdfu 0 =? DFU_CMD_SETADDRESSPOINTER) && (wlength hdfu =? 5) then
          (set_data_ptr (buffer_address hdfu) hdfu, pdev)
        else if (d8 hdfu 0 =? DFU_CMD_ERASE) && (wlength hdfu =? 5) then
          let hdfu := set_data_ptr (buffer_address hdfu) hdfu in
          (hdfu, emit_if (Erase media) (Media_Erase (data_ptr hdfu)) pdev)
        else
          let hdfu := set_wlength 0 hdfu in
          let hdfu := set_wblock_num 0 hdfu in
          (hdfu, emit CtlError pdev)
      else if wblock_num hdfu >? 1 then
        let addr := block_address hdfu in
        (hdfu, emit_if (Write media)
                 (Media_Write addr (buffer hdfu) (wlength hdfu)) pdev)
      else (hdfu, pdev) in
    let hdfu := set_wlength 0 hdfu in
    let hdfu := set_wblock_num 0 hdfu in
    let hdfu := set_dev_state DFU_STATE_DNLOAD_SYNC hdfu in
    let hdfu := sync_status 0 hdfu in
    Ok (USBD_OK, set_pClassData (Some hdfu) pdev)
  else if dev_state hdfu =? DFU_STATE_MANIFEST then
    pdev <- DFU_Leave pdev ;;
    Ok (USBD_OK, pdev)
  else Ok (USBD_OK, pdev).

(** [DFU_Detach] *)
Definition DFU_Detach (pdev : Dev) (req : USBD_SetupReqTypedef) : Result Dev :=
  hdfu <- deref (pClassData pdev) ;;
  let pdev :=
    if abortable (dev_state hdfu) then
      let hdfu := reset_status DFU_STATE_IDLE DFU_ERROR_NONE hdfu in
      let hdfu := set_wblock_num 0 hdfu in
      let hdfu := set_wlength 0 hdfu in
      set_pClassData (Some hdfu) pdev
    else pdev in
  if negb (USBD_DFU_DETACH_SUPPORT =? 0) then
    Ok (emit Core_Start (emit Core_Stop pdev))
  else
    Ok (emit (Core_Delay (wValue req)) pdev).

(** [DFU_Download] *)
Definition DFU_Download (pdev : Dev) (req : USBD_SetupReqTypedef) : Result Dev :=
  hdfu <- deref (pClassData pdev) ;;
  if wLength req >? 0 then
    if (dev_state hdfu =? DFU_STATE_IDLE)
       || (dev_state hdfu =? DFU_STATE_DNLOAD_IDLE) then
      let hdfu := set_wblock_num (wValue req) hdfu in
      let hdfu := set_wlength (wLength req) hdfu in
      let hdfu := set_dev_state DFU_STATE_DNLOAD_SYNC hdfu in
      let hdfu := set_ds 4 (dev_state hdfu) hdfu in
      Ok (emit (CtlPrepareRx (wlength hdfu)) (set_pClassData (Some hdfu) pdev))
    else
      Ok (emit CtlError pdev)
  else
    if (dev_state hdfu =? DFU_STATE_DNLOAD_IDLE)
       || (dev_state hdfu =? DFU_STATE_IDLE) then
      let hdfu := set_manif_state DFU_MANIFEST_IN_PROGRESS hdfu in
      let hdfu := set_dev_state DFU_STATE_MANIFEST_SYNC hdfu in
      let hdfu := sync_status 0 hdfu in
      Ok (set_pClassData (Some hdfu) pdev)
    else
      Ok (emit CtlError pdev).

(** [DFU_Upload] *)
Definition DFU_Upload (media : USBD_DFU_MediaTypeDef) (pdev : Dev)
    (req : USBD_SetupReqTypedef) : Result Dev :=
  hdfu <- deref (pClassData pdev) ;;
  if wLength req >? 0 then
    if (dev_state hdfu =? DFU_STATE_IDLE)
       || (dev_state hdfu =? DFU_STATE_UPLOAD_IDLE) then
      let hdfu := set_wblock_num (wValue req) hdfu in
      let hdfu := set_wlength (wLength req) hdfu in
      if wblock_num hdfu =? 0 then
        let hdfu :=
          set_dev_state (if wlength hdfu >? 3 then DFU_STATE_IDLE
                         else DFU_STATE_UPLOAD_IDLE) hdfu in
        let hdfu := sync_status 0 hdfu in
        let hdfu := set_buffer (<[0%nat := DFU_CMD_GETCOMMANDS]> (buffer hdfu)) hdfu in
        let hdfu := set_buffer (<[1%nat := DFU_CMD_SETADDRESSPOINTER]> (buffer hdfu)) hdfu in
        let hdfu := set_buffer (<[2%nat := DFU_CMD_ERASE]> (buffer hdfu)) hdfu in
        Ok (emit (CtlSendData (buffer hdfu) 3) (set_pClassData (Some hdfu) pdev))
      else if wblock_num hdfu >? 1 then
        let hdfu := set_dev_state DFU_STATE_UPLOAD_IDLE hdfu in
        let hdfu := sync_status 0 hdfu in
        let addr := block_address hdfu in
        let '(hdfu, pdev) :=
          match Read media with
          | Some rd =>
              (set_buffer (rd (buffer hdfu) addr (wlength hdfu)) hdfu,
               emit (Media_Read addr (wlength hdfu)) pdev)
          | None => (hdfu, pdev)
          end in
        Ok (emit (CtlSendData (buffer hdfu) (wlength hdfu))
              (set_pClassData (Some hdfu) pdev))
      else
        let hdfu := set_dev_state DFU_ERROR_STALLEDPKT hdfu in
        let hdfu := sync_status 0 hdfu in
        Ok (emit CtlError (set_pClassData (Some hdfu) pdev))
    else
      let hdfu := set_wlength 0 hdfu in
      let hdfu := set_wblock_num 0 hdfu in
      Ok (emit CtlError (set_pClassData (Some hdfu) pdev))
  else
    let hdfu := set_dev_state DFU_STATE_IDLE hdfu in
    let hdfu := sync_status 0 hdfu in
    Ok (set_pClassData (Some hdfu) pdev).

(** [DFU_GetStatus] *)
Definition DFU_GetStatus (media : USBD_DFU_MediaTypeDef) (pdev : Dev)
    : Result Dev :=
  hdfu <- deref (pClassData pdev) ;;
  let '(hdfu, pdev) :=
    if dev_state hdfu =? DFU_STATE_DNLOAD_SYNC then
      if negb (wlength hdfu =? 0) then
        let hdfu := set_dev_state DFU_STATE_DNLOAD_BUSY hdfu in
        let hdfu := sync_status 0 hdfu in
        match GetStatus media with
        | Some gs =>
            let op :=
              if (wblock_num hdfu =? 0) && (d8 hdfu 0 =? DFU_CMD_ERASE)
              then DFU_MEDIA_ERASE else DFU_MEDIA_PROGRAM in
            (set_dev_status (gs (data_ptr hdfu) op (dev_status hdfu)) hdfu,
             emit (Media_GetStatus (data_ptr hdfu) op) pdev)
        | None => (hdfu, pdev)
        end
      else
        let hdfu := set_dev_state DFU_STATE_DNLOAD_IDLE hdfu in
        (sync_status 0 hdfu, pdev)
    else if dev_state hdfu =? DFU_STATE_MANIFEST_SYNC then
      if manif_state hdfu =? DFU_MANIFEST_IN_PROGRESS then
        let hdfu := set_dev_state DFU_STATE_MANIFEST hdfu in
        (sync_status 1 hdfu, pdev)
      else if (manif_state hdfu =? DFU_MANIFEST_COMPLETE)
              && DFU_MANIFEST_TOLERANT then
        let hdfu := set_dev_state DFU_STATE_IDLE hdfu in
        (sync_status 0 hdfu, pdev)
      else (hdfu, pdev)
    else (hdfu, pdev) in
  Ok (emit (CtlSendData (DevStatus_bytes (dev_status hdfu)) 6)
        (set_pClassData (Some hdfu) pdev)).

(** [DFU_ClearStatus] *)
Definition DFU_ClearStatus (pdev : Dev) : Result Dev :=
  hdfu <- deref (pClassData pdev) ;;
  if dev_state hdfu =? DFU_STATE_ERROR then
    Ok (set_pClassData (Some (reset_status DFU_STATE_IDLE DFU_ERROR_NONE hdfu)) pdev)
  else
    Ok (set_pClassData (Some (reset_status DFU_STATE_ERROR DFU_ERROR_UNKNOWN hdfu)) pdev).

(** [DFU_GetState] *)
Definition DFU_GetState (pdev : Dev) : Result Dev :=
  hdfu <- deref (pClassData pdev) ;;
  Ok (emit (CtlSendData [dev_state hdfu] 1) pdev).

(** [DFU_Abort] *)
Definition DFU_Abort (pdev : Dev) : Result Dev :=
  hdfu <- deref (pClassData pdev) ;;
  if abortable (dev_state hdfu) then
    let hdfu := reset_status DFU_STATE_IDLE DFU_ERROR_NONE hdfu in
    let hdfu := set_wblock_num 0 hdfu in
    let hdfu := set_wlength 0 hdfu in
    Ok (set_pClassData (Some hdfu) pdev)
  else Ok pdev.

(** [USBD_DFU_Setup] *)
Definition USBD_DFU_Setup (media : USBD_DFU_MediaTypeDef) (pdev : Dev)
    (req : USBD_SetupReqTypedef) : Result (USBD_StatusTypeDef * Dev) :=
  let hdfu := pClassData pdev in
  let ty := Z.land (bmRequest req) USB_REQ_TYPE_MASK in
  if ty =? USB_REQ_TYPE_CLASS then
    pdev <- (if bRequest req =? DFU_DOWNLOAD then DFU_Download pdev req
             else if bRequest req =? DFU_UPLOAD then DFU_Upload media pdev req
             else if bRequest req =? DFU_GETSTATUS then DFU_GetStatus media pdev
             else if bRequest req =? DFU_CLEARSTATUS then DFU_ClearStatus pdev
             else if bRequest req =? DFU_GETSTATE then DFU_GetState pdev
             else if bRequest req =? DFU_ABORT then DFU_Abort pdev
             else if bRequest req =? DFU_DETACH then DFU_Detach pdev req
             else Ok (emit CtlError pdev)) ;;
    Ok (USBD_OK, pdev)
  else if ty =? USB_REQ_TYPE_STANDARD then
    if bRequest req =? USB_REQ_GET_DESCRIPTOR then
      if Z.shiftr (wValue req) 8 =? DFU_DESCRIPTOR_TYPE then
        Ok (USBD_OK, emit (CtlSendData DFU_FunctionalDesc
                             (Z.min USB_DFU_DESC_SIZ (wLength req))) pdev)
      else
        Ok (USBD_OK, emit (CtlSendData [] 0) pdev)
    else if bRequest req =? USB_REQ_GET_INTERFACE then
      h <- deref hdfu ;;
      Ok (USBD_OK, emit (CtlSendData [alt_setting h] 1) pdev)
    else if bRequest req =? USB_REQ_SET_INTERFACE then
      if wrap8 (wValue req) <? USBD_DFU_MAX_ITF_NUM then
        h <- deref hdfu ;;
        Ok (USBD_OK,
            set_pClassData (Some (set_alt_setting (wrap8 (wValue req)) h)) pdev)
      else
        Ok (USBD_OK, emit CtlError pdev)
    else
      Ok (USBD_OK, emit CtlError pdev)
  else Ok (USBD_OK, pdev).

End Driver.

(** *** Vocabulary of the statements about the driver *)

(** The state byte of the wire status record is the protocol state. *)
Definition status_in_sync (h : USBD_DFU_HandleTypeDef) : Prop :=
  ds4 (dev_status h) = dev_state h.

Definition dev_in_sync (pdev : Dev) : Prop :=
  forall h, pClassData pdev = Some h -> status_in_sync h.

(** The media [GetStatus] callback, when there is one, leaves the state byte
    of the record it is handed as it found it. *)
Definition GetStatus_keeps_bState (media : USBD_DFU_MediaTypeDef) : Prop :=
  forall gs, GetStatus media = Some gs ->
  forall addr op s, ds4 (gs addr op s) = ds4 s.

Section Steps.
Context `{UD : UsbdDef} `{DD : UsbdDfuDef}.

(** One completed call of a request handler or of an entry point. *)
Inductive handler_step (media : USBD_DFU_MediaTypeDef) : Dev -> Dev -> Prop :=
| step_Download pdev req pdev' :
    DFU_Download pdev req = Ok pdev' -> handler_step media pdev pdev'
| step_Upload pdev req pdev' :
    DFU_Upload media pdev req = Ok pdev' -> handler_step media pdev pdev'
| step_GetStatus pdev pdev' :
    DFU_GetStatus media pdev = Ok pdev' -> handler_step media pdev pdev'
| step_ClearStatus pdev pdev' :
    DFU_ClearStatus pdev = Ok pdev' -> handler_step media pdev pdev'
| step_GetState pdev pdev' :
    DFU_GetState pdev = Ok pdev' -> handler_step media pdev pdev'
| step_Abort pdev pdev' :
    DFU_Abort pdev = Ok pdev' -> handler_step media pdev pdev'
| step_Detach pdev req pdev' :
    DFU_Detach pdev req = Ok pdev' -> handler_step media pdev pdev'
| step_Leave pdev pdev' :
    DFU_Leave pdev = Ok pdev' -> handler_step media pdev pdev'
| step_EP0_TxReady pdev st pdev' :
    USBD_DFU_EP0_TxReady media pdev = Ok (st, pdev') ->
    handler_step media pdev pdev'
| step_Setup pdev req st pdev' :
    USBD_DFU_Setup media pdev req = Ok (st, pdev') ->
    handler_step media pdev pdev'
(* the data stage of a control OUT transfer fills [buffer] *)
| step_data_stage pdev h buf :
    pClassData pdev = Some h ->
    handler_step media pdev (set_pClassData (Some (set_buffer buf h)) pdev).

(** The devices that [USBD_DFU_Init] followed by completed calls lead to. *)
Inductive reachable (media : USBD_DFU_MediaTypeDef) : Dev -> Prop :=
| reach_Init mem pdev0 cfgidx :
    reachable media (USBD_DFU_Init mem media pdev0 cfgidx).2
| reach_step pdev pdev' :
    reachable media pdev -> handler_step media pdev pdev' ->
    reachable media pdev'.

End Steps.

(** The codes of the DFU 1.1 specification, which usbd_dfu.c names as the one
    it follows, with ST's block 0 commands and a 1024 byte transfer size; used
    where a concrete run is evaluated. *)
Definition dfu_1_1 : UsbdDfuDef := {|
  DFU_STATE_IDLE                := 2;
  DFU_STATE_DNLOAD_SYNC         := 3;
  DFU_STATE_DNLOAD_BUSY         := 4;
  DFU_STATE_DNLOAD_IDLE         := 5;
  DFU_STATE_MANIFEST_SYNC       := 6;
  DFU_STATE_MANIFEST            := 7;
  DFU_STATE_MANIFEST_WAIT_RESET := 8;
  DFU_STATE_UPLOAD_IDLE         := 9;
  DFU_STATE_ERROR               := 10;
  DFU_STATE_distinct            := eq_refl;
  DFU_ERROR_NONE       := 0x00;
  DFU_ERROR_UNKNOWN    := 0x0E;
  DFU_ERROR_STALLEDPKT := 0x0F;
  DFU_MANIFEST_COMPLETE    := 0;
  DFU_MANIFEST_IN_PROGRESS := 1;
  DFU_CMD_GETCOMMANDS       := 0x00;
  DFU_CMD_SETADDRESSPOINTER := 0x21;
  DFU_CMD_ERASE             := 0x41;
  DFU_MEDIA_ERASE   := 0;
  DFU_MEDIA_PROGRAM := 1;
  DFU_DETACH      := 0;
  DFU_DOWNLOAD    := 1;
  DFU_UPLOAD      := 2;
  DFU_GETSTATUS   := 3;
  DFU_CLEARSTATUS := 4;
  DFU_GETSTATE    := 5;
  DFU_ABORT       := 6;
  DFU_DESCRIPTOR_TYPE       := 0x21;
  USB_DFU_DESC_SIZ          := 9;
  USBD_DFU_MAX_ITF_NUM      := 1;
  USBD_DFU_XFER_SIZE        := 1024;
  USBD_DFU_DOWNLOAD_SUPPORT := 1;
  USBD_DFU_UPLOAD_SUPPORT   := 1;
  USBD_DFU_DETACH_SUPPORT   := 1
|}.

(** *** Concrete devices *)

(** A media interface with every callback; [GetStatus] fills the poll
    timeout of the record (50 ms to erase, 1 ms to program). *)
Definition flash_media : USBD_DFU_MediaTypeDef := {|
  StartAddress := 0x08008000;
  Init := true; DeInit := true; Erase := true; Write := true;
  Read := Some (fun buf _ _ => buf);
  GetStatus := Some (fun _ op s =>
    {| ds0 := ds0 s; ds1 := if op =? 0 then 50 else 1; ds2 := 0; ds3 := 0;
       ds4 := ds4 s; ds5 := ds5 s |})
|}.

(** A media interface whose [GetStatus] writes the whole record it is handed:
    it clears the six bytes and then sets the poll timeout. *)
Definition clearing_media : USBD_DFU_MediaTypeDef := {|
  StartAddress := 0x08008000;
  Init := true; DeInit := true; Erase := true; Write := true;
  Read := Some (fun buf _ _ => buf);
  GetStatus := Some (fun _ op _ =>
    {| ds0 := 0; ds1 := if op =? 0 then 50 else 1; ds2 := 0; ds3 := 0;
       ds4 := 0; ds5 := 0 |})
|}.

(** A medium at the top of the 32-bit address space. *)
Definition top_media : USBD_DFU_MediaTypeDef := {|
  StartAddress := 0xFFFFFC00;
  Init := true; DeInit := true; Erase := true; Write := true;
  Read := Some (fun buf _ _ => buf);
  GetStatus := None
|}.

(** The block [USBD_malloc] returns, with some content. *)
Definition raw_handle : USBD_DFU_HandleTypeDef := {|
  buffer := repeat 0 1024; dev_state := 0;
  dev_status := {| ds0 := 0; ds1 := 0; ds2 := 0; ds3 := 0; ds4 := 0; ds5 := 0 |};
  manif_state := 0; wblock_num := 0; wlength := 0; data_ptr := 0;
  alt_setting := 0
|}.

(** The device after [USBD_DFU_Init], under the DFU 1.1 codes. *)
Definition idle_device (media : USBD_DFU_MediaTypeDef) : Dev :=
  (USBD_DFU_Init (DD := dfu_1_1) (Some raw_handle) media unconfigured 0).2.

(** Requests of a DFU 1.1 host. *)
Definition req_DNLOAD (block len : Z) : USBD_SetupReqTypedef :=
  {| bmRequest := 0x21; bRequest := 1; wValue := block; wIndex := 0;
     wLength := len |}.
Definition req_UPLOAD (block len : Z) : USBD_SetupReqTypedef :=
  {| bmRequest := 0xA1; bRequest := 2; wValue := block; wIndex := 0;
     wLength := len |}.
Definition req_GETSTATUS : USBD_SetupReqTypedef :=
  {| bmRequest := 0xA1; bRequest := 3; wValue := 0; wIndex := 0;
     wLength := 6 |}.
Definition req_ABORT : USBD_SetupReqTypedef :=
  {| bmRequest := 0x21; bRequest := 6; wValue := 0; wIndex := 0;
     wLength := 0 |}.

Definition req_GETSTATE : USBD_SetupReqTypedef :=
  {| bmRequest := 0xA1; bRequest := 5; wValue := 0; wIndex := 0;
     wLength := 1 |}.
Definition req_CLRSTATUS : USBD_SetupReqTypedef :=
  {| bmRequest := 0x21; bRequest := 4; wValue := 0; wIndex := 0;
     wLength := 0 |}.
Definition req_DETACH (timeout : Z) : USBD_SetupReqTypedef :=
  {| bmRequest := 0x21; bRequest := 0; wValue := timeout; wIndex := 0;
     wLength := 0 |}.

(** Standard requests to the interface. *)
Definition req_SET_INTERFACE (alt : Z) : USBD_SetupReqTypedef :=
  {| bmRequest := 0x01; bRequest := 0x0B; wValue := alt; wIndex := 0;
     wLength := 0 |}.
Definition req_GET_INTERFACE : USBD_SetupReqTypedef :=
  {| bmRequest := 0x81; bRequest := 0x0A; wValue := 0; wIndex := 0;
     wLength := 1 |}.

(** A handle in the middle of a download, under the DFU 1.1 codes: block
    [block] of [len] bytes is in [buffer] and GETSTATUS has moved the state
    to DNLOAD_BUSY. *)
Definition busy_handle (block len : Z) (buf : list Z)
    : USBD_DFU_HandleTypeDef := {|
  buffer := buf; dev_state := 4;
  dev_status := {| ds0 := 0; ds1 := 0; ds2 := 0; ds3 := 0; ds4 := 4; ds5 := 0 |};
  manif_state := 0; wblock_num := block; wlength := len;
  data_ptr := 0x08008000; alt_setting := 0
|}.

Definition busy_device (block len : Z) (buf : list Z) : Dev :=
  set_pClassData (Some (busy_handle block len buf)) unconfigured.

(** A handle in the ERROR state, under the DFU 1.1 codes, with the status
    errUNKNOWN that DFU_ClearStatus records. *)
Definition error_handle : USBD_DFU_HandleTypeDef := {|
  buffer := repeat 0 1024; dev_state := 10;
  dev_status := {| ds0 := 0x0E; ds1 := 0; ds2 := 0; ds3 := 0; ds4 := 10; ds5 := 0 |};
  manif_state := 0; wblock_num := 0; wlength := 0;
  data_ptr := 0x08008000; alt_setting := 0
|}.

Definition error_device : Dev :=
  set_pClassData (Some error_handle) unconfigured.

(** *** Sequences of calls *)

Section Sequences.
Context `{UD : UsbdDef} `{DD : UsbdDfuDef}.

(** The values that usbd_dfu.c assigns to [dev_state]: the nine protocol
    states and, in DFU_Upload, the status code DFU_ERROR_STALLEDPKT. *)
Definition assigned_states : list Z :=
  [DFU_STATE_IDLE; DFU_STATE_DNLOAD_SYNC; DFU_STATE_DNLOAD_BUSY;
   DFU_STATE_DNLOAD_IDLE; DFU_STATE_MANIFEST_SYNC; DFU_STATE_MANIFEST;
   DFU_STATE_MANIFEST_WAIT_RESET; DFU_STATE_UPLOAD_IDLE; DFU_STATE_ERROR;
   DFU_ERROR_STALLEDPKT].

(** The state of the device's handle, when there is one, is one of them. *)
Definition dev_assigned (pdev : Dev) : Prop :=
  forall h, pClassData pdev = Some h -> In (dev_state h) assigned_states.

(** The data stage of a control OUT transfer.  DFU_Download hands
    [hdfu->buffer.d8] to [USBD_CtlPrepareRx]; the bytes of the data stage are
    stored there.  [buf] is the content of the array after the stage. *)
Definition data_stage (buf : list Z) (pdev : Dev) : Result Dev :=
  hdfu <- deref (pClassData pdev) ;;
  Ok (set_pClassData (Some (set_buffer buf hdfu)) pdev).

(** The download of one block, as the calls the driver sees: the DNLOAD
    request, its data stage, GETSTATUS, the end of the GETSTATUS transfer
    (USBD_DFU_EP0_TxReady), and GETSTATUS again. *)
Definition download_block (media : USBD_DFU_MediaTypeDef) (pdev : Dev)
    (req : USBD_SetupReqTypedef) (buf : list Z) : Result Dev :=
  pdev <- DFU_Download pdev req ;;
  pdev <- data_stage buf pdev ;;
  pdev <- DFU_GetStatus media pdev ;;
  sp <- USBD_DFU_EP0_TxReady media pdev ;;
  DFU_GetStatus media sp.2.

(** The same without the last GETSTATUS. *)
Definition download_command (media : USBD_DFU_MediaTypeDef) (pdev : Dev)
    (req : USBD_SetupReqTypedef) (buf : list Z) : Result Dev :=
  pdev <- DFU_Download pdev req ;;
  pdev <- data_stage buf pdev ;;
  pdev <- DFU_GetStatus media pdev ;;
  sp <- USBD_DFU_EP0_TxReady media pdev ;;
  Ok sp.2.

(** The end of a download: a DNLOAD request without data, GETSTATUS, and
    the end of the GETSTATUS transfer. *)
Definition manifestation (media : USBD_DFU_MediaTypeDef) (pdev : Dev)
    (req : USBD_SetupReqTypedef) : Result Dev :=
  pdev <- DFU_Download pdev req ;;
  pdev <- DFU_GetStatus media pdev ;;
  sp <- USBD_DFU_EP0_TxReady media pdev ;;
  Ok sp.2.

End Sequences.

End DFU.

(** * CDC class driver (usbd_cdc.c) *)

Module CDC.

(** The endpoint addresses and packet sizes of usbd_cdc.h, which is not among
    the sources. *)
Class UsbdCdcDef : Type := {
  CDC_IN_EP  : Z;
  CDC_OUT_EP : Z;
  CDC_CMD_EP : Z;
  CDC_DATA_HS_IN_PACKET_SIZE  : Z;
  CDC_DATA_HS_OUT_PACKET_SIZE : Z;
  CDC_DATA_FS_IN_PACKET_SIZE  : Z;
  CDC_DATA_FS_OUT_PACKET_SIZE : Z;
  CDC_CMD_PACKET_SIZE : Z
}.

(** [USBD_CDC_HandleTypeDef]: the fields usbd_cdc.c uses. *)
Record USBD_CDC_HandleTypeDef : Type := {
  data      : list Z;   (* control transfer staging buffer *)
  CmdOpCode : Z;
  CmdLength : Z;
  RxBuffer  : ptr;
  TxBuffer  : ptr;
  TxLength  : Z;
  TxState   : USBD_StatusTypeDef
}.

(** [USBD_CDC_ItfTypeDef]: a NULL callback is [false] or [None].  [Control]
    returns the new content of the buffer it is handed. *)
Record USBD_CDC_ItfTypeDef : Type := {
  Init        : bool;
  DeInit      : bool;
  Control     : option (Z -> list Z -> Z -> list Z);
  Transmitted : bool;
  Received    : bool
}.

Definition Dev : Type := USBD_HandleTypeDef USBD_CDC_HandleTypeDef.

Definition set_data (v : list Z) (h : USBD_CDC_HandleTypeDef) :=
  {| data := v; CmdOpCode := CmdOpCode h; CmdLength := CmdLength h;
     RxBuffer := RxBuffer h; TxBuffer := TxBuffer h; TxLength := TxLength h;
     TxState := TxState h |}.
Definition set_CmdOpCode (v : Z) (h : USBD_CDC_HandleTypeDef) :=
  {| data := data h; CmdOpCode := v; CmdLength := CmdLength h;
     RxBuffer := RxBuffer h; TxBuffer := TxBuffer h; TxLength := TxLength h;
     TxState := TxState h |}.
Definition set_CmdLength (v : Z) (h : USBD_CDC_HandleTypeDef) :=
  {| data := data h; CmdOpCode := CmdOpCode h; CmdLength := v;
     RxBuffer := RxBuffer h; TxBuffer := TxBuffer h; TxLength := TxLength h;
     TxState := TxState h |}.
Definition set_RxBuffer (v : ptr) (h : USBD_CDC_HandleTypeDef) :=
  {| data := data h; CmdOpCode := CmdOpCode h; CmdLength := CmdLength h;
     RxBuffer := v; TxBuffer := TxBuffer h; TxLength := TxLength h;
     TxState := TxState h |}.
Definition set_TxBuffer (v : ptr) (h : USBD_CDC_HandleTypeDef) :=
  {| data := data h; CmdOpCode := CmdOpCode h; CmdLength := CmdLength h;
     RxBuffer := RxBuffer h; TxBuffer := v; TxLength := TxLength h;
     TxState := TxState h |}.
Definition set_TxLength (v : Z) (h : USBD_CDC_HandleTypeDef) :=
  {| data := data h; CmdOpCode := CmdOpCode h; CmdLength := CmdLength h;
     RxBuffer := RxBuffer h; TxBuffer := TxBuffer h; TxLength := v;
     TxState := TxState h |}.
Definition set_TxState (v : USBD_StatusTypeDef) (h : USBD_CDC_HandleTypeDef) :=
  {| data := data h; CmdOpCode := CmdOpCode h; CmdLength := CmdLength h;
     RxBuffer := RxBuffer h; TxBuffer := TxBuffer h; TxLength := TxLength h;
     TxState := v |}.

Section Driver.
Context `{UD : UsbdDef} `{CD : UsbdCdcDef}.

(** [USBD_CDC_Init].  [mem] is what [USBD_malloc] returns. *)
Definition USBD_CDC_Init (mem : option USBD_CDC_HandleTypeDef)
    (itf : USBD_CDC_ItfTypeDef) (pdev : Dev) (cfgidx : Z)
    : USBD_StatusTypeDef * Dev :=
  let '(in_packet_size, out_packet_size) :=
    match DEVICE_HS, dev_speed pdev with
    | true, USBD_SPEED_HIGH =>
        (CDC_DATA_HS_IN_PACKET_SIZE, CDC_DATA_HS_OUT_PACKET_SIZE)
    | _, _ => (CDC_DATA_FS_IN_PACKET_SIZE, CDC_DATA_FS_OUT_PACKET_SIZE)
    end in
  let pdev := emit (LL_OpenEP CDC_IN_EP USBD_EP_TYPE_BULK in_packet_size) pdev in
  let pdev := emit (LL_OpenEP CDC_OUT_EP USBD_EP_TYPE_BULK out_packet_size) pdev in
  let pdev := emit (LL_OpenEP CDC_CMD_EP USBD_EP_TYPE_INTR CDC_CMD_PACKET_SIZE) pdev in
  match mem with
  | Some hcdc =>
      let hcdc := set_TxState USBD_OK hcdc in
      let hcdc := set_RxBuffer NULL hcdc in
      let hcdc := set_TxBuffer (RxBuffer hcdc) hcdc in
      let pdev := set_pClassData (Some hcdc) pdev in
      (USBD_OK, emit_if (Init itf) Itf_Init pdev)
  | None => (USBD_OK, set_pClassData None pdev)
  end.

(** [USBD_CDC_DeInit] *)
Definition USBD_CDC_DeInit (itf : USBD_CDC_ItfTypeDef) (pdev : Dev)
    (cfgidx : Z) : USBD_StatusTypeDef * Dev :=
  let pdev := emit (LL_CloseEP CDC_IN_EP) pdev in
  let pdev := emit (LL_CloseEP CDC_OUT_EP) pdev in
  let pdev := emit (LL_CloseEP CDC_CMD_EP) pdev in
  match pClassData pdev with
  | Some _ =>
      let pdev := emit_if (DeInit itf) Itf_DeInit pdev in
      (USBD_OK, set_pClassData None pdev)
  | None => (USBD_OK, pdev)
  end.

(** [USBD_CDC_Setup].  [hcdc->data] is handed to [Control] and to the control
    helpers without a test of [hcdc]; so are the stores to [CmdOpCode] and
    [CmdLength]. *)
Definition USBD_CDC_Setup (itf : USBD_CDC_ItfTypeDef) (pdev : Dev)
    (req : USBD_SetupReqTypedef) : Result (USBD_StatusTypeDef * Dev) :=
  let hcdc := pClassData pdev in
  let ty := Z.land (bmRequest req) USB_REQ_TYPE_MASK in
  if ty =? USB_REQ_TYPE_CLASS then
    if negb (wLength req =? 0) then
      if negb (Z.land (bmRequest req) 0x80 =? 0) then
        match Control itf with
        | Some ctl =>
            h <- deref hcdc ;;
            let h := set_data (ctl (bRequest req) (data h) (wLength req)) h in
            let pdev := set_pClassData (Some h) pdev in
            let pdev := emit (CDC_Control (bRequest req) (wLength req)) pdev in
            Ok (USBD_OK, emit (CtlSendData (data h) (wLength req)) pdev)
        | None => Ok (USBD_OK, pdev)
        end
      else
        h <- deref hcdc ;;
        let h := set_CmdOpCode (bRequest req) h in
        let h := set_CmdLength (wLength req) h in
        let pdev := set_pClassData (Some h) pdev in
        Ok (USBD_OK, emit (CtlPrepareRx (wLength req)) pdev)
    else
      match Control itf with
      | Some _ => Ok (USBD_OK, emit (CDC_Control (bRequest req) 0) pdev)
      | None => Ok (USBD_OK, pdev)
      end
  else if ty =? USB_REQ_TYPE_STANDARD then
    if bRequest req =? USB_REQ_GET_INTERFACE then
      Ok (USBD_OK, emit (CtlSendData [0] 1) pdev)
    else Ok (USBD_OK, pdev)
  else Ok (USBD_OK, pdev).

(** [USBD_CDC_DataIn] *)
Definition USBD_CDC_DataIn (itf : USBD_CDC_ItfTypeDef) (pdev : Dev)
    (epnum : Z) : USBD_StatusTypeDef * Dev :=
  match pClassData pdev with
  | Some hcdc =>
      let hcdc := set_TxState USBD_OK hcdc in
      let pdev := set_pClassData (Some hcdc) pdev in
      (USBD_OK, emit_if (Transmitted itf)
                  (CDC_Transmitted (TxBuffer hcdc) (TxLength hcdc)) pdev)
  | None => (USBD_OK, pdev)
  end.

(** [USBD_CDC_DataOut].  [rx_size] is what [USBD_LL_GetRxDataSize] returns. *)
Definition USBD_CDC_DataOut (rx_size : Z) (itf : USBD_CDC_ItfTypeDef)
    (pdev : Dev) (epnum : Z) : USBD_StatusTypeDef * Dev :=
  match pClassData pdev with
  | Some hcdc =>
      (USBD_OK, emit_if (Received itf)
                  (CDC_Received (RxBuffer hcdc) rx_size) pdev)
  | None => (USBD_OK, pdev)
  end.

(** [USBD_CDC_EP0_RxReady] *)
Definition USBD_CDC_EP0_RxReady (itf : USBD_CDC_ItfTypeDef) (pdev : Dev)
    : USBD_StatusTypeDef * Dev :=
  match Control itf, pClassData pdev with
  | Some ctl, Some hcdc =>
      if negb (CmdOpCode hcdc =? 0xFF) then
        let pdev := emit (CDC_Control (CmdOpCode hcdc) (CmdLength hcdc)) pdev in
        let hcdc' := set_data (ctl (CmdOpCode hcdc) (data hcdc) (CmdLength hcdc)) hcdc in
        let hcdc' := set_CmdOpCode 0xFF hcdc' in
        (USBD_OK, set_pClassData (Some hcdc') pdev)
      else (USBD_OK, pdev)
  | _, _ => (USBD_OK, pdev)
  end.

(** [USBD_CDC_Transmit].  [ll_ret] is what [USBD_LL_Transmit] returns. *)
Definition USBD_CDC_Transmit (ll_ret : USBD_StatusTypeDef) (pdev : Dev)
    (pbuff : ptr) (length : Z) : USBD_StatusTypeDef * Dev :=
  let retval := USBD_FAIL in
  match pClassData pdev with
  | Some hcdc =>
      let retval := TxState hcdc in
      if USBD_Status_eqb retval USBD_OK then
        let hcdc := set_TxState USBD_BUSY hcdc in
        let hcdc := set_TxBuffer pbuff hcdc in
        let hcdc := set_TxLength length hcdc in
        let pdev := set_pClassData (Some hcdc) pdev in
        (ll_ret, emit (LL_Transmit CDC_IN_EP pbuff length) pdev)
      else (retval, pdev)
  | None => (retval, pdev)
  end.

(** [USBD_CDC_Receive].  [ll_ret] is what [USBD_LL_PrepareReceive] returns. *)
Definition USBD_CDC_Receive (ll_ret : USBD_StatusTypeDef) (pdev : Dev)
    (pbuff : ptr) (length : Z) : USBD_StatusTypeDef * Dev :=
  let retval := USBD_FAIL in
  match pClassData pdev with
  | Some hcdc =>
      let hcdc := set_RxBuffer pbuff hcdc in
      let pdev := set_pClassData (Some hcdc) pdev in
      (ll_ret, emit (LL_PrepareReceive CDC_OUT_EP (RxBuffer hcdc) length) pdev)
  | None => (retval, pdev)
  end.

End Driver.

(** The endpoint addresses and packet sizes of ST's usbd_cdc.h, used where a
    concrete run is evaluated. *)
Definition cdc_st : UsbdCdcDef := {|
  CDC_IN_EP  := 0x81;
  CDC_OUT_EP := 0x01;
  CDC_CMD_EP := 0x82;
  CDC_DATA_HS_IN_PACKET_SIZE  := 512;
  CDC_DATA_HS_OUT_PACKET_SIZE := 512;
  CDC_DATA_FS_IN_PACKET_SIZE  := 64;
  CDC_DATA_FS_OUT_PACKET_SIZE := 64;
  CDC_CMD_PACKET_SIZE := 8
|}.

(** An interface with every callback; [Control] leaves the buffer as it is. *)
Definition vcp_itf : USBD_CDC_ItfTypeDef := {|
  Init := true; DeInit := true; Control := Some (fun _ d _ => d);
  Transmitted := true; Received := true
|}.

(** The block [USBD_malloc] returns, with some content. *)
Definition raw_handle : USBD_CDC_HandleTypeDef := {|
  data := repeat 0 128; CmdOpCode := 0; CmdLength := 0; RxBuffer := 0;
  TxBuffer := 0; TxLength := 0; TxState := USBD_FAIL
|}.

(** The device after [USBD_CDC_Init], with ST's endpoints. *)
Definition ready_device : Dev :=
  (USBD_CDC_Init (UD := usb_2_0) (CD := cdc_st) (Some raw_handle) vcp_itf
     unconfigured 0).2.

(** SET_LINE_CODING: a class request with seven bytes of data, host to
    device. *)
Definition req_SET_LINE_CODING : USBD_SetupReqTypedef :=
  {| bmRequest := 0x21; bRequest := 0x20; wValue := 0; wIndex := 0;
     wLength := 7 |}.

(** *** Sequences of calls *)

(** The data stage of a control OUT transfer.  USBD_CDC_Setup hands
    [hcdc->data] to [USBD_CtlPrepareRx]; the bytes of the data stage are
    stored there.  [buf] is the content of the array after the stage. *)
Definition data_stage (buf : list Z) (pdev : Dev) : Dev :=
  match pClassData pdev with
  | Some hcdc => set_pClassData (Some (set_data buf hcdc)) pdev
  | None => pdev
  end.

End CDC.

(** * RNDIS class driver (rndis.h, usbd_rndis.h, usbd_rndis.c) *)

Module RNDIS.

(** *** rndis.h, rndis_oid.h *)

(** [RNDIS_MsgType] *)
Definition REMOTE_NDIS_PACKET_MSG          : Z := 0x00000001.
Definition REMOTE_NDIS_INITIALIZE_MSG      : Z := 0x00000002.
Definition REMOTE_NDIS_INITIALIZE_CMPLT    : Z := 0x80000002.
Definition REMOTE_NDIS_HALT_MSG            : Z := 0x00000003.
Definition REMOTE_NDIS_QUERY_MSG           : Z := 0x00000004.
Definition REMOTE_NDIS_QUERY_CMPLT         : Z := 0x80000004.
Definition REMOTE_NDIS_SET_MSG             : Z := 0x00000005.
Definition REMOTE_NDIS_SET_CMPLT           : Z := 0x80000005.
Definition REMOTE_NDIS_RESET_MSG           : Z := 0x00000006.
Definition REMOTE_NDIS_RESET_CMPLT         : Z := 0x80000006.
Definition REMOTE_NDIS_INDICATE_STATUS_MSG : Z := 0x00000007.
Definition REMOTE_NDIS_KEEPALIVE_MSG       : Z := 0x00000008.
Definition REMOTE_NDIS_KEEPALIVE_CMPLT     : Z := 0x80000008.

(** [RNDIS_StatusType] *)
Definition RNDIS_STATUS_SUCCESS : Z := 0x00000000.
Definition RNDIS_STATUS_FAILURE : Z := 0xC0000001.

Definition RNDIS_MAJOR_VERSION : Z := 1.
Definition RNDIS_MINOR_VERSION : Z := 0.

Definition OID_GEN_SUPPORTED_LIST : Z := 0x00010101.

(** [RNDIS_PacketMsgType], without the optional payload field. *)
Record RNDIS_PacketMsgType : Type := {
  MessageType              : Z;
  MessageLength            : Z;
  DataOffset               : Z;
  DataLength               : Z;
  OutOfBandDataOffset      : Z;
  OutOfBandDataLength      : Z;
  NumOutOfBandDataElements : Z;
  PerPacketInfoOffset      : Z;
  PerPacketInfoLength      : Z;
  Reserved0                : Z;
  Reserved1                : Z
}.

(** [sizeof] and [offsetof] of the message structures; every field is a
    32-bit word. *)
Definition sizeof_RNDIS_PacketMsgType      : Z := 44.
Definition sizeof_RNDIS_InitCmpltType      : Z := 52.
Definition sizeof_RNDIS_QueryCmpltType     : Z := 24.
Definition sizeof_RNDIS_SetCmpltType       : Z := 16.
Definition sizeof_RNDIS_ResetCmpltType     : Z := 16.
Definition sizeof_RNDIS_KeepAliveCmpltType : Z := 16.
Definition sizeof_RNDIS_IndStatusMsgType   : Z := 20.
Definition offsetof_PacketMsg_DataOffset   : Z := 8.
Definition offsetof_RequestID              : Z := 8.

(** [RNDIS_VALID_PACKET_MSG(PMSG, MSG_LENGTH)], in [uint32_t] arithmetic. *)
Definition RNDIS_VALID_PACKET_MSG (pmsg : RNDIS_PacketMsgType)
    (msg_length : Z) : bool :=
  (MessageLength pmsg =? msg_length)
  && (MessageType pmsg =? REMOTE_NDIS_PACKET_MSG)
  && (MessageLength pmsg =?
        wrap32 (DataLength pmsg + DataOffset pmsg
                + offsetof_PacketMsg_DataOffset)).

(** *** usbd_rndis.h *)

Definition RNDIS_IN_EP  : Z := 0x82.
Definition RNDIS_OUT_EP : Z := 0x03.
Definition RNDIS_CMD_EP : Z := 0x81.
Definition RNDIS_CMD_PACKET_SIZE : Z := 8.
Definition RNDIS_SEND_ENCAPSULATED_COMMAND : Z := 0x00.
Definition RNDIS_GET_ENCAPSULATED_RESPONSE : Z := 0x01.
Definition RNDIS_EP0_RESERVED_SIZE : Z := 13.

(** [RNDIS_ObjectInfoType].  [QuerySetServer] is handed a pointer into
    [hrndis->data], here the byte offset of that pointer in [data], and a
    pointer to the InfoBufferLength word of the message in [data]; it returns
    its status and the new content of [data]. *)
Record RNDIS_ObjectInfoType : Type := {
  Oid : Z;
  QuerySetServer : Z -> list Z -> Z * list Z
}.

(** [USBD_RNDIS_ItfTypeDef]: a NULL callback is [false]; [ObjectInfoCount] is
    the number of entries of the [ObjectInfo] table. *)
Record USBD_RNDIS_ItfTypeDef : Type := {
  Init           : bool;
  DeInit         : bool;
  PacketReceived : bool;
  ObjectInfo     : list RNDIS_ObjectInfoType
}.

Definition ObjectInfoCount (itf : USBD_RNDIS_ItfTypeDef) : Z :=
  Z.of_nat (length (ObjectInfo itf)).

(** [USBD_RNDIS_HandleTypeDef]; [data] is an array of 32-bit words. *)
Record USBD_RNDIS_HandleTypeDef : Type := {
  data            : list Z;
  TxMsg           : ptr;
  RxMsg           : ptr;
  TxLength        : Z;   (* uint16_t *)
  MsgLength       : Z;   (* uint16_t *)
  MaxTransferSize : Z    (* uint16_t *)
}.

Definition Dev : Type := USBD_HandleTypeDef USBD_RNDIS_HandleTypeDef.

Definition set_data (v : list Z) (h : USBD_RNDIS_HandleTypeDef) :=
  {| data := v; TxMsg := TxMsg h; RxMsg := RxMsg h; TxLength := TxLength h;
     MsgLength := MsgLength h; MaxTransferSize := MaxTransferSize h |}.
Definition set_TxMsg (v : ptr) (h : USBD_RNDIS_HandleTypeDef) :=
  {| data := data h; TxMsg := v; RxMsg := RxMsg h; TxLength := TxLength h;
     MsgLength := MsgLength h; MaxTransferSize := MaxTransferSize h |}.
Definition set_RxMsg (v : ptr) (h : USBD_RNDIS_HandleTypeDef) :=
  {| data := data h; TxMsg := TxMsg h; RxMsg := v; TxLength := TxLength h;
     MsgLength := MsgLength h; MaxTransferSize := MaxTransferSize h |}.
Definition set_TxLength (v : Z) (h : USBD_RNDIS_HandleTypeDef) :=
  {| data := data h; TxMsg := TxMsg h; RxMsg := RxMsg h; TxLength := v;
     MsgLength := MsgLength h; MaxTransferSize := MaxTransferSize h |}.
Definition set_MsgLength (v : Z) (h : USBD_RNDIS_HandleTypeDef) :=
  {| data := data h; TxMsg := TxMsg h; RxMsg := RxMsg h; TxLength := TxLength h;
     MsgLength := v; MaxTransferSize := MaxTransferSize h |}.
Definition set_MaxTransferSize (v : Z) (h : USBD_RNDIS_HandleTypeDef) :=
  {| data := data h; TxMsg := TxMsg h; RxMsg := RxMsg h; TxLength := TxLength h;
     MsgLength := MsgLength h; MaxTransferSize := v |}.

(** *** The message structures laid over [hrndis->data]

    A field of a message structure is the word of [data] at the field's
    offset divided by four.  The structures are at most
    [RNDIS_EP0_RESERVED_SIZE] words long, so the fields lie in the array. *)
Definition rd (d : list Z) (i : nat) : Z := nth i d 0.
Definition wr (i : nat) (v : Z) (d : list Z) : list Z := <[i := v]> d.

Definition w_MessageType      : nat := 0.
Definition w_MessageLength    : nat := 1.
Definition w_RequestID        : nat := 2.   (* Init, Query, Set, KeepAlive and their completions *)
Definition w_Oid              : nat := 3.   (* QueryMsg, SetMsg *)
Definition w_Status           : nat := 3.   (* InitCmplt, QueryCmplt, SetCmplt, KeepAliveCmplt *)
Definition w_InfoBufferLength : nat := 4.   (* QueryMsg, QueryCmplt, SetMsg *)
Definition w_InfoBufferOffset : nat := 5.   (* QueryMsg, QueryCmplt, SetMsg *)
Definition w_Set_Reserved     : nat := 6.   (* SetMsg *)
Definition w_Init_MaxTransferSize : nat := 9.   (* InitCmplt *)
Definition w_Reset_Status          : nat := 2.  (* ResetCmplt *)
Definition w_Reset_AddressingReset : nat := 3.  (* ResetCmplt *)
Definition w_Ind_Status             : nat := 2. (* IndStatusMsg *)
Definition w_Ind_StatusBufferLength : nat := 3. (* IndStatusMsg *)
Definition w_Ind_StatusBufferOffset : nat := 4. (* IndStatusMsg *)

(** [RNDIS_MSG_PAYLOAD(RNDIS_QueryCmpltType, resp)], as a word index. *)
Definition w_Query_Payload : nat := 6.

(** The constant [RNDIS_InitCmplt], word by word. *)
Definition RNDIS_InitCmplt : list Z :=
  [REMOTE_NDIS_INITIALIZE_CMPLT;   (* MessageType *)
   sizeof_RNDIS_InitCmpltType;     (* MessageLength *)
   0;                              (* RequestID *)
   RNDIS_STATUS_SUCCESS;           (* Status *)
   RNDIS_MAJOR_VERSION;            (* MajorVersion *)
   RNDIS_MINOR_VERSION;            (* MinorVersion *)
   0x000000001;                    (* DeviceFlags *)
   0x000000000;                    (* Medium *)
   1;                              (* MaxPacketsPerTransfer *)
   sizeof_RNDIS_PacketMsgType;     (* MaxTransferSize *)
   0;                              (* PacketAlignmentFactor *)
   0; 0].                          (* Reserved[2] *)

(** [*resp = RNDIS_InitCmplt;] *)
Fixpoint wr_words (i : nat) (vals : list Z) (d : list Z) : list Z :=
  match vals with
  | [] => d
  | v :: tl => wr_words (S i) tl (wr i v d)
  end.

(** [for (i = 0; i < itf->ObjectInfoCount; i++)
       OIDInputBuffer[i] = itf->ObjectInfo[i].Oid;]
    with [OIDInputBuffer + i] the word [w] of [data].  The loop has no bound
    but the table's: a store past the end of [data] is a [BufferOverrun]. *)
Fixpoint copy_oid_list (tbl : list RNDIS_ObjectInfoType) (w : nat)
    (d : list Z) : Result (list Z) :=
  match tbl with
  | [] => Ok d
  | o :: tl =>
      if (w <? length d)%nat then copy_oid_list tl (S w) (wr w (Oid o) d)
      else Crash BufferOverrun
  end.

(** [for (i = 0; i < itf->ObjectInfoCount; i++)
       if (itf->ObjectInfo[i].Oid == oid) { ...; break; }] *)
Fixpoint find_oid (tbl : list RNDIS_ObjectInfoType) (oid : Z)
    : option RNDIS_ObjectInfoType :=
  match tbl with
  | [] => None
  | o :: tl => if Oid o =? oid then Some o else find_oid tl oid
  end.

Section Driver.
Context `{UD : UsbdDef}.

(** The number of words of [data]:
    [RNDIS_EP0_RESERVED_SIZE + (RNDIS_DATA_HS_MAX_PACKET_SIZE / 4)]. *)
Definition RNDIS_DATA_WORDS : Z :=
  RNDIS_EP0_RESERVED_SIZE + USB_HS_MAX_PACKET_SIZE / 4.

(** [USBD_RNDIS_Init].  [mem] is what [USBD_malloc] returns. *)
Definition USBD_RNDIS_Init (mem : option USBD_RNDIS_HandleTypeDef)
    (pdev : Dev) (cfgidx : Z) : USBD_StatusTypeDef * Dev :=
  let '(in_packet_size, out_packet_size) :=
    match DEVICE_HS, dev_speed pdev with
    | true, USBD_SPEED_HIGH => (USB_HS_MAX_PACKET_SIZE, USB_HS_MAX_PACKET_SIZE)
    | _, _ => (USB_FS_MAX_PACKET_SIZE, USB_FS_MAX_PACKET_SIZE)
    end in
  let pdev := emit (LL_OpenEP RNDIS_IN_EP USBD_EP_TYPE_BULK in_packet_size) pdev in
  let pdev := emit (LL_OpenEP RNDIS_OUT_EP USBD_EP_TYPE_BULK out_packet_size) pdev in
  let pdev := emit (LL_OpenEP RNDIS_CMD_EP USBD_EP_TYPE_INTR RNDIS_CMD_PACKET_SIZE) pdev in
  match mem with
  | Some hrndis =>
      let hrndis := set_TxLength 0 hrndis in
      let hrndis := set_MaxTransferSize
                      (wrap16 (rd RNDIS_InitCmplt w_Init_MaxTransferSize)) hrndis in
      (USBD_OK, set_pClassData (Some hrndis) pdev)
  | None => (USBD_OK, set_pClassData None pdev)
  end.

(** [USBD_RNDIS_DeInit] *)
Definition USBD_RNDIS_DeInit (itf : USBD_RNDIS_ItfTypeDef) (pdev : Dev)
    (cfgidx : Z) : USBD_StatusTypeDef * Dev :=
  let pdev := emit (LL_CloseEP RNDIS_IN_EP) pdev in
  let pdev := emit (LL_CloseEP RNDIS_OUT_EP) pdev in
  let pdev := emit (LL_CloseEP RNDIS_CMD_EP) pdev in
  match pClassData pdev with
  | Some _ =>
      let pdev := emit_if (DeInit itf) Itf_DeInit pdev in
      (USBD_OK, set_pClassData None pdev)
  | None => (USBD_OK, pdev)
  end.

(** [USBD_RNDIS_Setup].  Both class request branches go through [hrndis]
    without a test of it. *)
Definition USBD_RNDIS_Setup (pdev : Dev) (req : USBD_SetupReqTypedef)
    : Result (USBD_StatusTypeDef * Dev) :=
  let hrndis := pClassData pdev in
  let ty := Z.land (bmRequest req) USB_REQ_TYPE_MASK in
  if ty =? USB_REQ_TYPE_CLASS then
    if negb (wLength req =? 0) then
      if bRequest req =? RNDIS_GET_ENCAPSULATED_RESPONSE then
        h <- deref hrndis ;;
        Ok (USBD_OK,
            emit (CtlSendData (data h) (wrap16 (rd (data h) w_MessageLength))) pdev)
      else
        h <- deref hrndis ;;
        let h := set_MsgLength (wLength req) h in
        let pdev := set_pClassData (Some h) pdev in
        Ok (USBD_OK, emit (CtlPrepareRx (wLength req)) pdev)
    else Ok (USBD_OK, pdev)
  else if ty =? USB_REQ_TYPE_STANDARD then
    if bRequest req =? USB_REQ_GET_INTERFACE then
      Ok (USBD_OK, emit (CtlSendData [0] 1) pdev)
    else Ok (USBD_OK, pdev)
  else Ok (USBD_OK, pdev).

(** [RNDIS_ResponseAvailable] *)
Definition RNDIS_ResponseAvailable : list Z := [1; 0; 0; 0; 0; 0; 0; 0].

(** [USBD_RNDIS_ResponseReady] *)
Definition USBD_RNDIS_ResponseReady (pdev : Dev) : Dev :=
  emit (LL_TransmitBytes RNDIS_CMD_EP RNDIS_ResponseAvailable
          RNDIS_CMD_PACKET_SIZE) pdev.

(** The REMOTE_NDIS_QUERY_MSG case of [USBD_RNDIS_EP0_RxReady]. *)
Definition EP0_RxReady_Query (itf : USBD_RNDIS_ItfTypeDef)
    (hrndis : USBD_RNDIS_HandleTypeDef) (pdev : Dev) : Result Dev :=
  let d := data hrndis in
  let oid := rd d w_Oid in
  let d := wr w_MessageType REMOTE_NDIS_QUERY_CMPLT d in
  let d := wr w_Status RNDIS_STATUS_FAILURE d in
  let d := wr w_InfoBufferLength 0 d in
  let d := wr w_InfoBufferOffset
              (sizeof_RNDIS_QueryCmpltType - offsetof_RequestID) d in
  dp <- (if oid =? OID_GEN_SUPPORTED_LIST then
           d <- copy_oid_list (ObjectInfo itf) w_Query_Payload d ;;
           let d := wr w_Status RNDIS_STATUS_SUCCESS d in
           let d := wr w_InfoBufferLength (wrap32 (ObjectInfoCount itf * 4)) d in
           Ok (d, pdev)
         else
           match find_oid (ObjectInfo itf) oid with
           | Some o =>
               let '(status, d) := QuerySetServer o sizeof_RNDIS_QueryCmpltType d in
               Ok (wr w_Status status d,
                   emit (RNDIS_QuerySetServer oid sizeof_RNDIS_QueryCmpltType) pdev)
           | None => Ok (d, pdev)
           end) ;;
  let '(d, pdev) := dp in
  let d := wr w_MessageLength
              (wrap32 (sizeof_RNDIS_QueryCmpltType + rd d w_InfoBufferLength)) d in
  let pdev := set_pClassData (Some (set_data d hrndis)) pdev in
  Ok (USBD_RNDIS_ResponseReady pdev).

(** The REMOTE_NDIS_SET_MSG case of [USBD_RNDIS_EP0_RxReady]. *)
Definition EP0_RxReady_Set (itf : USBD_RNDIS_ItfTypeDef)
    (hrndis : USBD_RNDIS_HandleTypeDef) (pdev : Dev) : Dev :=
  let d := data hrndis in
  let off := offsetof_RequestID + rd d w_InfoBufferOffset in
  let '(status, d, pdev) :=
    if rd d w_Set_Reserved =? 0 then
      match find_oid (ObjectInfo itf) (rd d w_Oid) with
      | Some o =>
          let '(status, d') := QuerySetServer o off d in
          (status, d', emit (RNDIS_QuerySetServer (rd d w_Oid) off) pdev)
      | None => (RNDIS_STATUS_FAILURE, d, pdev)
      end
    else (RNDIS_STATUS_FAILURE, d, pdev) in
  let d := wr w_MessageType REMOTE_NDIS_SET_CMPLT d in
  let d := wr w_MessageLength sizeof_RNDIS_SetCmpltType d in
  let d := wr w_Status status d in
  USBD_RNDIS_ResponseReady (set_pClassData (Some (set_data d hrndis)) pdev).

(** [USBD_RNDIS_EP0_RxReady] *)
Definition USBD_RNDIS_EP0_RxReady (itf : USBD_RNDIS_ItfTypeDef) (pdev : Dev)
    : Result (USBD_StatusTypeDef * Dev) :=
  match pClassData pdev with
  | Some hrndis =>
      if rd (data hrndis) w_MessageLength =? MsgLength hrndis then
        let ty := rd (data hrndis) w_MessageType in
        if ty =? REMOTE_NDIS_INITIALIZE_MSG then
          let d := data hrndis in
          let reqId := rd d w_RequestID in
          let d := wr_words 0 RNDIS_InitCmplt d in
          let pdev := emit_if (Init itf) Itf_Init pdev in
          let d := wr w_RequestID reqId d in
          let d := if MaxTransferSize hrndis >? rd d w_Init_MaxTransferSize
                   then wr w_Init_MaxTransferSize (MaxTransferSize hrndis) d
                   else d in
          let pdev := set_pClassData (Some (set_data d hrndis)) pdev in
          Ok (USBD_OK, USBD_RNDIS_ResponseReady pdev)
        else if ty =? REMOTE_NDIS_QUERY_MSG then
          pdev <- EP0_RxReady_Query itf hrndis pdev ;;
          Ok (USBD_OK, pdev)
        else if ty =? REMOTE_NDIS_SET_MSG then
          Ok (USBD_OK, EP0_RxReady_Set itf hrndis pdev)
        else if ty =? REMOTE_NDIS_RESET_MSG then
          let pdev := emit_if (DeInit itf) Itf_DeInit pdev in
          let pdev := emit (LL_FlushEP RNDIS_IN_EP) pdev in
          let pdev := emit (LL_FlushEP RNDIS_OUT_EP) pdev in
          let pdev := emit_if (Init itf) Itf_Init pdev in
          let hrndis := set_TxLength 0 hrndis in
          let d := data hrndis in
          let d := wr w_MessageType REMOTE_NDIS_RESET_CMPLT d in
          let d := wr w_MessageLength sizeof_RNDIS_ResetCmpltType d in
          let d := wr w_Reset_Status RNDIS_STATUS_SUCCESS d in
          let d := wr w_Reset_AddressingReset 1 d in
          let pdev := set_pClassData (Some (set_data d hrndis)) pdev in
          Ok (USBD_OK, USBD_RNDIS_ResponseReady pdev)
        else if ty =? REMOTE_NDIS_KEEPALIVE_MSG then
          let d := data hrndis in
          let d := wr w_MessageType REMOTE_NDIS_KEEPALIVE_CMPLT d in
          let d := wr w_MessageLength sizeof_RNDIS_KeepAliveCmpltType d in
          let d := wr w_Status RNDIS_STATUS_SUCCESS d in
          let pdev := set_pClassData (Some (set_data d hrndis)) pdev in
          Ok (USBD_OK, USBD_RNDIS_ResponseReady pdev)
        else Ok (USBD_OK, pdev)
      else Ok (USBD_OK, pdev)
  | None => Ok (USBD_OK, pdev)
  end.

(** [USBD_RNDIS_DataIn] *)
Definition USBD_RNDIS_DataIn (pdev : Dev) (epnum : Z)
    : USBD_StatusTypeDef * Dev :=
  match pClassData pdev with
  | Some hrndis =>
      if epnum =? RNDIS_IN_EP then
        (USBD_OK, set_pClassData (Some (set_TxLength 0 hrndis)) pdev)
      else (USBD_OK, pdev)
  | None => (USBD_OK, pdev)
  end.

(** [USBD_RNDIS_DataOut].  [rxLength] is what [USBD_LL_GetRxDataSize]
    returns and [msg] the message header found at [hrndis->RxMsg]. *)
Definition USBD_RNDIS_DataOut (rxLength : Z) (msg : RNDIS_PacketMsgType)
    (itf : USBD_RNDIS_ItfTypeDef) (pdev : Dev) (epnum : Z)
    : USBD_StatusTypeDef * Dev :=
  match PacketReceived itf, pClassData pdev with
  | true, Some hrndis =>
      if RNDIS_VALID_PACKET_MSG msg rxLength then
        (USBD_OK,
         emit (RNDIS_PacketReceived
                 (RxMsg hrndis + offsetof_PacketMsg_DataOffset + DataOffset msg)
                 (DataLength msg)) pdev)
      else (USBD_OK, pdev)
  | _, _ => (USBD_OK, pdev)
  end.

(** [USBD_RNDIS_TransmitMessage].  [ll_ret] is what [USBD_LL_Transmit]
    returns, [msg] the address of the message and [m] its header. *)
Definition USBD_RNDIS_TransmitMessage (ll_ret : USBD_StatusTypeDef)
    (pdev : Dev) (msg : ptr) (m : RNDIS_PacketMsgType)
    : USBD_StatusTypeDef * Dev :=
  let retval := USBD_FAIL in
  match pClassData pdev with
  | Some hrndis =>
      let retval := USBD_BUSY in
      if TxLength hrndis =? 0 then
        let hrndis := set_TxMsg msg hrndis in
        let hrndis := set_TxLength (wrap16 (MessageLength m)) hrndis in
        let pdev := set_pClassData (Some hrndis) pdev in
        (ll_ret, emit (LL_Transmit RNDIS_IN_EP msg (wrap16 (MessageLength m))) pdev)
      else (retval, pdev)
  | None => (retval, pdev)
  end.

(** [USBD_RNDIS_SetReceiveBuffer].  [ll_ret] is what [USBD_LL_PrepareReceive]
    returns. *)
Definition USBD_RNDIS_SetReceiveBuffer (ll_ret : USBD_StatusTypeDef)
    (pdev : Dev) (buffer : ptr) (size : Z) : USBD_StatusTypeDef * Dev :=
  let retval := USBD_FAIL in
  match pClassData pdev with
  | Some hrndis =>
      let hrndis := set_RxMsg buffer hrndis in
      let hrndis := if MaxTransferSize hrndis <? size
                    then set_MaxTransferSize size hrndis else hrndis in
      let pdev := set_pClassData (Some hrndis) pdev in
      (ll_ret, emit (LL_PrepareReceive RNDIS_OUT_EP (RxMsg hrndis) size) pdev)
  | None => (retval, pdev)
  end.

(** [USBD_RNDIS_SendStatus] *)
Definition USBD_RNDIS_SendStatus (pdev : Dev) (status : Z)
    : USBD_StatusTypeDef * Dev :=
  let retval := USBD_FAIL in
  match pClassData pdev with
  | Some hrndis =>
      if ep0_state pdev =? USBD_EP0_IDLE then
        let d := data hrndis in
        let d := wr w_MessageType REMOTE_NDIS_INDICATE_STATUS_MSG d in
        let d := wr w_MessageLength sizeof_RNDIS_IndStatusMsgType d in
        let d := wr w_Ind_Status status d in
        let d := wr w_Ind_StatusBufferLength 0 d in
        let d := wr w_Ind_StatusBufferOffset 0 d in
        let pdev := set_pClassData (Some (set_data d hrndis)) pdev in
        (retval, USBD_RNDIS_ResponseReady pdev)
      else (retval, pdev)
  | None => (retval, pdev)
  end.

End Driver.

(** *** Vocabulary of the statements about the driver *)

(** The framing test of [RNDIS_VALID_PACKET_MSG], as a proposition:
    [rxLength] is the number of bytes received. *)
Definition well_framed (msg : RNDIS_PacketMsgType) (rxLength : Z) : Prop :=
  MessageLength msg = rxLength
  /\ MessageType msg = REMOTE_NDIS_PACKET_MSG
  /\ MessageLength msg =
       (DataLength msg + DataOffset msg + offsetof_PacketMsg_DataOffset)
       mod 2^32.

(** [pdev'] is [pdev] after one more call, of the packet-received callback. *)
Definition delivered (pdev pdev' : Dev) : Prop :=
  exists payload len,
    trace pdev' = trace pdev ++ [RNDIS_PacketReceived payload len].

(** *** Concrete devices *)

Definition oid_entry (oid : Z) : RNDIS_ObjectInfoType :=
  {| Oid := oid; QuerySetServer := fun _ d => (RNDIS_STATUS_SUCCESS, d) |}.

(** An interface with every callback and the given OIDs registered. *)
Definition eth_itf (oids : list Z) : USBD_RNDIS_ItfTypeDef := {|
  Init := true; DeInit := true; PacketReceived := true;
  ObjectInfo := map oid_entry oids
|}.

(** A handle whose [data] holds [msg], received as announced;
    [data] has 13 + 512 / 4 = 141 words. *)
Definition handle_with (msg : list Z) : USBD_RNDIS_HandleTypeDef := {|
  data := msg ++ repeat 0 (141 - length msg);
  TxMsg := 0; RxMsg := 0x20000000; TxLength := 0;
  MsgLength := rd msg w_MessageLength; MaxTransferSize := 44
|}.

Definition device_with (msg : list Z) : Dev :=
  set_pClassData (Some (handle_with msg)) unconfigured.

(** A REMOTE_NDIS_QUERY_MSG without input data. *)
Definition query_msg (request_id oid : Z) : list Z :=
  [REMOTE_NDIS_QUERY_MSG; 28; request_id; oid; 0; 0; 0].

(** The header of a REMOTE_NDIS_PACKET_MSG. *)
Definition packet_msg (message_length data_offset data_length : Z)
    : RNDIS_PacketMsgType := {|
  MessageType := REMOTE_NDIS_PACKET_MSG;
  MessageLength := message_length;
  DataOffset := data_offset;
  DataLength := data_length;
  OutOfBandDataOffset := 0; OutOfBandDataLength := 0;
  NumOutOfBandDataElements := 0;
  PerPacketInfoOffset := 0; PerPacketInfoLength := 0;
  Reserved0 := 0; Reserved1 := 0
|}.

(** [RNDIS_CREATE_PACKET_MSG(PMSG, DATA_LENGTH)] of rndis.h: every field of
    [*PMSG] is assigned; the fields are [uint32_t]. *)
Definition RNDIS_CREATE_PACKET_MSG (pmsg : RNDIS_PacketMsgType)
    (data_length : Z) : RNDIS_PacketMsgType := {|
  MessageType := REMOTE_NDIS_PACKET_MSG;
  DataOffset := sizeof_RNDIS_PacketMsgType - offsetof_PacketMsg_DataOffset;
  MessageLength := wrap32 (sizeof_RNDIS_PacketMsgType + data_length);
  DataLength := wrap32 data_length;
  OutOfBandDataOffset := 0;
  OutOfBandDataLength := 0;
  NumOutOfBandDataElements := 0;
  PerPacketInfoOffset := 0;
  PerPacketInfoLength := 0;
  Reserved0 := 0;
  Reserved1 := 0
|}.

(** A REMOTE_NDIS_KEEPALIVE_MSG, a REMOTE_NDIS_INITIALIZE_MSG, a
    REMOTE_NDIS_RESET_MSG, a REMOTE_NDIS_HALT_MSG and a REMOTE_NDIS_SET_MSG
    with one word of input data. *)
Definition keepalive_msg (request_id : Z) : list Z :=
  [REMOTE_NDIS_KEEPALIVE_MSG; 12; request_id].
Definition initialize_msg (request_id : Z) : list Z :=
  [REMOTE_NDIS_INITIALIZE_MSG; 24; request_id; 1; 0; 0x4000].
Definition reset_msg : list Z := [REMOTE_NDIS_RESET_MSG; 12; 0].
Definition halt_msg (request_id : Z) : list Z :=
  [REMOTE_NDIS_HALT_MSG; 12; request_id].
Definition set_msg (request_id oid value : Z) : list Z :=
  [REMOTE_NDIS_SET_MSG; 32; request_id; oid; 4; 20; 0; value].

(** SEND_ENCAPSULATED_COMMAND with [len] bytes and GET_ENCAPSULATED_RESPONSE,
    under the USB 2.0 codes. *)
Definition req_SEND_ENCAPSULATED_COMMAND (len : Z) : USBD_SetupReqTypedef :=
  {| bmRequest := 0x21; bRequest := 0x00; wValue := 0; wIndex := 0;
     wLength := len |}.
Definition req_GET_ENCAPSULATED_RESPONSE : USBD_SetupReqTypedef :=
  {| bmRequest := 0xA1; bRequest := 0x01; wValue := 0; wIndex := 0;
     wLength := 1025 |}.

(** *** Sequences of calls *)

(** The data stage of a control OUT transfer.  USBD_RNDIS_Setup hands
    [hrndis->data] to [USBD_CtlPrepareRx]; the bytes of the data stage are
    stored there.  [d] is the content of the array after the stage. *)
Definition data_stage (d : list Z) (pdev : Dev) : Dev :=
  match pClassData pdev with
  | Some hrndis => set_pClassData (Some (set_data d hrndis)) pdev
  | None => pdev
  end.

Section Sequences.
Context `{UD : UsbdDef}.

(** One encapsulated command and its response, as the calls the driver
    sees: SEND_ENCAPSULATED_COMMAND, its data stage, the end of the transfer
    (USBD_RNDIS_EP0_RxReady), and GET_ENCAPSULATED_RESPONSE. *)
Definition encapsulated_command (itf : USBD_RNDIS_ItfTypeDef) (pdev : Dev)
    (send : USBD_SetupReqTypedef) (d : list Z) (get : USBD_SetupReqTypedef)
    : Result Dev :=
  sp <- USBD_RNDIS_Setup pdev send ;;
  sp <- USBD_RNDIS_EP0_RxReady itf (data_stage d sp.2) ;;
  sp <- USBD_RNDIS_Setup sp.2 get ;;
  Ok sp.2.

End Sequences.

End RNDIS.

(** * Facts about the DFU driver *)

Module DFU_Facts.
Import DFU.

Section Facts.
Context `{UD : UsbdDef} `{DD : UsbdDfuDef}.

(** The nine state codes are pairwise different. *)
Ltac states_differ :=
  let D := fresh "D" in
  pose proof DFU_STATE_distinct as D;
  cbn [distinctb existsb] in D;
  rewrite ?andb_true_iff, ?negb_true_iff, ?orb_false_iff, ?Z.eqb_neq in D;
  repeat match goal with
         | H : _ /\ _ |- _ => destruct H
         end.

(** *** DFU_Abort *)

Lemma abortable_true (st : Z) :
  st = DFU_STATE_IDLE \/ st = DFU_STATE_DNLOAD_SYNC
  \/ st = DFU_STATE_DNLOAD_IDLE \/ st = DFU_STATE_MANIFEST_SYNC
  \/ st = DFU_STATE_UPLOAD_IDLE ->
  abortable st = true.
Proof.
  unfold abortable. intros H.
  rewrite !orb_true_iff, !Z.eqb_eq. tauto.
Qed.

Lemma abortable_false (st : Z) :
  st = DFU_STATE_DNLOAD_BUSY \/ st = DFU_STATE_MANIFEST
  \/ st = DFU_STATE_MANIFEST_WAIT_RESET \/ st = DFU_STATE_ERROR ->
  abortable st = false.
Proof.
  unfold abortable. intros H. states_differ.
  rewrite !orb_false_iff, !Z.eqb_neq.
  destruct H as [-> | [-> | [-> | ->]]];
    repeat split; first [assumption | apply not_eq_sym; assumption].
Qed.


(** *** The block address *)

Lemma wrap32_small (x : Z) : 0 <= x < 2^32 -> wrap32 x = x.
Proof. intros H. unfold wrap32. apply Z.mod_small. exact H. Qed.

(** C1, amended.  For a block number of 2 or more, the address handed to
    the medium's Write callback (download, in USBD_DFU_EP0_TxReady) and to
    its Read callback (upload, in DFU_Upload) is
    (block_num - 2) * USBD_DFU_XFER_SIZE + data_ptr, computed in a uint32_t,
    that is modulo 2^32; where the sum fits in 32 bits it is the sum itself.
    With a transfer size of 1024 and data_ptr = 0x08008000 the blocks 2, 3
    and 1000 are at 0x08008000, 0x08008400 and 0x08101800. *)
Theorem DFU_block_address (media : USBD_DFU_MediaTypeDef) (pdev : Dev)
    (hdfu : USBD_DFU_HandleTypeDef) (req : USBD_SetupReqTypedef) :
  pClassData pdev = Some hdfu ->
  let address (block_num : Z) :=
    ((block_num - 2) * USBD_DFU_XFER_SIZE + data_ptr hdfu) mod 2^32 in
  (dev_state hdfu = DFU_STATE_DNLOAD_BUSY -> 2 <= wblock_num hdfu ->
   Write media = true ->
   exists pdev',
     USBD_DFU_EP0_TxReady media pdev = Ok (USBD_OK, pdev')
     /\ trace pdev' =
          trace pdev ++ [Media_Write (address (wblock_num hdfu))
                           (buffer hdfu) (wlength hdfu)])
  /\
  (forall rd,
   dev_state hdfu = DFU_STATE_IDLE \/ dev_state hdfu = DFU_STATE_UPLOAD_IDLE ->
   0 < wLength req -> 2 <= wValue req -> Read media = Some rd ->
   exists pdev',
     DFU_Upload media pdev req = Ok pdev'
     /\ trace pdev' =
          trace pdev ++ [Media_Read (address (wValue req)) (wLength req);
                         CtlSendData
                           (rd (buffer hdfu) (address (wValue req)) (wLength req))
                           (wLength req)])
  /\
  (forall block_num,
   0 <= (block_num - 2) * USBD_DFU_XFER_SIZE + data_ptr hdfu < 2^32 ->
   address block_num = (block_num - 2) * USBD_DFU_XFER_SIZE + data_ptr hdfu)
  /\
  (USBD_DFU_XFER_SIZE = 1024 -> data_ptr hdfu = 0x08008000 ->
   address 2 = 0x08008000 /\ address 3 = 0x08008400
   /\ address 1000 = 0x08101800).
Proof.
  intros Hh address. repeat split.
  - intros Hst Hblk Hwr.
    unfold USBD_DFU_EP0_TxReady. rewrite Hh. cbn [deref rbind].
    rewrite Hst, Z.eqb_refl.
    destruct (Z.eqb_spec (wblock_num hdfu) 0) as [E|_]; [lia|].
    destruct (Z.gtb_spec (wblock_num hdfu) 1) as [_|E]; [|lia].
    rewrite Hwr. eexists. split; [reflexivity|].
    unfold block_address, wrap32. reflexivity.
  - intros rd Hst Hlen Hblk Hrd.
    unfold DFU_Upload. rewrite Hh. cbn [deref rbind].
    destruct (Z.gtb_spec (wLength req) 0) as [_|E]; [|lia].
    replace ((dev_state hdfu =? DFU_STATE_IDLE)
             || (dev_state hdfu =? DFU_STATE_UPLOAD_IDLE)) with true
      by (symmetry; rewrite orb_true_iff, !Z.eqb_eq; exact Hst).
    cbn [wblock_num set_wlength set_wblock_num].
    destruct (Z.eqb_spec (wValue req) 0) as [E|_]; [lia|].
    destruct (Z.gtb_spec (wValue req) 1) as [_|E]; [|lia].
    rewrite Hrd. eexists. split; [reflexivity|].
    unfold block_address, wrap32. cbn. rewrite <- app_assoc. reflexivity.
  - intros block_num Hr. unfold address. apply Z.mod_small. exact Hr.
  - unfold address. rewrite H, H0. reflexivity.
  - unfold address. rewrite H, H0. reflexivity.
  - unfold address. rewrite H, H0. reflexivity.
Qed.

(** What DFU_Upload does with block number 1, whatever the codes are. *)
Lemma DFU_Upload_block_1 (media : USBD_DFU_MediaTypeDef) (pdev : Dev)
    (hdfu : USBD_DFU_HandleTypeDef) (req : USBD_SetupReqTypedef) :
  pClassData pdev = Some hdfu ->
  dev_state hdfu = DFU_STATE_IDLE \/ dev_state hdfu = DFU_STATE_UPLOAD_IDLE ->
  0 < wLength req -> wValue req = 1 ->
  exists hdfu',
    DFU_Upload media pdev req
      = Ok (emit CtlError (set_pClassData (Some hdfu') pdev))
    /\ dev_state hdfu' = DFU_ERROR_STALLEDPKT
    /\ ds4 (dev_status hdfu') = DFU_ERROR_STALLEDPKT
    /\ ds0 (dev_status hdfu') = ds0 (dev_status hdfu).
Proof.
  intros Hh Hst Hlen Hblk.
  unfold DFU_Upload. rewrite Hh. cbn [deref rbind].
  destruct (Z.gtb_spec (wLength req) 0) as [_|E]; [|lia].
  replace ((dev_state hdfu =? DFU_STATE_IDLE)
           || (dev_state hdfu =? DFU_STATE_UPLOAD_IDLE)) with true
    by (symmetry; rewrite orb_true_iff, !Z.eqb_eq; exact Hst).
  cbn [wblock_num set_wlength set_wblock_num]. rewrite Hblk.
  cbn [Z.eqb Z.gtb Z.compare Pos.compare Pos.compare_cont].
  eexists. split; [reflexivity|]. cbn. repeat split; reflexivity.
Qed.

(** *** The state byte of the status record *)

Lemma sync_status_in_sync (p : Z) (h : USBD_DFU_HandleTypeDef) :
  status_in_sync (sync_status p h).
Proof. reflexivity. Qed.

Lemma reset_status_in_sync (st err : Z) (h : USBD_DFU_HandleTypeDef) :
  status_in_sync (reset_status st err h).
Proof. reflexivity. Qed.

Lemma dev_in_sync_set (h : USBD_DFU_HandleTypeDef) (pdev : Dev) :
  status_in_sync h -> dev_in_sync (set_pClassData (Some h) pdev).
Proof. intros Hs h' E. cbn in E. congruence. Qed.

Lemma dev_in_sync_emit (e : Event) (pdev : Dev) :
  dev_in_sync pdev -> dev_in_sync (emit e pdev).
Proof. intros Hs h' E. apply Hs. exact E. Qed.

Lemma dev_in_sync_emit_if (b : bool) (e : Event) (pdev : Dev) :
  dev_in_sync pdev -> dev_in_sync (emit_if b e pdev).
Proof. destruct b; [apply dev_in_sync_emit | trivial]. Qed.

(** A handler that returned went through a handle. *)
Ltac open_handler Hrun :=
  match type of Hrun with
  | context [deref (pClassData ?pdev)] =>
      let hdfu := fresh "hdfu" in
      let Hh := fresh "Hh" in
      destruct (pClassData pdev) as [hdfu|] eqn:Hh;
      cbn [deref rbind] in Hrun; [|discriminate Hrun]
  end.

Ltac split_run Hrun :=
  repeat match type of Hrun with
         | context [if ?c then _ else _] => destruct c eqn:?
         | context [match ?c with Some _ => _ | None => _ end] =>
             destruct c eqn:?
         end.

(** The device a handler returns is the one it was given, with calls added
    to the trace and, possibly, a new handle. *)
Ltac sync_done Hs :=
  repeat first [apply dev_in_sync_emit | apply dev_in_sync_emit_if];
  first [ exact Hs
        | apply dev_in_sync_set;
          first [ reflexivity
                | eapply Hs; eassumption
                | unfold status_in_sync; cbn; eapply Hs; eassumption ] ].

Ltac sync_handler Hs Hrun :=
  open_handler Hrun; split_run Hrun; injection Hrun as <-; sync_done Hs.

Lemma DFU_Leave_in_sync (pdev pdev' : Dev) :
  dev_in_sync pdev -> DFU_Leave pdev = Ok pdev' -> dev_in_sync pdev'.
Proof. unfold DFU_Leave. intros Hs Hrun. sync_handler Hs Hrun. Qed.

Lemma DFU_Download_in_sync (pdev pdev' : Dev) (req : USBD_SetupReqTypedef) :
  dev_in_sync pdev -> DFU_Download pdev req = Ok pdev' -> dev_in_sync pdev'.
Proof. unfold DFU_Download. intros Hs Hrun. sync_handler Hs Hrun. Qed.

Lemma DFU_Upload_in_sync (media : USBD_DFU_MediaTypeDef) (pdev pdev' : Dev)
    (req : USBD_SetupReqTypedef) :
  dev_in_sync pdev -> DFU_Upload media pdev req = Ok pdev' -> dev_in_sync pdev'.
Proof. unfold DFU_Upload. intros Hs Hrun. sync_handler Hs Hrun. Qed.

Lemma DFU_GetStatus_in_sync (media : USBD_DFU_MediaTypeDef) (pdev pdev' : Dev) :
  GetStatus_keeps_bState media ->
  dev_in_sync pdev -> DFU_GetStatus media pdev = Ok pdev' -> dev_in_sync pdev'.
Proof.
  unfold DFU_GetStatus. intros Hgs Hs Hrun. open_handler Hrun.
  split_run Hrun; injection Hrun as <-; try sync_done Hs.
  all: apply dev_in_sync_emit, dev_in_sync_set.
  all: unfold status_in_sync; cbn; erewrite Hgs by eassumption; reflexivity.
Qed.

Lemma DFU_ClearStatus_in_sync (pdev pdev' : Dev) :
  dev_in_sync pdev -> DFU_ClearStatus pdev = Ok pdev' -> dev_in_sync pdev'.
Proof. unfold DFU_ClearStatus. intros Hs Hrun. sync_handler Hs Hrun. Qed.

Lemma DFU_GetState_in_sync (pdev pdev' : Dev) :
  dev_in_sync pdev -> DFU_GetState pdev = Ok pdev' -> dev_in_sync pdev'.
Proof. unfold DFU_GetState. intros Hs Hrun. sync_handler Hs Hrun. Qed.

Lemma DFU_Abort_in_sync (pdev pdev' : Dev) :
  dev_in_sync pdev -> DFU_Abort pdev = Ok pdev' -> dev_in_sync pdev'.
Proof. unfold DFU_Abort. intros Hs Hrun. sync_handler Hs Hrun. Qed.

Lemma DFU_Detach_in_sync (pdev pdev' : Dev) (req : USBD_SetupReqTypedef) :
  dev_in_sync pdev -> DFU_Detach pdev req = Ok pdev' -> dev_in_sync pdev'.
Proof. unfold DFU_Detach. intros Hs Hrun. sync_handler Hs Hrun. Qed.

Lemma USBD_DFU_EP0_TxReady_in_sync (media : USBD_DFU_MediaTypeDef)
    (pdev pdev' : Dev) (st : USBD_StatusTypeDef) :
  dev_in_sync pdev -> USBD_DFU_EP0_TxReady media pdev = Ok (st, pdev') ->
  dev_in_sync pdev'.
Proof.
  unfold USBD_DFU_EP0_TxReady. intros Hs Hrun. open_handler Hrun.
  destruct (dev_state hdfu =? DFU_STATE_DNLOAD_BUSY).
  - match type of Hrun with
    | (let '(_, _) := ?c in _) = _ => destruct c as [h1 p1]
    end.
    injection Hrun as _ <-. apply dev_in_sync_set. reflexivity.
  - destruct (dev_state hdfu =? DFU_STATE_MANIFEST).
    + destruct (DFU_Leave pdev) as [p1|] eqn:HL; [|discriminate Hrun].
      cbn in Hrun. injection Hrun as _ <-. eapply DFU_Leave_in_sync; eassumption.
    + injection Hrun as _ <-. exact Hs.
Qed.

Ltac by_handler Hgs Hs :=
  first [ eapply DFU_Download_in_sync; eassumption
        | eapply DFU_Upload_in_sync; eassumption
        | eapply (DFU_GetStatus_in_sync _ _ _ Hgs Hs); eassumption
        | eapply DFU_ClearStatus_in_sync; eassumption
        | eapply DFU_GetState_in_sync; eassumption
        | eapply DFU_Abort_in_sync; eassumption
        | eapply DFU_Detach_in_sync; eassumption
        | eapply DFU_Leave_in_sync; eassumption ].

Lemma USBD_DFU_Setup_in_sync (media : USBD_DFU_MediaTypeDef)
    (pdev pdev' : Dev) (req : USBD_SetupReqTypedef) (st : USBD_StatusTypeDef) :
  GetStatus_keeps_bState media ->
  dev_in_sync pdev -> USBD_DFU_Setup media pdev req = Ok (st, pdev') ->
  dev_in_sync pdev'.
Proof.
  unfold USBD_DFU_Setup. intros Hgs Hs Hrun.
  destruct (_ =? USB_REQ_TYPE_CLASS).
  - match type of Hrun with
    | rbind ?c _ = _ => destruct c as [p1|] eqn:Hc; [|discriminate Hrun]
    end.
    cbn [rbind] in Hrun. injection Hrun as _ <-.
    destruct (bRequest req =? DFU_DOWNLOAD); [by_handler Hgs Hs|].
    destruct (bRequest req =? DFU_UPLOAD); [by_handler Hgs Hs|].
    destruct (bRequest req =? DFU_GETSTATUS); [by_handler Hgs Hs|].
    destruct (bRequest req =? DFU_CLEARSTATUS); [by_handler Hgs Hs|].
    destruct (bRequest req =? DFU_GETSTATE); [by_handler Hgs Hs|].
    destruct (bRequest req =? DFU_ABORT); [by_handler Hgs Hs|].
    destruct (bRequest req =? DFU_DETACH); [by_handler Hgs Hs|].
    injection Hc as <-. sync_done Hs.
  - split_run Hrun;
      try (destruct (pClassData pdev) as [h|] eqn:Hh;
           cbn [deref rbind] in Hrun; [|discriminate Hrun]);
      injection Hrun as _ <-; sync_done Hs.
Qed.

Lemma handler_step_in_sync (media : USBD_DFU_MediaTypeDef) (pdev pdev' : Dev) :
  GetStatus_keeps_bState media ->
  dev_in_sync pdev -> handler_step media pdev pdev' -> dev_in_sync pdev'.
Proof.
  intros Hgs Hs Hstep.
  destruct Hstep as [pdev req pdev' E | pdev req pdev' E | pdev pdev' E
                    | pdev pdev' E | pdev pdev' E | pdev pdev' E
                    | pdev req pdev' E | pdev pdev' E | pdev st pdev' E
                    | pdev req st pdev' E | pdev h buf E].
  - by_handler Hgs Hs.
  - by_handler Hgs Hs.
  - by_handler Hgs Hs.
  - by_handler Hgs Hs.
  - by_handler Hgs Hs.
  - by_handler Hgs Hs.
  - by_handler Hgs Hs.
  - by_handler Hgs Hs.
  - eapply USBD_DFU_EP0_TxReady_in_sync; eassumption.
  - eapply USBD_DFU_Setup_in_sync; eassumption.
  - sync_done Hs.
Qed.

Lemma USBD_DFU_Init_in_sync (mem : option USBD_DFU_HandleTypeDef)
    (media : USBD_DFU_MediaTypeDef) (pdev : Dev) (cfgidx : Z) :
  dev_in_sync (USBD_DFU_Init mem media pdev cfgidx).2.
Proof.
  unfold USBD_DFU_Init. destruct mem as [h|]; cbn [snd].
  - apply dev_in_sync_emit_if, dev_in_sync_set. reflexivity.
  - intros h E. discriminate E.
Qed.

Lemma reachable_in_sync (media : USBD_DFU_MediaTypeDef) (pdev : Dev) :
  GetStatus_keeps_bState media ->
  reachable media pdev -> dev_in_sync pdev.
Proof.
  intros Hgs Hr. induction Hr as [mem pdev0 cfgidx | pdev pdev' _ IH Hstep].
  - apply USBD_DFU_Init_in_sync.
  - exact (handler_step_in_sync media pdev pdev' Hgs IH Hstep).
Qed.


(** *** With and without a class handle *)

Ltac run_with Hh :=
  repeat first
    [ progress (rewrite ?Hh; cbn [deref rbind])
    | match goal with
      | |- context [if ?c then _ else _] => destruct c
      | |- context [match ?c with Some _ => _ | None => _ end] => destruct c
      | |- context [let '(_, _) := ?c in _] => destruct c
      end ];
  eexists; reflexivity.

Lemma DFU_Leave_returns (pdev : Dev) (hdfu : USBD_DFU_HandleTypeDef) :
  pClassData pdev = Some hdfu -> exists pdev', DFU_Leave pdev = Ok pdev'.
Proof. intros Hh. unfold DFU_Leave. run_with Hh. Qed.

Lemma USBD_DFU_EP0_TxReady_returns (media : USBD_DFU_MediaTypeDef)
    (pdev : Dev) (hdfu : USBD_DFU_HandleTypeDef) :
  pClassData pdev = Some hdfu ->
  exists pdev', USBD_DFU_EP0_TxReady media pdev = Ok (USBD_OK, pdev').
Proof.
  intros Hh. unfold USBD_DFU_EP0_TxReady. rewrite Hh. cbn [deref rbind].
  destruct (dev_state hdfu =? DFU_STATE_DNLOAD_BUSY).
  - match goal with
    | |- context [let '(_, _) := ?c in _] => destruct c
    end.
    eexists. reflexivity.
  - destruct (dev_state hdfu =? DFU_STATE_MANIFEST).
    + destruct (DFU_Leave_returns pdev hdfu Hh) as [pdev' ->].
      eexists. reflexivity.
    + eexists. reflexivity.
Qed.

Lemma USBD_DFU_Setup_returns (media : USBD_DFU_MediaTypeDef) (pdev : Dev)
    (req : USBD_SetupReqTypedef) (hdfu : USBD_DFU_HandleTypeDef) :
  pClassData pdev = Some hdfu ->
  exists pdev', USBD_DFU_Setup media pdev req = Ok (USBD_OK, pdev').
Proof.
  intros Hh.
  unfold USBD_DFU_Setup, DFU_Download, DFU_Upload, DFU_GetStatus,
    DFU_ClearStatus, DFU_GetState, DFU_Abort, DFU_Detach.
  run_with Hh.
Qed.

Lemma USBD_DFU_EP0_TxReady_without_handle (media : USBD_DFU_MediaTypeDef)
    (pdev : Dev) :
  pClassData pdev = None ->
  USBD_DFU_EP0_TxReady media pdev = Crash NullDeref.
Proof. intros Hn. unfold USBD_DFU_EP0_TxReady. rewrite Hn. reflexivity. Qed.

Lemma USBD_DFU_Setup_without_handle (media : USBD_DFU_MediaTypeDef)
    (pdev : Dev) (req : USBD_SetupReqTypedef) :
  pClassData pdev = None ->
  Z.land (bmRequest req) USB_REQ_TYPE_MASK = USB_REQ_TYPE_CLASS ->
  In (bRequest req)
     [DFU_DOWNLOAD; DFU_UPLOAD; DFU_GETSTATUS; DFU_CLEARSTATUS; DFU_GETSTATE;
      DFU_ABORT; DFU_DETACH] ->
  USBD_DFU_Setup media pdev req = Crash NullDeref.
Proof.
  intros Hn Hty Hreq.
  unfold USBD_DFU_Setup, DFU_Download, DFU_Upload, DFU_GetStatus,
    DFU_ClearStatus, DFU_GetState, DFU_Abort, DFU_Detach.
  rewrite Hty, Z.eqb_refl, Hn. cbn [deref rbind].
  repeat match goal with
         | |- context [bRequest req =? ?c] =>
             destruct (Z.eqb_spec (bRequest req) c); [reflexivity|]
         end.
  cbn [In] in Hreq. intuition congruence.
Qed.

End Facts.

(** *** Runs under the DFU 1.1 codes *)


Lemma DFU_block_address_witness :
  exists pdev',
    DFU_Upload (DD := dfu_1_1) flash_media
      (idle_device flash_media) (req_UPLOAD 3 1024) = Ok pdev'
    /\ trace pdev' =
         [Itf_Init; Media_Read 0x08008400 1024;
          CtlSendData (repeat 0 1024) 1024].
Proof.
  destruct (DFU_block_address (DD := dfu_1_1) flash_media
              (idle_device flash_media) _ (req_UPLOAD 3 1024) eq_refl)
    as (_ & Hup & _).
  destruct (Hup (fun buf _ _ => buf)) as (pdev' & E & Htr).
  - left. reflexivity.
  - reflexivity.
  - discriminate.
  - reflexivity.
  - exists pdev'. split; [exact E | exact Htr].
Defined.

(** Block 1000 of the 1024 byte blocks above 0x08008000 is read at
    0x08101800, not at 0x083FD800; and block 3 of the blocks above 0xFFFFFC00
    is read at 0, the sum 1024 + 0xFFFFFC00 being 2^32. *)
Lemma DFU_block_1000_address :
  (exists pdev',
     DFU_Upload (DD := dfu_1_1) flash_media (idle_device flash_media)
       (req_UPLOAD 1000 1024) = Ok pdev'
     /\ trace pdev' =
          [Itf_Init; Media_Read 0x08101800 1024;
           CtlSendData (repeat 0 1024) 1024]
     /\ trace pdev' <>
          [Itf_Init; Media_Read 0x083FD800 1024;
           CtlSendData (repeat 0 1024) 1024])
  /\
  (exists pdev',
     DFU_Upload (DD := dfu_1_1) top_media (idle_device top_media)
       (req_UPLOAD 3 1024) = Ok pdev'
     /\ trace pdev' =
          [Itf_Init; Media_Read 0 1024; CtlSendData (repeat 0 1024) 1024]
     /\ (3 - 2) * 1024 + StartAddress top_media = 2^32).
Proof.
  split.
  - eexists. split; [vm_compute; reflexivity|].
    split; [vm_compute; reflexivity|].
    intros E. vm_compute in E. discriminate E.
  - eexists. split; [vm_compute; reflexivity|].
    split; vm_compute; reflexivity.
Qed.

(** C8.  An UPLOAD request for block 1, of 8 bytes, in the IDLE state that
    USBD_DFU_Init leaves: the control transfer is stalled (USBD_CtlError),
    but dev_state becomes the status code DFU_ERROR_STALLEDPKT (0x0F), which
    is not the state DFU_STATE_ERROR (10), and the error byte dev_status[0]
    stays DFU_ERROR_NONE. *)
Theorem DFU_Upload_block_1_run :
  exists hdfu',
    USBD_DFU_Setup (UD := usb_2_0) (DD := dfu_1_1) flash_media
      (idle_device flash_media) (req_UPLOAD 1 8)
      = Ok (USBD_OK,
            emit CtlError
              (set_pClassData (Some hdfu') (idle_device flash_media)))
    /\ dev_state hdfu' = 0x0F
    /\ dev_state hdfu' = DFU_ERROR_STALLEDPKT (UsbdDfuDef := dfu_1_1)
    /\ dev_state hdfu' <> DFU_STATE_ERROR (UsbdDfuDef := dfu_1_1)
    /\ dev_status hdfu' =
         {| ds0 := DFU_ERROR_NONE (UsbdDfuDef := dfu_1_1);
            ds1 := 0; ds2 := 0; ds3 := 0; ds4 := 0x0F; ds5 := 0 |}.
Proof.
  eexists. split; [vm_compute; reflexivity|].
  cbn. repeat split; try reflexivity. discriminate.
Qed.



End DFU_Facts.

(** * Facts about the RNDIS driver *)

Module RNDIS_Facts.
Import RNDIS.

(** *** The packet framing test *)

Lemma RNDIS_VALID_PACKET_MSG_spec (msg : RNDIS_PacketMsgType) (rxLength : Z) :
  RNDIS_VALID_PACKET_MSG msg rxLength = true <-> well_framed msg rxLength.
Proof.
  unfold RNDIS_VALID_PACKET_MSG, well_framed, wrap32.
  rewrite !andb_true_iff, !Z.eqb_eq. tauto.
Qed.

Lemma delivered_irrefl (pdev : Dev) : ~ delivered pdev pdev.
Proof.
  intros (p & l & E).
  apply (f_equal length) in E. rewrite length_app in E. cbn in E. lia.
Qed.




(** *** The supported OID list *)

Lemma copy_oid_list_fits (tbl : list RNDIS_ObjectInfoType) (w : nat)
    (d : list Z) :
  (w + length tbl <= length d)%nat ->
  copy_oid_list tbl w d
  = Ok (take w d ++ map Oid tbl ++ drop (w + length tbl) d).
Proof.
  revert w d. induction tbl as [|o tl IH]; intros w d Hfit;
    cbn [copy_oid_list map length] in *.
  - rewrite Nat.add_0_r. cbn [app]. rewrite take_drop. reflexivity.
  - destruct (Nat.ltb_spec w (length d)) as [Hlt|Hge]; [|lia].
    unfold wr. rewrite IH by (rewrite length_insert; lia).
    f_equal. cbn [app].
    rewrite (take_S_r (<[w:=Oid o]> d) w (Oid o))
      by (apply list_lookup_insert_eq; exact Hlt).
    rewrite take_insert_ge by lia. rewrite <- app_assoc. cbn [app].
    rewrite drop_insert_lt by lia.
    replace (S w + length tl)%nat with (w + S (length tl))%nat by lia.
    reflexivity.
Qed.

Lemma copy_oid_list_overrun (tbl : list RNDIS_ObjectInfoType) (w : nat)
    (d : list Z) :
  (length d < w + length tbl)%nat -> (w <= length d)%nat ->
  copy_oid_list tbl w d = Crash BufferOverrun.
Proof.
  revert w d. induction tbl as [|o tl IH]; intros w d Hover Hw;
    cbn [copy_oid_list length] in *.
  - lia.
  - destruct (Nat.ltb_spec w (length d)) as [Hlt|Hge]; [|reflexivity].
    apply IH; unfold wr; rewrite length_insert; lia.
Qed.

Section Facts.
Context `{UD : UsbdDef}.


(** C10.  USBD_RNDIS_SendStatus returns USBD_FAIL on every call; also
    when the handle is there and the control endpoint is idle, where the
    indicate-status message is assembled in data and the response available
    notification is transmitted. *)
Theorem USBD_RNDIS_SendStatus_returns_FAIL (pdev : Dev) (status : Z) :
  (USBD_RNDIS_SendStatus pdev status).1 = USBD_FAIL
  /\
  (forall hrndis,
     pClassData pdev = Some hrndis -> ep0_state pdev = USBD_EP0_IDLE ->
     exists d',
       USBD_RNDIS_SendStatus pdev status
       = (USBD_FAIL,
          emit (LL_TransmitBytes RNDIS_CMD_EP [1; 0; 0; 0; 0; 0; 0; 0] 8)
            (set_pClassData (Some (set_data d' hrndis)) pdev))
       /\ ((5 <= length (data hrndis))%nat ->
           take 5 d' = [REMOTE_NDIS_INDICATE_STATUS_MSG; 20; status; 0; 0])
       /\ drop 5 d' = drop 5 (data hrndis)).
Proof.
  unfold USBD_RNDIS_SendStatus. split.
  - destruct (pClassData pdev); [|reflexivity].
    destruct (_ =? _); reflexivity.
  - intros hrndis Hh Hep. rewrite Hh, Hep, Z.eqb_refl.
    eexists. split; [reflexivity|]. split.
    + intros Hlen.
      destruct (data hrndis) as [|a0 [|a1 [|a2 [|a3 [|a4 rest]]]]];
        cbn [length] in Hlen; try lia.
      reflexivity.
    + unfold wr. rewrite !drop_insert_lt by (cbv; lia). reflexivity.
Qed.

(** *** Without a class handle, and past the end of the buffer *)

Lemma USBD_RNDIS_Setup_without_handle (pdev : Dev)
    (req : USBD_SetupReqTypedef) :
  pClassData pdev = None ->
  Z.land (bmRequest req) USB_REQ_TYPE_MASK = USB_REQ_TYPE_CLASS ->
  wLength req <> 0 ->
  USBD_RNDIS_Setup pdev req = Crash NullDeref.
Proof.
  intros Hn Hty Hlen. unfold USBD_RNDIS_Setup.
  rewrite Hty, Z.eqb_refl, Hn.
  destruct (Z.eqb_spec (wLength req) 0); [contradiction|].
  cbn [negb]. destruct (_ =? _); reflexivity.
Qed.

Lemma USBD_RNDIS_EP0_RxReady_supported_list_too_long
    (itf : USBD_RNDIS_ItfTypeDef) (pdev : Dev)
    (hrndis : USBD_RNDIS_HandleTypeDef) :
  pClassData pdev = Some hrndis ->
  rd (data hrndis) w_MessageLength = MsgLength hrndis ->
  rd (data hrndis) w_MessageType = REMOTE_NDIS_QUERY_MSG ->
  rd (data hrndis) w_Oid = OID_GEN_SUPPORTED_LIST ->
  (6 <= length (data hrndis) < 6 + length (ObjectInfo itf))%nat ->
  USBD_RNDIS_EP0_RxReady itf pdev = Crash BufferOverrun.
Proof.
  intros Hh Hlen Hty Hoid Hover.
  unfold USBD_RNDIS_EP0_RxReady. rewrite Hh, Hlen, Z.eqb_refl, Hty.
  cbn [Z.eqb REMOTE_NDIS_QUERY_MSG REMOTE_NDIS_INITIALIZE_MSG Pos.eqb].
  unfold EP0_RxReady_Query. rewrite Hoid, Z.eqb_refl.
  rewrite copy_oid_list_overrun; [reflexivity | |];
    unfold wr, w_Query_Payload; rewrite !length_insert; lia.
Qed.

End Facts.


End RNDIS_Facts.

(** * Facts about the three drivers *)

(** ** Entry points without a class handle *)

Section Null.
Context `{UD : UsbdDef} `{CD : CDC.UsbdCdcDef}.

(** The entry points that test the handle do nothing without one. *)
Lemma guarded_entry_points_without_handle :
  (forall itf (pdev : CDC.Dev) epnum rx ll pbuff len,
     pClassData pdev = None ->
     CDC.USBD_CDC_DataIn itf pdev epnum = (USBD_OK, pdev)
     /\ CDC.USBD_CDC_DataOut rx itf pdev epnum = (USBD_OK, pdev)
     /\ CDC.USBD_CDC_EP0_RxReady itf pdev = (USBD_OK, pdev)
     /\ CDC.USBD_CDC_Transmit ll pdev pbuff len = (USBD_FAIL, pdev)
     /\ CDC.USBD_CDC_Receive ll pdev pbuff len = (USBD_FAIL, pdev))
  /\
  (forall itf (pdev : RNDIS.Dev) epnum rx msg ll p m size status,
     pClassData pdev = None ->
     RNDIS.USBD_RNDIS_EP0_RxReady itf pdev = Ok (USBD_OK, pdev)
     /\ RNDIS.USBD_RNDIS_DataIn pdev epnum = (USBD_OK, pdev)
     /\ RNDIS.USBD_RNDIS_DataOut rx msg itf pdev epnum = (USBD_OK, pdev)
     /\ RNDIS.USBD_RNDIS_TransmitMessage ll pdev p m = (USBD_FAIL, pdev)
     /\ RNDIS.USBD_RNDIS_SetReceiveBuffer ll pdev p size = (USBD_FAIL, pdev)
     /\ RNDIS.USBD_RNDIS_SendStatus pdev status = (USBD_FAIL, pdev)).
Proof.
  split.
  - intros itf pdev epnum rx ll pbuff len Hn.
    unfold CDC.USBD_CDC_DataIn, CDC.USBD_CDC_DataOut, CDC.USBD_CDC_EP0_RxReady,
      CDC.USBD_CDC_Transmit, CDC.USBD_CDC_Receive.
    rewrite Hn. destruct (CDC.Control itf); repeat split; reflexivity.
  - intros itf pdev epnum rx msg ll p m size status Hn.
    unfold RNDIS.USBD_RNDIS_EP0_RxReady, RNDIS.USBD_RNDIS_DataIn,
      RNDIS.USBD_RNDIS_DataOut, RNDIS.USBD_RNDIS_TransmitMessage,
      RNDIS.USBD_RNDIS_SetReceiveBuffer, RNDIS.USBD_RNDIS_SendStatus.
    rewrite Hn. destruct (RNDIS.PacketReceived itf); repeat split; reflexivity.
Qed.

(** [USBD_CDC_Setup] goes through the handle on a class request with a
    data stage. *)
Lemma USBD_CDC_Setup_without_handle (itf : CDC.USBD_CDC_ItfTypeDef)
    (pdev : CDC.Dev) (req : USBD_SetupReqTypedef) :
  pClassData pdev = None ->
  Z.land (bmRequest req) USB_REQ_TYPE_MASK = USB_REQ_TYPE_CLASS ->
  wLength req <> 0 ->
  Z.land (bmRequest req) 0x80 = 0 \/ CDC.Control itf <> None ->
  CDC.USBD_CDC_Setup itf pdev req = Crash NullDeref.
Proof.
  intros Hn Hty Hlen Hdir. unfold CDC.USBD_CDC_Setup.
  rewrite Hty, Z.eqb_refl, Hn.
  destruct (Z.eqb_spec (wLength req) 0); [contradiction|]. cbn [negb].
  destruct (Z.eqb_spec (Z.land (bmRequest req) 128) 0) as [E|E]; cbn [negb].
  - reflexivity.
  - destruct Hdir as [Hd|Hc]; [contradiction|].
    destruct (CDC.Control itf); [reflexivity | contradiction].
Qed.
End Null.

(** C2.  After an Init whose allocation failed, which reports USBD_OK and
    leaves pClassData NULL, the Setup entry point of each of the three
    drivers goes through the NULL handle on a class request, and so does
    USBD_DFU_EP0_TxReady. *)
Theorem Setup_without_handle_crashes :
  (* Init, with the allocation failing, reports success *)
  CDC.USBD_CDC_Init (UD := usb_2_0) (CD := CDC.cdc_st) None CDC.vcp_itf
    unconfigured 0
  = (USBD_OK,
     {| pClassData := None; dev_speed := USBD_SPEED_FULL; ep0_state := 0;
        trace := [LL_OpenEP 0x81 USBD_EP_TYPE_BULK 64;
                  LL_OpenEP 0x01 USBD_EP_TYPE_BULK 64;
                  LL_OpenEP 0x82 USBD_EP_TYPE_INTR 8] |})
  /\
  (* SET_LINE_CODING, seven bytes, host to device *)
  CDC.USBD_CDC_Setup (UD := usb_2_0) CDC.vcp_itf
    (CDC.USBD_CDC_Init (UD := usb_2_0) (CD := CDC.cdc_st) None CDC.vcp_itf
       unconfigured 0).2
    {| bmRequest := 0x21; bRequest := 0x20; wValue := 0; wIndex := 0;
       wLength := 7 |}
  = Crash NullDeref
  /\
  (* SEND_ENCAPSULATED_COMMAND, 24 bytes *)
  RNDIS.USBD_RNDIS_Setup (UD := usb_2_0)
    (RNDIS.USBD_RNDIS_Init (UD := usb_2_0) None unconfigured 0).2
    {| bmRequest := 0x21; bRequest := 0x00; wValue := 0; wIndex := 0;
       wLength := 24 |}
  = Crash NullDeref
  /\
  (* GET_ENCAPSULATED_RESPONSE *)
  RNDIS.USBD_RNDIS_Setup (UD := usb_2_0)
    (RNDIS.USBD_RNDIS_Init (UD := usb_2_0) None unconfigured 0).2
    {| bmRequest := 0xA1; bRequest := 0x01; wValue := 0; wIndex := 0;
       wLength := 1025 |}
  = Crash NullDeref
  /\
  (* DFU_ABORT *)
  DFU.USBD_DFU_Setup (UD := usb_2_0) (DD := DFU.dfu_1_1) DFU.flash_media
    (DFU.USBD_DFU_Init (DD := DFU.dfu_1_1) None DFU.flash_media
       unconfigured 0).2
    DFU.req_ABORT
  = Crash NullDeref
  /\
  DFU.USBD_DFU_EP0_TxReady (DD := DFU.dfu_1_1) DFU.flash_media
    (DFU.USBD_DFU_Init (DD := DFU.dfu_1_1) None DFU.flash_media
       unconfigured 0).2
  = Crash NullDeref.
Proof. repeat split; reflexivity. Qed.

(** ** Init when the allocation fails *)

Lemma open_endpoints_app (tr1 tr2 : list Event) :
  open_endpoints (tr1 ++ tr2)
  = fold_left open_endpoints_step tr2 (open_endpoints tr1).
Proof. unfold open_endpoints. apply fold_left_app. Qed.

(** C3, amended.  When the allocation inside Init fails, Init of each of
    the three drivers returns USBD_OK, which the device core does not treat
    as an activation failure, and leaves pClassData NULL.  CDC and RNDIS have
    by then opened their three endpoints and leave them open; DFU opens no
    endpoint and makes no call. *)
Theorem Init_allocation_failure :
  (forall (UD : UsbdDef) (CD : CDC.UsbdCdcDef) itf (pdev : CDC.Dev) cfgidx,
     exists in_size out_size,
       CDC.USBD_CDC_Init None itf pdev cfgidx
       = (USBD_OK,
          {| pClassData := None; dev_speed := dev_speed pdev;
             ep0_state := ep0_state pdev;
             trace := trace pdev
                      ++ [LL_OpenEP CDC.CDC_IN_EP USBD_EP_TYPE_BULK in_size;
                          LL_OpenEP CDC.CDC_OUT_EP USBD_EP_TYPE_BULK out_size;
                          LL_OpenEP CDC.CDC_CMD_EP USBD_EP_TYPE_INTR
                            CDC.CDC_CMD_PACKET_SIZE] |})
       /\ open_endpoints (trace (CDC.USBD_CDC_Init None itf pdev cfgidx).2)
          = open_endpoints (trace pdev)
            ++ [CDC.CDC_IN_EP; CDC.CDC_OUT_EP; CDC.CDC_CMD_EP])
  /\
  (forall (UD : UsbdDef) (pdev : RNDIS.Dev) cfgidx,
     exists in_size out_size,
       RNDIS.USBD_RNDIS_Init None pdev cfgidx
       = (USBD_OK,
          {| pClassData := None; dev_speed := dev_speed pdev;
             ep0_state := ep0_state pdev;
             trace := trace pdev
                      ++ [LL_OpenEP 0x82 USBD_EP_TYPE_BULK in_size;
                          LL_OpenEP 0x03 USBD_EP_TYPE_BULK out_size;
                          LL_OpenEP 0x81 USBD_EP_TYPE_INTR 8] |})
       /\ open_endpoints (trace (RNDIS.USBD_RNDIS_Init None pdev cfgidx).2)
          = open_endpoints (trace pdev) ++ [0x82; 0x03; 0x81])
  /\
  (forall (DD : DFU.UsbdDfuDef) media (pdev : DFU.Dev) cfgidx,
     DFU.USBD_DFU_Init None media pdev cfgidx
     = (USBD_OK,
        {| pClassData := None; dev_speed := dev_speed pdev;
           ep0_state := ep0_state pdev; trace := trace pdev |}))
  /\
  class_activation_failure USBD_OK = false.
Proof.
  split; [|split; [|split]].
  - intros. unfold CDC.USBD_CDC_Init.
    match goal with
    | |- context [let '(_, _) := ?c in _] => destruct c as [i o]
    end.
    exists i, o. unfold set_pClassData, emit. cbn [trace snd].
    rewrite <- !app_assoc. cbn [app]. split; [reflexivity|].
    rewrite open_endpoints_app. cbn [fold_left open_endpoints_step].
    rewrite <- !app_assoc. reflexivity.
  - intros. unfold RNDIS.USBD_RNDIS_Init.
    match goal with
    | |- context [let '(_, _) := ?c in _] => destruct c as [i o]
    end.
    exists i, o. unfold set_pClassData, emit. cbn [trace snd].
    rewrite <- !app_assoc. cbn [app]. split; [reflexivity|].
    rewrite open_endpoints_app. cbn [fold_left open_endpoints_step].
    rewrite <- !app_assoc. reflexivity.
  - reflexivity.
  - reflexivity.
Qed.

Lemma USBD_RNDIS_Init_allocation_failure_reports_OK :
  (RNDIS.USBD_RNDIS_Init (UD := usb_2_0) None unconfigured 0).1 = USBD_OK
  /\ class_activation_failure
       (RNDIS.USBD_RNDIS_Init (UD := usb_2_0) None unconfigured 0).1 = false
  /\ open_endpoints
       (trace (RNDIS.USBD_RNDIS_Init (UD := usb_2_0) None unconfigured 0).2)
     = [0x82; 0x03; 0x81].
Proof. repeat split; reflexivity. Qed.

(** ** Transmit while a transfer is outstanding *)

(** C4.  USBD_CDC_Transmit with TxState busy, and USBD_RNDIS_TransmitMessage
    with TxLength not zero, return USBD_BUSY and leave the device as it is:
    no call is made and the recorded buffer and length stay.  So, after a
    first Transmit from the idle state, a second one before the completion
    callback returns USBD_BUSY and the record is that of the first; for RNDIS
    this takes a first message whose length is not a multiple of 2^16, the
    width of TxLength. *)
Theorem Transmit_while_outstanding :
  (forall (CD : CDC.UsbdCdcDef) ll_ret (pdev : CDC.Dev) hcdc pbuff length,
     pClassData pdev = Some hcdc -> CDC.TxState hcdc = USBD_BUSY ->
     CDC.USBD_CDC_Transmit ll_ret pdev pbuff length = (USBD_BUSY, pdev))
  /\
  (forall ll_ret (pdev : RNDIS.Dev) hrndis msg m,
     pClassData pdev = Some hrndis -> RNDIS.TxLength hrndis <> 0 ->
     RNDIS.USBD_RNDIS_TransmitMessage ll_ret pdev msg m = (USBD_BUSY, pdev))
  /\
  (forall (CD : CDC.UsbdCdcDef) ll1 ll2 (pdev : CDC.Dev) hcdc b1 l1 b2 l2,
     pClassData pdev = Some hcdc -> CDC.TxState hcdc = USBD_OK ->
     let first := CDC.USBD_CDC_Transmit ll1 pdev b1 l1 in
     first.1 = ll1
     /\ CDC.USBD_CDC_Transmit ll2 first.2 b2 l2 = (USBD_BUSY, first.2)
     /\ exists h1, pClassData first.2 = Some h1
          /\ CDC.TxBuffer h1 = b1 /\ CDC.TxLength h1 = l1)
  /\
  (forall ll1 ll2 (pdev : RNDIS.Dev) hrndis p1 m1 p2 m2,
     pClassData pdev = Some hrndis -> RNDIS.TxLength hrndis = 0 ->
     RNDIS.MessageLength m1 mod 2^16 <> 0 ->
     let first := RNDIS.USBD_RNDIS_TransmitMessage ll1 pdev p1 m1 in
     first.1 = ll1
     /\ RNDIS.USBD_RNDIS_TransmitMessage ll2 first.2 p2 m2 = (USBD_BUSY, first.2)
     /\ exists h1, pClassData first.2 = Some h1
          /\ RNDIS.TxMsg h1 = p1
          /\ RNDIS.TxLength h1 = RNDIS.MessageLength m1 mod 2^16).
Proof.
  split; [|split; [|split]].
  - intros CD ll_ret pdev hcdc pbuff len Hh Hbusy.
    unfold CDC.USBD_CDC_Transmit. rewrite Hh, Hbusy. reflexivity.
  - intros ll_ret pdev hrndis msg m Hh Hbusy.
    unfold RNDIS.USBD_RNDIS_TransmitMessage. rewrite Hh.
    destruct (Z.eqb_spec (RNDIS.TxLength hrndis) 0); [contradiction|reflexivity].
  - intros CD ll1 ll2 pdev hcdc b1 l1 b2 l2 Hh Hidle first.
    assert (E : first
                = (ll1,
                   emit (LL_Transmit CDC.CDC_IN_EP b1 l1)
                     (set_pClassData
                        (Some (CDC.set_TxLength l1
                                 (CDC.set_TxBuffer b1
                                    (CDC.set_TxState USBD_BUSY hcdc))))
                        pdev))).
    { subst first. unfold CDC.USBD_CDC_Transmit. rewrite Hh, Hidle.
      reflexivity. }
    rewrite E. split; [reflexivity|]. split; [reflexivity|].
    eexists. repeat split; reflexivity.
  - intros ll1 ll2 pdev hrndis p1 m1 p2 m2 Hh Hidle Hlen first.
    assert (E : first
                = (ll1,
                   emit (LL_Transmit RNDIS.RNDIS_IN_EP p1
                           (wrap16 (RNDIS.MessageLength m1)))
                     (set_pClassData
                        (Some (RNDIS.set_TxLength
                                 (wrap16 (RNDIS.MessageLength m1))
                                 (RNDIS.set_TxMsg p1 hrndis)))
                        pdev))).
    { subst first. unfold RNDIS.USBD_RNDIS_TransmitMessage.
      rewrite Hh, Hidle. reflexivity. }
    rewrite E. split; [reflexivity|]. split.
    + unfold RNDIS.USBD_RNDIS_TransmitMessage. cbn.
      destruct (Z.eqb_spec (wrap16 (RNDIS.MessageLength m1)) 0) as [E0|_];
        [contradiction|reflexivity].
    + eexists. repeat split; reflexivity.
Qed.

Lemma Transmit_while_outstanding_witness :
  CDC.USBD_CDC_Transmit (CD := CDC.cdc_st) USBD_OK
    (CDC.USBD_CDC_Transmit (CD := CDC.cdc_st) USBD_OK
       (CDC.USBD_CDC_Init (UD := usb_2_0) (CD := CDC.cdc_st)
          (Some CDC.raw_handle) CDC.vcp_itf unconfigured 0).2
       0x20000100 64).2
    0x20000200 32
  = (USBD_BUSY,
     (CDC.USBD_CDC_Transmit (CD := CDC.cdc_st) USBD_OK
        (CDC.USBD_CDC_Init (UD := usb_2_0) (CD := CDC.cdc_st)
           (Some CDC.raw_handle) CDC.vcp_itf unconfigured 0).2
        0x20000100 64).2).
Proof.
  destruct Transmit_while_outstanding as (_ & _ & Hcdc & _).
  destruct (Hcdc CDC.cdc_st USBD_OK USBD_OK
              (CDC.USBD_CDC_Init (UD := usb_2_0) (CD := CDC.cdc_st)
                 (Some CDC.raw_handle) CDC.vcp_itf unconfigured 0).2
              (CDC.set_TxBuffer 0 (CDC.set_RxBuffer 0
                 (CDC.set_TxState USBD_OK CDC.raw_handle)))
              0x20000100 64 0x20000200 32 eq_refl eq_refl)
    as (_ & Hsecond & _).
  exact Hsecond.
Defined.

(** * The DFU protocol, call by call *)

Module DFU_Protocol.
Import DFU.

(** *** Little endian addresses *)

Lemma lor_low_high (a c n : Z) :
  0 <= n -> 0 <= a < 2^n -> Z.lor a (c * 2^n) = a + c * 2^n.
Proof.
  intros Hn Ha. symmetry. apply Z.add_nocarry_lor.
  apply Z.bits_inj'. intros i Hi. rewrite Z.land_spec, Z.bits_0.
  destruct (Z.lt_ge_cases i n) as [Hlt|Hge].
  - rewrite Z.mul_pow2_bits_low by lia. apply andb_false_r.
  - rewrite <- (Z.mod_small a (2^n)) by exact Ha.
    rewrite Z.mod_pow2_bits_high by lia. reflexivity.
Qed.

Lemma little_endian_sum (b1 b2 b3 b4 : Z) :
  0 <= b1 < 256 -> 0 <= b2 < 256 -> 0 <= b3 < 256 -> 0 <= b4 < 256 ->
  wrap32 (Z.lor b1 (Z.lor (Z.shiftl b2 8)
            (Z.lor (Z.shiftl b3 16) (Z.shiftl b4 24))))
  = b1 + 2^8 * b2 + 2^16 * b3 + 2^24 * b4.
Proof.
  intros H1 H2 H3 H4. rewrite !Z.shiftl_mul_pow2 by lia.
  rewrite (lor_low_high (b3 * 2^16) b4 24) by lia.
  replace (b3 * 2^16 + b4 * 2^24) with ((b3 + b4 * 2^8) * 2^16) by lia.
  rewrite (lor_low_high (b2 * 2^8) (b3 + b4 * 2^8) 16) by lia.
  replace (b2 * 2^8 + (b3 + b4 * 2^8) * 2^16)
    with ((b2 + b3 * 2^8 + b4 * 2^16) * 2^8) by lia.
  rewrite (lor_low_high b1 (b2 + b3 * 2^8 + b4 * 2^16) 8) by lia.
  unfold wrap32. rewrite Z.mod_small by lia. lia.
Qed.

Lemma byte_nth (l : list Z) (i : nat) :
  Forall (fun x => 0 <= x < 256) l -> 0 <= nth i l 0 < 256.
Proof.
  intros Hl. destruct (Nat.lt_ge_cases i (length l)) as [Hlt|Hge].
  - apply Forall_nth; assumption.
  - rewrite nth_overflow by exact Hge. lia.
Qed.

Lemma little_endian_bytes (a : Z) :
  0 <= a < 2^32 ->
  a mod 256 + 2^8 * (a / 2^8 mod 256) + 2^16 * (a / 2^16 mod 256)
  + 2^24 * (a / 2^24) = a.
Proof.
  intros Ha.
  change (2^8) with 256. change (2^16) with 65536.
  change (2^24) with 16777216. change (2^32) with 4294967296 in Ha.
  Z.div_mod_to_equations. lia.
Qed.


(** *** Evaluating a call on a device given field by field *)

Ltac open_dev pdev hdfu Hh :=
  destruct pdev as [pc sp ep tr]; cbn in Hh; subst pc;
  destruct hdfu as [b st [s0 s1 s2 s3 s4 s5] ms wb wl dp alt];
  unfold d8 in *;
  cbn [dev_state wblock_num wlength buffer data_ptr dev_status manif_state
       alt_setting ds0 ds1 ds2 ds3 ds4 ds5 pClassData trace dev_speed
       ep0_state] in *.

Tactic Notation "dfu_norm" :=
  cbv beta iota zeta delta
    [download_block download_command manifestation data_stage
     DFU_Download DFU_Upload DFU_GetStatus DFU_ClearStatus DFU_GetState
     DFU_Abort DFU_Detach DFU_Leave USBD_DFU_EP0_TxReady
     USBD_DFU_Init USBD_DFU_DeInit USBD_DFU_Setup
     rbind deref emit emit_if set_pClassData
     set_buffer set_dev_state set_dev_status set_manif_state set_wblock_num
     set_wlength set_data_ptr set_alt_setting set_ds sync_status reset_status
     d8 block_address DevStatus_bytes
     buffer dev_state dev_status manif_state wblock_num wlength data_ptr
     alt_setting ds0 ds1 ds2 ds3 ds4 ds5
     pClassData dev_speed ep0_state trace fst snd].

Tactic Notation "dfu_norm" "in" hyp(H) :=
  cbv beta iota zeta delta
    [download_block download_command manifestation data_stage
     DFU_Download DFU_Upload DFU_GetStatus DFU_ClearStatus DFU_GetState
     DFU_Abort DFU_Detach DFU_Leave USBD_DFU_EP0_TxReady
     USBD_DFU_Init USBD_DFU_DeInit USBD_DFU_Setup
     rbind deref emit emit_if set_pClassData
     set_buffer set_dev_state set_dev_status set_manif_state set_wblock_num
     set_wlength set_data_ptr set_alt_setting set_ds sync_status reset_status
     d8 block_address DevStatus_bytes
     buffer dev_state dev_status manif_state wblock_num wlength data_ptr
     alt_setting ds0 ds1 ds2 ds3 ds4 ds5
     pClassData dev_speed ep0_state trace fst snd] in H.

(** The nine state codes are pairwise different. *)
Lemma existsb_false_lookup (x y : Z) (l : list Z) (j : nat) :
  existsb (Z.eqb x) l = false -> l !! j = Some y -> x <> y.
Proof.
  revert j. induction l as [|z tl IH]; intros j Hex Hj; [discriminate Hj|].
  cbn [existsb] in Hex. apply orb_false_iff in Hex. destruct Hex as [Hz Htl].
  destruct j as [|j]; cbn in Hj.
  - injection Hj as <-. apply Z.eqb_neq. exact Hz.
  - exact (IH j Htl Hj).
Qed.

Lemma distinctb_lookup (l : list Z) (i j : nat) (x y : Z) :
  distinctb l = true -> l !! i = Some x -> l !! j = Some y -> i <> j ->
  x <> y.
Proof.
  revert i j. induction l as [|z tl IH]; intros i j Hd Hi Hj Hij;
    [discriminate Hi|].
  cbn [distinctb] in Hd. apply andb_true_iff in Hd. destruct Hd as [Hz Htl].
  apply negb_true_iff in Hz.
  destruct i as [|i], j as [|j]; cbn in Hi, Hj.
  - contradiction.
  - injection Hi as <-. exact (existsb_false_lookup _ _ _ _ Hz Hj).
  - injection Hj as <-. apply not_eq_sym.
    exact (existsb_false_lookup _ _ _ _ Hz Hi).
  - apply (IH i j Htl Hi Hj). congruence.
Qed.

Ltac state_neq :=
  let try_pair i j :=
    refine (distinctb_lookup _ i j _ _ DFU_STATE_distinct eq_refl eq_refl _);
    discriminate in
  let rec go_j i j :=
    first [ try_pair i j
          | lazymatch j with S ?j' => go_j i j' end ] in
  let rec go_i i :=
    first [ go_j i 8%nat
          | lazymatch i with S ?i' => go_i i' end ] in
  go_i 8%nat.

Ltac eqb_false N := rewrite (proj2 (Z.eqb_neq _ _) N).

Section Facts.
Context `{UD : UsbdDef} `{DD : UsbdDfuDef}.

(** *** Download *)




(** *** The commands of block 0 *)

(** X3.  The set address pointer command: at the end of the GETSTATUS
    transfer that follows a DNLOAD of block 0 with five bytes of which the
    first is DFU_CMD_SETADDRESSPOINTER, the address pointer becomes the little
    endian number in bytes 1 to 4 of the buffer.  No callback of the medium
    is called, and the state goes to DNLOAD_SYNC with block number and length
    reset.  So the four bytes of an address below 2^32, low byte first, set
    the pointer to that address. *)
Theorem DFU_set_address_pointer (media : USBD_DFU_MediaTypeDef) (pdev : Dev)
    (hdfu : USBD_DFU_HandleTypeDef) :
  pClassData pdev = Some hdfu ->
  dev_state hdfu = DFU_STATE_DNLOAD_BUSY ->
  wblock_num hdfu = 0 -> wlength hdfu = 5 ->
  d8 hdfu 0 = DFU_CMD_SETADDRESSPOINTER ->
  Forall (fun x => 0 <= x < 256) (buffer hdfu) ->
  exists hdfu',
    USBD_DFU_EP0_TxReady media pdev
    = Ok (USBD_OK, set_pClassData (Some hdfu') pdev)
    /\ data_ptr hdfu' =
         d8 hdfu 1 + 2^8 * d8 hdfu 2 + 2^16 * d8 hdfu 3 + 2^24 * d8 hdfu 4
    /\ dev_state hdfu' = DFU_STATE_DNLOAD_SYNC
    /\ ds4 (dev_status hdfu') = DFU_STATE_DNLOAD_SYNC
    /\ wblock_num hdfu' = 0 /\ wlength hdfu' = 0
    /\ buffer hdfu' = buffer hdfu
    /\ (forall a,
          0 <= a < 2^32 ->
          d8 hdfu 1 = a mod 256 -> d8 hdfu 2 = a / 2^8 mod 256 ->
          d8 hdfu 3 = a / 2^16 mod 256 -> d8 hdfu 4 = a / 2^24 ->
          data_ptr hdfu' = a).
Proof.
  intros Hh Hst Hblk Hlen Hcmd Hbytes.
  assert (Hsum := little_endian_sum (d8 hdfu 1) (d8 hdfu 2) (d8 hdfu 3)
                    (d8 hdfu 4) (byte_nth _ 1 Hbytes) (byte_nth _ 2 Hbytes)
                    (byte_nth _ 3 Hbytes) (byte_nth _ 4 Hbytes)).
  open_dev pdev hdfu Hh. subst st wb wl.
  dfu_norm. rewrite !Z.eqb_refl, Hcmd, !Z.eqb_refl.
  change (5 =? 1) with false. rewrite andb_false_r. cbn [andb]. dfu_norm.
  eexists. split; [reflexivity|]. dfu_norm.
  split; [exact Hsum|]. do 5 (split; [reflexivity|]).
  intros a Ha E1 E2 E3 E4. unfold buffer_address, d8, buffer.
  rewrite Hsum, E1, E2, E3, E4. apply little_endian_bytes. exact Ha.
Qed.


(** X4.  The erase command: a DNLOAD of block 0 with five bytes of which
    the first is DFU_CMD_ERASE, its data stage, GETSTATUS and the end of that
    transfer.  The GetStatus callback, when there is one, is asked about an
    erase operation at the address pointer as it was before the command; then
    the address pointer becomes the little endian number in bytes 1 to 4 and
    the Erase callback, when there is one, is called once with it.  The state
    ends in DNLOAD_SYNC with the length reset. *)
Theorem DFU_erase_command (media : USBD_DFU_MediaTypeDef) (pdev : Dev)
    (hdfu : USBD_DFU_HandleTypeDef) (req : USBD_SetupReqTypedef)
    (buf : list Z) :
  pClassData pdev = Some hdfu ->
  dev_state hdfu = DFU_STATE_IDLE \/ dev_state hdfu = DFU_STATE_DNLOAD_IDLE ->
  wValue req = 0 -> wLength req = 5 ->
  nth 0 buf 0 = DFU_CMD_ERASE ->
  DFU_CMD_ERASE <> DFU_CMD_SETADDRESSPOINTER ->
  Forall (fun x => 0 <= x < 256) buf ->
  let address :=
    nth 1 buf 0 + 2^8 * nth 2 buf 0 + 2^16 * nth 3 buf 0 + 2^24 * nth 4 buf 0 in
  exists pdev' hdfu' s1,
    download_command media pdev req buf = Ok pdev'
    /\ pClassData pdev' = Some hdfu'
    /\ trace pdev' =
         trace pdev
         ++ [CtlPrepareRx 5]
         ++ match GetStatus media with
            | Some _ => [Media_GetStatus (data_ptr hdfu) DFU_MEDIA_ERASE]
            | None => []
            end
         ++ [CtlSendData s1 6]
         ++ (if Erase media then [Media_Erase address] else [])
    /\ data_ptr hdfu' = address
    /\ dev_state hdfu' = DFU_STATE_DNLOAD_SYNC
    /\ wblock_num hdfu' = 0 /\ wlength hdfu' = 0.
Proof.
  intros Hh Hst Hblk Hlen Hcmd Hne Hbytes address.
  assert (Hsum := little_endian_sum (nth 1 buf 0) (nth 2 buf 0) (nth 3 buf 0)
                    (nth 4 buf 0) (byte_nth _ 1 Hbytes) (byte_nth _ 2 Hbytes)
                    (byte_nth _ 3 Hbytes) (byte_nth _ 4 Hbytes)).
  fold address in Hsum. clearbody address.
  open_dev pdev hdfu Hh.
  assert (T1 : (st =? DFU_STATE_IDLE) || (st =? DFU_STATE_DNLOAD_IDLE) = true)
    by (rewrite orb_true_iff, !Z.eqb_eq; exact Hst).
  dfu_norm. rewrite Hlen, Hblk. change (5 >? 0) with true. rewrite T1. dfu_norm.
  rewrite !Z.eqb_refl, Hcmd, !Z.eqb_refl. change (5 =? 0) with false.
  cbn [negb andb].
  destruct (GetStatus media) as [gs|]; dfu_norm;
    rewrite !Z.eqb_refl, Hcmd, !Z.eqb_refl; eqb_false Hne;
    change (5 =? 1) with false; rewrite andb_false_r; cbn [andb];
    unfold buffer_address, d8; dfu_norm; rewrite Hsum;
    destruct (Erase media); dfu_norm;
    do 3 eexists; (split; [reflexivity|]); (split; [reflexivity|]);
    (split; [dfu_norm; rewrite <- ?app_assoc; reflexivity|]);
    repeat split; reflexivity.
Qed.

(** X5.  A block 0 that is none of the three commands (the first byte and
    the length do not match GETCOMMANDS with 1 byte, SETADDRESSPOINTER with 5
    or ERASE with 5): at the end of the GETSTATUS transfer the control pipe is
    stalled (USBD_CtlError), but no error is recorded: the state goes to
    DNLOAD_SYNC as after a block that was written, bStatus and the address
    pointer stay, no callback of the medium is called, and the GETSTATUS that
    follows moves the state to DNLOAD_IDLE and reports the unchanged
    bStatus. *)
Theorem DFU_unsupported_command (media : USBD_DFU_MediaTypeDef) (pdev : Dev)
    (hdfu : USBD_DFU_HandleTypeDef) :
  pClassData pdev = Some hdfu ->
  dev_state hdfu = DFU_STATE_DNLOAD_BUSY -> wblock_num hdfu = 0 ->
  ~ (d8 hdfu 0 = DFU_CMD_GETCOMMANDS /\ wlength hdfu = 1) ->
  ~ (d8 hdfu 0 = DFU_CMD_SETADDRESSPOINTER /\ wlength hdfu = 5) ->
  ~ (d8 hdfu 0 = DFU_CMD_ERASE /\ wlength hdfu = 5) ->
  exists pdev1 hdfu1 pdev2 hdfu2,
    USBD_DFU_EP0_TxReady media pdev = Ok (USBD_OK, pdev1)
    /\ pClassData pdev1 = Some hdfu1
    /\ trace pdev1 = trace pdev ++ [CtlError]
    /\ dev_state hdfu1 = DFU_STATE_DNLOAD_SYNC
    /\ ds0 (dev_status hdfu1) = ds0 (dev_status hdfu)
    /\ data_ptr hdfu1 = data_ptr hdfu
    /\ wlength hdfu1 = 0
    /\ DFU_GetStatus media pdev1 = Ok pdev2
    /\ pClassData pdev2 = Some hdfu2
    /\ dev_state hdfu2 = DFU_STATE_DNLOAD_IDLE
    /\ trace pdev2 =
         trace pdev
         ++ [CtlError;
             CtlSendData [ds0 (dev_status hdfu); 0; 0; 0;
                          DFU_STATE_DNLOAD_IDLE; ds5 (dev_status hdfu)] 6].
Proof.
  intros Hh Hst Hblk H1 H2 H3. open_dev pdev hdfu Hh. subst st wb.
  assert (T1 : (nth 0 b 0 =? DFU_CMD_GETCOMMANDS) && (wl =? 1) = false).
  { apply not_true_is_false. rewrite andb_true_iff, !Z.eqb_eq. exact H1. }
  assert (T2 : (nth 0 b 0 =? DFU_CMD_SETADDRESSPOINTER) && (wl =? 5) = false).
  { apply not_true_is_false. rewrite andb_true_iff, !Z.eqb_eq. exact H2. }
  assert (T3 : (nth 0 b 0 =? DFU_CMD_ERASE) && (wl =? 5) = false).
  { apply not_true_is_false. rewrite andb_true_iff, !Z.eqb_eq. exact H3. }
  dfu_norm. rewrite !Z.eqb_refl, T1, T2, T3. dfu_norm.
  do 4 eexists. split; [reflexivity|]. split; [reflexivity|].
  split; [reflexivity|]. do 4 (split; [reflexivity|]).
  dfu_norm. rewrite !Z.eqb_refl. cbn [negb]. dfu_norm.
  split; [reflexivity|]. split; [reflexivity|]. split; [reflexivity|].
  dfu_norm. rewrite <- app_assoc. reflexivity.
Qed.

(** *** Manifestation *)

(** X6.  The end of a download: a DNLOAD without data in IDLE or
    DNLOAD_IDLE, GETSTATUS, and the end of that transfer.  GETSTATUS reports
    the MANIFEST state with a poll timeout of 1 ms, and asks the medium
    nothing; then DFU_Leave marks the manifestation complete and, without
    manifestation tolerance, puts the state in MANIFEST_WAIT_RESET and calls
    USBD_DeInit and USBD_SystemReset, in this order; with manifestation
    tolerance the state goes to MANIFEST_SYNC and nothing is called. *)
Theorem DFU_manifestation_leaves (media : USBD_DFU_MediaTypeDef) (pdev : Dev)
    (hdfu : USBD_DFU_HandleTypeDef) (req : USBD_SetupReqTypedef) :
  pClassData pdev = Some hdfu ->
  dev_state hdfu = DFU_STATE_IDLE \/ dev_state hdfu = DFU_STATE_DNLOAD_IDLE ->
  wLength req = 0 ->
  exists pdev' hdfu',
    manifestation media pdev req = Ok pdev'
    /\ pClassData pdev' = Some hdfu'
    /\ trace pdev' =
         trace pdev
         ++ [CtlSendData [ds0 (dev_status hdfu); 1; 0; 0; DFU_STATE_MANIFEST;
                          ds5 (dev_status hdfu)] 6]
         ++ (if DFU_MANIFEST_TOLERANT then []
             else [Core_DeInit; Core_SystemReset])
    /\ manif_state hdfu' = DFU_MANIFEST_COMPLETE
    /\ dev_state hdfu' =
         (if DFU_MANIFEST_TOLERANT then DFU_STATE_MANIFEST_SYNC
          else DFU_STATE_MANIFEST_WAIT_RESET)
    /\ ds4 (dev_status hdfu') = dev_state hdfu'.
Proof.
  intros Hh Hst Hlen. open_dev pdev hdfu Hh.
  assert (N1 : DFU_STATE_MANIFEST_SYNC <> DFU_STATE_DNLOAD_SYNC) by state_neq.
  assert (N2 : DFU_STATE_MANIFEST <> DFU_STATE_DNLOAD_BUSY) by state_neq.
  assert (T1 : (st =? DFU_STATE_DNLOAD_IDLE) || (st =? DFU_STATE_IDLE) = true)
    by (rewrite orb_true_iff, !Z.eqb_eq; tauto).
  dfu_norm. rewrite Hlen. change (0 >? 0) with false. rewrite T1. dfu_norm.
  eqb_false N1. rewrite !Z.eqb_refl. dfu_norm. eqb_false N2. rewrite ?Z.eqb_refl.
  dfu_norm. destruct DFU_MANIFEST_TOLERANT; dfu_norm;
    do 2 eexists; (split; [reflexivity|]); (split; [reflexivity|]);
    (split; [dfu_norm; rewrite <- ?app_assoc, ?app_nil_r; reflexivity|]);
    repeat split; reflexivity.
Qed.

(** X7.  With the three support flags of usbd_conf.h each 0 or 1, bit 2
    of the bmAttributes byte of the functional descriptor is clear, so the
    driver is never manifestation tolerant: DFU_Leave always ends in
    MANIFEST_WAIT_RESET with USBD_DeInit and USBD_SystemReset called, and a
    GETSTATUS in MANIFEST_SYNC with the manifestation complete changes
    nothing. *)
Theorem DFU_never_manifestation_tolerant :
  USBD_DFU_DOWNLOAD_SUPPORT = 0 \/ USBD_DFU_DOWNLOAD_SUPPORT = 1 ->
  USBD_DFU_UPLOAD_SUPPORT = 0 \/ USBD_DFU_UPLOAD_SUPPORT = 1 ->
  USBD_DFU_DETACH_SUPPORT = 0 \/ USBD_DFU_DETACH_SUPPORT = 1 ->
  DFU_MANIFEST_TOLERANT = false
  /\ (forall pdev hdfu,
        pClassData pdev = Some hdfu ->
        exists hdfu',
          DFU_Leave pdev
          = Ok (emit Core_SystemReset
                  (emit Core_DeInit (set_pClassData (Some hdfu') pdev)))
          /\ dev_state hdfu' = DFU_STATE_MANIFEST_WAIT_RESET
          /\ manif_state hdfu' = DFU_MANIFEST_COMPLETE)
  /\ (forall media pdev hdfu,
        pClassData pdev = Some hdfu ->
        dev_state hdfu = DFU_STATE_MANIFEST_SYNC ->
        manif_state hdfu = DFU_MANIFEST_COMPLETE ->
        DFU_MANIFEST_COMPLETE <> DFU_MANIFEST_IN_PROGRESS ->
        DFU_GetStatus media pdev
        = Ok (emit (CtlSendData (DevStatus_bytes (dev_status hdfu)) 6) pdev)).
Proof.
  intros Hd Hu Ht.
  assert (Hnt : DFU_MANIFEST_TOLERANT = false).
  { unfold DFU_MANIFEST_TOLERANT, DFU_bmAttributes.
    destruct Hd as [-> | ->], Hu as [-> | ->], Ht as [-> | ->]; reflexivity. }
  split; [exact Hnt|]. split.
  - intros pdev hdfu Hh. open_dev pdev hdfu Hh. dfu_norm. rewrite Hnt. dfu_norm.
    eexists. split; [reflexivity|]. split; reflexivity.
  - intros media pdev hdfu Hh Hst Hms Hne. open_dev pdev hdfu Hh.
    subst st ms.
    assert (N1 : DFU_STATE_MANIFEST_SYNC <> DFU_STATE_DNLOAD_SYNC)
      by state_neq.
    dfu_norm. eqb_false N1. rewrite !Z.eqb_refl. eqb_false Hne. rewrite Hnt.
    cbn [andb]. dfu_norm. reflexivity.
Qed.


(** *** Status, upload and the interface requests *)

(** X8.  DFU_ClearStatus toggles: in the ERROR state it puts the state in
    IDLE with bStatus DFU_ERROR_NONE; in every other state, IDLE included, it
    puts the state in ERROR with bStatus DFU_ERROR_UNKNOWN.  So two
    CLRSTATUS requests in a row leave a device that was in ERROR in ERROR, and
    any other device in IDLE.  Block number, length, buffer and address pointer
    stay, and nothing is called. *)
Theorem DFU_ClearStatus_toggles (pdev : Dev) (hdfu : USBD_DFU_HandleTypeDef) :
  pClassData pdev = Some hdfu ->
  exists h1 h2,
    DFU_ClearStatus pdev = Ok (set_pClassData (Some h1) pdev)
    /\ DFU_ClearStatus (set_pClassData (Some h1) pdev)
       = Ok (set_pClassData (Some h2) pdev)
    /\ (dev_state hdfu = DFU_STATE_ERROR ->
        dev_state h1 = DFU_STATE_IDLE
        /\ dev_status h1 = {| ds0 := DFU_ERROR_NONE; ds1 := 0; ds2 := 0;
                              ds3 := 0; ds4 := DFU_STATE_IDLE; ds5 := 0 |}
        /\ dev_state h2 = DFU_STATE_ERROR
        /\ dev_status h2 = {| ds0 := DFU_ERROR_UNKNOWN; ds1 := 0; ds2 := 0;
                              ds3 := 0; ds4 := DFU_STATE_ERROR; ds5 := 0 |})
    /\ (dev_state hdfu <> DFU_STATE_ERROR ->
        dev_state h1 = DFU_STATE_ERROR
        /\ dev_status h1 = {| ds0 := DFU_ERROR_UNKNOWN; ds1 := 0; ds2 := 0;
                              ds3 := 0; ds4 := DFU_STATE_ERROR; ds5 := 0 |}
        /\ dev_state h2 = DFU_STATE_IDLE
        /\ dev_status h2 = {| ds0 := DFU_ERROR_NONE; ds1 := 0; ds2 := 0;
                              ds3 := 0; ds4 := DFU_STATE_IDLE; ds5 := 0 |})
    /\ wblock_num h2 = wblock_num hdfu /\ wlength h2 = wlength hdfu
    /\ buffer h2 = buffer hdfu /\ data_ptr h2 = data_ptr hdfu.
Proof.
  intros Hh. open_dev pdev hdfu Hh.
  assert (N : DFU_STATE_IDLE <> DFU_STATE_ERROR) by state_neq.
  dfu_norm. destruct (Z.eqb_spec st DFU_STATE_ERROR) as [E|E].
  - do 2 eexists. split; [reflexivity|].
    split; [dfu_norm; eqb_false N; reflexivity|].
    split; [intros _; repeat split; reflexivity|].
    split; [intros C; contradiction|]. repeat split; reflexivity.
  - do 2 eexists. split; [reflexivity|].
    split; [dfu_norm; rewrite Z.eqb_refl; reflexivity|].
    split; [intros C; contradiction|].
    split; [intros _; repeat split; reflexivity|]. repeat split; reflexivity.
Qed.

(** X9.  An UPLOAD request without data (wLength 0) puts the state in IDLE
    from any state, ERROR and DNLOAD_BUSY included, and besides that only
    zeroes the poll timeout: bStatus keeps its error code and the block
    number and length of a download under way stay.  After it GETSTATUS reports the state IDLE
    together with the old bStatus. *)
Theorem DFU_Upload_without_data (media : USBD_DFU_MediaTypeDef) (pdev : Dev)
    (hdfu : USBD_DFU_HandleTypeDef) (req : USBD_SetupReqTypedef) :
  pClassData pdev = Some hdfu -> wLength req = 0 ->
  exists hdfu',
    DFU_Upload media pdev req = Ok (set_pClassData (Some hdfu') pdev)
    /\ dev_state hdfu' = DFU_STATE_IDLE
    /\ dev_status hdfu' =
         {| ds0 := ds0 (dev_status hdfu); ds1 := 0; ds2 := 0; ds3 := 0;
            ds4 := DFU_STATE_IDLE; ds5 := ds5 (dev_status hdfu) |}
    /\ wblock_num hdfu' = wblock_num hdfu /\ wlength hdfu' = wlength hdfu
    /\ buffer hdfu' = buffer hdfu /\ data_ptr hdfu' = data_ptr hdfu
    /\ manif_state hdfu' = manif_state hdfu
    /\ DFU_GetStatus media (set_pClassData (Some hdfu') pdev)
       = Ok (emit (CtlSendData [ds0 (dev_status hdfu); 0; 0; 0;
                                DFU_STATE_IDLE; ds5 (dev_status hdfu)] 6)
               (set_pClassData (Some hdfu') pdev)).
Proof.
  intros Hh Hlen. open_dev pdev hdfu Hh.
  assert (N1 : DFU_STATE_IDLE <> DFU_STATE_DNLOAD_SYNC) by state_neq.
  assert (N2 : DFU_STATE_IDLE <> DFU_STATE_MANIFEST_SYNC) by state_neq.
  dfu_norm. rewrite Hlen. change (0 >? 0) with false. dfu_norm.
  eexists. split; [reflexivity|]. do 7 (split; [reflexivity|]).
  dfu_norm. eqb_false N1. eqb_false N2. dfu_norm. reflexivity.
Qed.

(** X10.  The GET COMMANDS upload: an UPLOAD of block 0 with data, in IDLE
    or UPLOAD_IDLE, sends three bytes from the buffer, the codes of
    GETCOMMANDS, SETADDRESSPOINTER and ERASE, whatever length the host asked
    for, also 1 or 2; the medium is not read.  The state becomes IDLE when
    more than 3 bytes were asked for, UPLOAD_IDLE otherwise. *)
Theorem DFU_Upload_get_commands (media : USBD_DFU_MediaTypeDef) (pdev : Dev)
    (hdfu : USBD_DFU_HandleTypeDef) (req : USBD_SetupReqTypedef) :
  pClassData pdev = Some hdfu ->
  dev_state hdfu = DFU_STATE_IDLE \/ dev_state hdfu = DFU_STATE_UPLOAD_IDLE ->
  wValue req = 0 -> 0 < wLength req ->
  (3 <= length (buffer hdfu))%nat ->
  exists hdfu',
    DFU_Upload media pdev req
    = Ok (emit (CtlSendData (buffer hdfu') 3)
            (set_pClassData (Some hdfu') pdev))
    /\ buffer hdfu' =
         [DFU_CMD_GETCOMMANDS; DFU_CMD_SETADDRESSPOINTER; DFU_CMD_ERASE]
         ++ drop 3 (buffer hdfu)
    /\ dev_state hdfu' =
         (if wLength req >? 3 then DFU_STATE_IDLE else DFU_STATE_UPLOAD_IDLE)
    /\ ds4 (dev_status hdfu') = dev_state hdfu'
    /\ data_ptr hdfu' = data_ptr hdfu.
Proof.
  intros Hh Hst Hblk Hlen Hbuf. open_dev pdev hdfu Hh.
  assert (T1 : (st =? DFU_STATE_IDLE) || (st =? DFU_STATE_UPLOAD_IDLE) = true)
    by (rewrite orb_true_iff, !Z.eqb_eq; exact Hst).
  assert (T2 : (wLength req >? 0) = true) by lia.
  destruct b as [|b0 [|b1 [|b2 rest]]]; cbn [length] in Hbuf; try lia.
  dfu_norm. rewrite T2, T1, Hblk. change (0 =? 0) with true. dfu_norm.
  eexists (Build_USBD_DFU_HandleTypeDef _ _ _ _ _ _ _ _).
  split; [reflexivity|]. repeat split; reflexivity.
Qed.

(** X11.  An UPLOAD request with data in a state other than IDLE and
    UPLOAD_IDLE is stalled and resets the block number and the length, the
    state staying as it is.  In DNLOAD_BUSY this cancels the download under
    way: the end of the transfer then finds block 0 with length 0, writes
    nothing, stalls the control pipe again, and goes on to DNLOAD_SYNC. *)
Theorem DFU_Upload_cancels_download (media : USBD_DFU_MediaTypeDef)
    (pdev : Dev) (hdfu : USBD_DFU_HandleTypeDef) (req : USBD_SetupReqTypedef) :
  pClassData pdev = Some hdfu ->
  dev_state hdfu <> DFU_STATE_IDLE -> dev_state hdfu <> DFU_STATE_UPLOAD_IDLE ->
  0 < wLength req ->
  exists hdfu1,
    DFU_Upload media pdev req
    = Ok (emit CtlError (set_pClassData (Some hdfu1) pdev))
    /\ dev_state hdfu1 = dev_state hdfu
    /\ dev_status hdfu1 = dev_status hdfu
    /\ wblock_num hdfu1 = 0 /\ wlength hdfu1 = 0
    /\ (dev_state hdfu = DFU_STATE_DNLOAD_BUSY ->
        exists pdev2 hdfu2,
          USBD_DFU_EP0_TxReady media
            (emit CtlError (set_pClassData (Some hdfu1) pdev))
          = Ok (USBD_OK, pdev2)
          /\ pClassData pdev2 = Some hdfu2
          /\ trace pdev2 = trace pdev ++ [CtlError; CtlError]
          /\ dev_state hdfu2 = DFU_STATE_DNLOAD_SYNC
          /\ data_ptr hdfu2 = data_ptr hdfu).
Proof.
  intros Hh Hn1 Hn2 Hlen. open_dev pdev hdfu Hh.
  assert (T2 : (wLength req >? 0) = true) by lia.
  dfu_norm. rewrite T2. eqb_false Hn1. eqb_false Hn2. dfu_norm.
  eexists. split; [reflexivity|]. do 4 (split; [reflexivity|]).
  intros ->. dfu_norm. rewrite !Z.eqb_refl.
  change (0 =? 1) with false. change (0 =? 5) with false.
  rewrite !andb_false_r. dfu_norm.
  do 2 eexists. split; [reflexivity|]. split; [reflexivity|].
  split; [dfu_norm; rewrite <- app_assoc; reflexivity|]. split; reflexivity.
Qed.

(** X12.  DFU_Detach does to the handle what DFU_Abort does, and then
    acts on the bus: with detach support it stops and starts the device
    (USBD_Stop, USBD_Start), without it waits the time of the request
    (USBD_Delay(wValue)). *)
Theorem DFU_Detach_aborts (pdev : Dev) (hdfu : USBD_DFU_HandleTypeDef)
    (req : USBD_SetupReqTypedef) :
  pClassData pdev = Some hdfu ->
  exists pdev1,
    DFU_Abort pdev = Ok pdev1
    /\ DFU_Detach pdev req
       = Ok (if negb (USBD_DFU_DETACH_SUPPORT =? 0)
             then emit Core_Start (emit Core_Stop pdev1)
             else emit (Core_Delay (wValue req)) pdev1).
Proof.
  intros Hh. unfold DFU_Abort, DFU_Detach. rewrite Hh. cbn [deref rbind].
  destruct (abortable (dev_state hdfu)); eexists; (split; [reflexivity|]);
    destruct (negb (USBD_DFU_DETACH_SUPPORT =? 0)); reflexivity.
Qed.



(** *** Init and DeInit *)

(** X14.  USBD_DFU_Init with a handle allocated leaves the state machine
    in IDLE with a clean status record, the address pointer at the medium's
    StartAddress, block number, length and alternate setting 0, and calls the
    medium's Init, when there is one.  USBD_DFU_DeInit after it calls the
    medium's DeInit, when there is one, and clears the handle; a second
    DeInit does nothing. *)
Theorem USBD_DFU_Init_DeInit (h0 : USBD_DFU_HandleTypeDef)
    (media : USBD_DFU_MediaTypeDef) (pdev : Dev) (cfgidx : Z) :
  exists hdfu pdev2,
    USBD_DFU_Init (Some h0) media pdev cfgidx
    = (USBD_OK,
       emit_if (Init media) Itf_Init (set_pClassData (Some hdfu) pdev))
    /\ hdfu = {| buffer := buffer h0;
                 dev_state := DFU_STATE_IDLE;
                 dev_status := {| ds0 := DFU_ERROR_NONE; ds1 := 0; ds2 := 0;
                                  ds3 := 0; ds4 := DFU_STATE_IDLE; ds5 := 0 |};
                 manif_state := DFU_MANIFEST_COMPLETE;
                 wblock_num := 0; wlength := 0;
                 data_ptr := StartAddress media;
                 alt_setting := 0 |}
    /\ USBD_DFU_DeInit media
         (USBD_DFU_Init (Some h0) media pdev cfgidx).2 cfgidx
       = (USBD_OK, pdev2)
    /\ pClassData pdev2 = None
    /\ trace pdev2 =
         trace pdev
         ++ (if Init media then [Itf_Init] else [])
         ++ (if DeInit media then [Itf_DeInit] else [])
    /\ USBD_DFU_DeInit media pdev2 cfgidx = (USBD_OK, pdev2).
Proof.
  destruct pdev as [pc sp ep tr]. destruct h0 as [b st ds ms wb wl dp alt].
  destruct (Init media) eqn:Ei, (DeInit media) eqn:Ed;
    dfu_norm; rewrite ?Ei, ?Ed; dfu_norm;
    do 2 eexists; (split; [reflexivity|]); (split; [reflexivity|]);
    (split; [reflexivity|]); (split; [reflexivity|]);
    (split; [dfu_norm; rewrite <- ?app_assoc, ?app_nil_r; reflexivity|]);
    reflexivity.
Qed.


(** *** The values of [dev_state] *)

Ltac in_assigned Hin :=
  first [ exact Hin
        | unfold assigned_states; cbn [In];
          repeat first [left; reflexivity | right] ].

(** A completed call of a handler on a device given field by field. *)
Ltac split_call pdev Hin Hrun :=
  destruct pdev as [[[b st [s0 s1 s2 s3 s4 s5] ms wb wl dp alt]|] sp ep tr];
  [ unfold dev_assigned in Hin; specialize (Hin _ eq_refl);
    cbn [dev_state] in Hin |];
  dfu_norm in Hrun;
  repeat match type of Hrun with
         | context [if ?c then _ else _] => destruct c; dfu_norm in Hrun
         | context [match ?c with Some _ => _ | None => _ end] =>
             destruct c; dfu_norm in Hrun
         end;
  try discriminate Hrun.

Ltac keeps_assigned pdev Hin Hrun :=
  let hx := fresh "hx" in
  let Hhx := fresh "Hhx" in
  intros hx Hhx; split_call pdev Hin Hrun;
  first [injection Hrun as _ <- | injection Hrun as <-];
  dfu_norm in Hhx; first [discriminate Hhx | injection Hhx as <-]; dfu_norm;
  in_assigned Hin.

Lemma DFU_Leave_assigned (pdev pdev' : Dev) :
  dev_assigned pdev -> DFU_Leave pdev = Ok pdev' -> dev_assigned pdev'.
Proof. intros Hin Hrun. keeps_assigned pdev Hin Hrun. Qed.

Lemma DFU_Download_assigned (pdev pdev' : Dev) (req : USBD_SetupReqTypedef) :
  dev_assigned pdev -> DFU_Download pdev req = Ok pdev' -> dev_assigned pdev'.
Proof. intros Hin Hrun. keeps_assigned pdev Hin Hrun. Qed.

Lemma DFU_Upload_assigned (media : USBD_DFU_MediaTypeDef) (pdev pdev' : Dev)
    (req : USBD_SetupReqTypedef) :
  dev_assigned pdev -> DFU_Upload media pdev req = Ok pdev' -> dev_assigned pdev'.
Proof. intros Hin Hrun. keeps_assigned pdev Hin Hrun. Qed.

Lemma DFU_GetStatus_assigned (media : USBD_DFU_MediaTypeDef)
    (pdev pdev' : Dev) :
  dev_assigned pdev -> DFU_GetStatus media pdev = Ok pdev' -> dev_assigned pdev'.
Proof. intros Hin Hrun. keeps_assigned pdev Hin Hrun. Qed.

Lemma DFU_ClearStatus_assigned (pdev pdev' : Dev) :
  dev_assigned pdev -> DFU_ClearStatus pdev = Ok pdev' -> dev_assigned pdev'.
Proof. intros Hin Hrun. keeps_assigned pdev Hin Hrun. Qed.

Lemma DFU_GetState_assigned (pdev pdev' : Dev) :
  dev_assigned pdev -> DFU_GetState pdev = Ok pdev' -> dev_assigned pdev'.
Proof. intros Hin Hrun. keeps_assigned pdev Hin Hrun. Qed.

Lemma DFU_Abort_assigned (pdev pdev' : Dev) :
  dev_assigned pdev -> DFU_Abort pdev = Ok pdev' -> dev_assigned pdev'.
Proof. intros Hin Hrun. keeps_assigned pdev Hin Hrun. Qed.

Lemma DFU_Detach_assigned (pdev pdev' : Dev) (req : USBD_SetupReqTypedef) :
  dev_assigned pdev -> DFU_Detach pdev req = Ok pdev' -> dev_assigned pdev'.
Proof. intros Hin Hrun. keeps_assigned pdev Hin Hrun. Qed.


Lemma USBD_DFU_EP0_TxReady_assigned (media : USBD_DFU_MediaTypeDef)
    (pdev pdev' : Dev) (status : USBD_StatusTypeDef) :
  dev_assigned pdev ->
  USBD_DFU_EP0_TxReady media pdev = Ok (status, pdev') -> dev_assigned pdev'.
Proof. intros Hin Hrun. keeps_assigned pdev Hin Hrun. Qed.

Lemma USBD_DFU_Setup_assigned (media : USBD_DFU_MediaTypeDef)
    (pdev pdev' : Dev) (req : USBD_SetupReqTypedef)
    (status : USBD_StatusTypeDef) :
  dev_assigned pdev ->
  USBD_DFU_Setup media pdev req = Ok (status, pdev') -> dev_assigned pdev'.
Proof. intros Hin Hrun. keeps_assigned pdev Hin Hrun. Qed.

Lemma handler_step_assigned (media : USBD_DFU_MediaTypeDef)
    (pdev pdev' : Dev) :
  dev_assigned pdev -> handler_step media pdev pdev' -> dev_assigned pdev'.
Proof.
  intros Hin Hstep.
  destruct Hstep as [pdev req pdev' E | pdev req pdev' E | pdev pdev' E
                    | pdev pdev' E | pdev pdev' E | pdev pdev' E
                    | pdev req pdev' E | pdev pdev' E | pdev st pdev' E
                    | pdev req st pdev' E | pdev h buf E].
  - eapply DFU_Download_assigned; eassumption.
  - eapply DFU_Upload_assigned; eassumption.
  - eapply DFU_GetStatus_assigned; eassumption.
  - eapply DFU_ClearStatus_assigned; eassumption.
  - eapply DFU_GetState_assigned; eassumption.
  - eapply DFU_Abort_assigned; eassumption.
  - eapply DFU_Detach_assigned; eassumption.
  - eapply DFU_Leave_assigned; eassumption.
  - eapply USBD_DFU_EP0_TxReady_assigned; eassumption.
  - eapply USBD_DFU_Setup_assigned; eassumption.
  - intros hx Hhx. cbn in Hhx. injection Hhx as <-. exact (Hin h E).
Qed.


End Facts.

(** *** Runs under the DFU 1.1 codes *)

(** A closed side condition, by evaluation. *)
Ltac closed :=
  first [ reflexivity
        | cbn; lia
        | vm_compute; lia
        | repeat constructor; cbn; lia ].



Lemma DFU_set_address_pointer_witness :
  exists hdfu',
    USBD_DFU_EP0_TxReady (DD := dfu_1_1) flash_media
      (busy_device 0 5 [0x21; 0x00; 0x00; 0x01; 0x08])
    = Ok (USBD_OK,
          set_pClassData (Some hdfu')
            (busy_device 0 5 [0x21; 0x00; 0x00; 0x01; 0x08]))
    /\ data_ptr hdfu' = 0x08010000.
Proof.
  destruct (DFU_set_address_pointer (DD := dfu_1_1) flash_media
              (busy_device 0 5 [0x21; 0x00; 0x00; 0x01; 0x08]) _
              eq_refl eq_refl eq_refl eq_refl eq_refl)
    as (h & E & Hd & _).
  - closed.
  - exists h. split; [exact E | exact Hd].
Defined.

Lemma DFU_erase_command_witness :
  exists pdev' s1,
    download_command (DD := dfu_1_1) flash_media (idle_device flash_media)
      (req_DNLOAD 0 5) [0x41; 0x00; 0xC0; 0x00; 0x08] = Ok pdev'
    /\ trace pdev' =
         [Itf_Init; CtlPrepareRx 5; Media_GetStatus 0x08008000 0;
          CtlSendData s1 6; Media_Erase 0x0800C000].
Proof.
  destruct (DFU_erase_command (DD := dfu_1_1) flash_media
              (idle_device flash_media) _ (req_DNLOAD 0 5)
              [0x41; 0x00; 0xC0; 0x00; 0x08]
              eq_refl (or_introl eq_refl) eq_refl eq_refl eq_refl)
    as (p & h & s1 & E & _ & Htr & _).
  - closed.
  - closed.
  - exists p, s1. split; [exact E | exact Htr].
Defined.

Lemma DFU_unsupported_command_witness :
  exists pdev1 pdev2,
    USBD_DFU_EP0_TxReady (DD := dfu_1_1) flash_media
      (busy_device 0 2 [0x99; 0x00]) = Ok (USBD_OK, pdev1)
    /\ DFU_GetStatus (DD := dfu_1_1) flash_media pdev1 = Ok pdev2
    /\ trace pdev2 = [CtlError; CtlSendData [0; 0; 0; 0; 5; 0] 6].
Proof.
  destruct (DFU_unsupported_command (DD := dfu_1_1) flash_media
              (busy_device 0 2 [0x99; 0x00]) _ eq_refl eq_refl eq_refl)
    as (p1 & h1 & p2 & h2 & E1 & _ & _ & _ & _ & _ & _ & E2 & _ & _ & Htr).
  - closed.
  - closed.
  - closed.
  - exists p1, p2. split; [exact E1|]. split; [exact E2 | exact Htr].
Defined.

Lemma DFU_manifestation_leaves_witness :
  exists pdev',
    manifestation (DD := dfu_1_1) flash_media (idle_device flash_media)
      (req_DNLOAD 0 0) = Ok pdev'
    /\ trace pdev' =
         [Itf_Init; CtlSendData [0; 1; 0; 0; 7; 0] 6; Core_DeInit;
          Core_SystemReset].
Proof.
  destruct (DFU_manifestation_leaves (DD := dfu_1_1) flash_media
              (idle_device flash_media) _ (req_DNLOAD 0 0)
              eq_refl (or_introl eq_refl) eq_refl)
    as (p & h & E & _ & Htr & _).
  exists p. split; [exact E | exact Htr].
Defined.

Lemma DFU_never_manifestation_tolerant_witness :
  DFU_MANIFEST_TOLERANT (DD := dfu_1_1) = false.
Proof.
  exact (proj1 (DFU_never_manifestation_tolerant (DD := dfu_1_1)
                  (or_intror eq_refl) (or_intror eq_refl)
                  (or_intror eq_refl))).
Defined.

Lemma DFU_ClearStatus_toggles_witness :
  exists h1 h2,
    DFU_ClearStatus (DD := dfu_1_1) (idle_device flash_media)
    = Ok (set_pClassData (Some h1) (idle_device flash_media))
    /\ DFU_ClearStatus (DD := dfu_1_1)
         (set_pClassData (Some h1) (idle_device flash_media))
       = Ok (set_pClassData (Some h2) (idle_device flash_media))
    /\ dev_state h1 = 10 /\ dev_state h2 = 2.
Proof.
  destruct (DFU_ClearStatus_toggles (DD := dfu_1_1) (idle_device flash_media)
              _ eq_refl)
    as (h1 & h2 & E1 & E2 & _ & Hne & _).
  destruct Hne as (S1 & _ & S2 & _).
  - closed.
  - exists h1, h2. split; [exact E1|]. split; [exact E2|].
    split; [exact S1 | exact S2].
Defined.

Lemma DFU_Upload_without_data_witness :
  exists hdfu',
    DFU_Upload (DD := dfu_1_1) flash_media error_device (req_UPLOAD 0 0)
    = Ok (set_pClassData (Some hdfu') error_device)
    /\ dev_state hdfu' = 2
    /\ dev_status hdfu' =
         {| ds0 := 0x0E; ds1 := 0; ds2 := 0; ds3 := 0; ds4 := 2; ds5 := 0 |}.
Proof.
  destruct (DFU_Upload_without_data (DD := dfu_1_1) flash_media error_device
              _ (req_UPLOAD 0 0) eq_refl eq_refl)
    as (h & E & Hs & Hd & _).
  exists h. split; [exact E|]. split; [exact Hs | exact Hd].
Defined.

Lemma DFU_Upload_get_commands_witness :
  exists hdfu',
    DFU_Upload (DD := dfu_1_1) flash_media (idle_device flash_media)
      (req_UPLOAD 0 1)
    = Ok (emit (CtlSendData (buffer hdfu') 3)
            (set_pClassData (Some hdfu') (idle_device flash_media)))
    /\ buffer hdfu' = [0x00; 0x21; 0x41] ++ repeat 0 1021
    /\ dev_state hdfu' = 9.
Proof.
  destruct (DFU_Upload_get_commands (DD := dfu_1_1) flash_media
              (idle_device flash_media) _ (req_UPLOAD 0 1)
              eq_refl (or_introl eq_refl) eq_refl)
    as (h & E & Hb & Hs & _).
  - closed.
  - closed.
  - exists h. split; [exact E|]. split; [exact Hb | exact Hs].
Defined.

Lemma DFU_Upload_cancels_download_witness :
  exists hdfu1,
    DFU_Upload (DD := dfu_1_1) flash_media
      (busy_device 2 4 (repeat 0xAA 1024)) (req_UPLOAD 2 4)
    = Ok (emit CtlError
            (set_pClassData (Some hdfu1) (busy_device 2 4 (repeat 0xAA 1024))))
    /\ dev_state hdfu1 = 4 /\ wblock_num hdfu1 = 0 /\ wlength hdfu1 = 0.
Proof.
  destruct (DFU_Upload_cancels_download (DD := dfu_1_1) flash_media
              (busy_device 2 4 (repeat 0xAA 1024)) _ (req_UPLOAD 2 4) eq_refl)
    as (h & E & Hs & _ & Hb & Hl & _).
  - closed.
  - closed.
  - closed.
  - exists h. split; [exact E|]. split; [exact Hs|].
    split; [exact Hb | exact Hl].
Defined.

Lemma DFU_Detach_aborts_witness :
  exists pdev1,
    DFU_Abort (DD := dfu_1_1) (idle_device flash_media) = Ok pdev1
    /\ DFU_Detach (DD := dfu_1_1) (idle_device flash_media) (req_DETACH 1000)
       = Ok (emit Core_Start (emit Core_Stop pdev1)).
Proof.
  destruct (DFU_Detach_aborts (DD := dfu_1_1) (idle_device flash_media) _
              (req_DETACH 1000) eq_refl)
    as (p & E1 & E2).
  exists p. split; [exact E1 | exact E2].
Defined.



End DFU_Protocol.

(** * The endpoints a trace leaves open *)

Lemma open_endpoints_snoc (tr : list Event) (e : Event) :
  open_endpoints (tr ++ [e]) = open_endpoints_step (open_endpoints tr) e.
Proof. unfold open_endpoints. rewrite fold_left_app. reflexivity. Qed.

Lemma closed_stays_closed (acc : list Z) (ep : Z) (e : Event) :
  (forall ty mps, e <> LL_OpenEP ep ty mps) ->
  ~ In ep acc -> ~ In ep (open_endpoints_step acc e).
Proof.
  intros Hne Hnot. destruct e; cbn [open_endpoints_step]; try exact Hnot.
  - rewrite in_app_iff. intros [C|[C|[]]]; [exact (Hnot C)|].
    subst ep0. exact (Hne ep_type mps eq_refl).
  - rewrite <- list_elem_of_In, list_elem_of_filter, list_elem_of_In.
    intros [_ C]. exact (Hnot C).
Qed.

(** An endpoint that was closed and not opened again is not open. *)
Lemma closed_after_close (tr rest : list Event) (ep : Z) :
  Forall (fun e => forall ty mps, e <> LL_OpenEP ep ty mps) rest ->
  ~ In ep (open_endpoints ((tr ++ [LL_CloseEP ep]) ++ rest)).
Proof.
  induction rest as [|e rest IH] using rev_ind; intros Hrest.
  - rewrite app_nil_r, open_endpoints_snoc. cbn [open_endpoints_step].
    rewrite <- list_elem_of_In, list_elem_of_filter.
    intros [C _]. apply C. reflexivity.
  - apply Forall_app in Hrest. destruct Hrest as [Hrest He].
    rewrite app_assoc, open_endpoints_snoc.
    apply closed_stays_closed; [|exact (IH Hrest)].
    inversion He; assumption.
Qed.

(** * The CDC driver, call by call *)

Module CDC_Facts.
Import CDC.

Ltac open_dev pdev hcdc Hh :=
  destruct pdev as [pc sp ep tr]; cbn in Hh; subst pc;
  destruct hcdc as [d op cl rx tx tl ts];
  cbn [data CmdOpCode CmdLength RxBuffer TxBuffer TxLength TxState
       pClassData trace dev_speed ep0_state] in *.

Tactic Notation "cdc_norm" :=
  cbv beta iota zeta delta
    [USBD_CDC_Init USBD_CDC_DeInit USBD_CDC_Setup USBD_CDC_DataIn
     USBD_CDC_DataOut USBD_CDC_EP0_RxReady USBD_CDC_Transmit USBD_CDC_Receive
     data_stage rbind deref emit emit_if set_pClassData
     set_data set_CmdOpCode set_CmdLength set_RxBuffer set_TxBuffer
     set_TxLength set_TxState USBD_Status_eqb
     data CmdOpCode CmdLength RxBuffer TxBuffer TxLength TxState
     pClassData dev_speed ep0_state trace fst snd].

Section Facts.
Context `{UD : UsbdDef} `{CD : UsbdCdcDef}.

(** X16.  A transmission and its completion: USBD_CDC_Transmit on an idle
    handle hands the buffer to the low level driver and returns its status;
    USBD_CDC_DataIn then reports the same buffer and length to the
    Transmitted callback, when there is one, and frees the transmitter,
    whatever endpoint number it is called with; the next USBD_CDC_Transmit is
    accepted again and records the new buffer and length. *)
Theorem USBD_CDC_Transmit_DataIn (itf : USBD_CDC_ItfTypeDef)
    (ll1 ll2 : USBD_StatusTypeDef) (pdev : Dev) (hcdc : USBD_CDC_HandleTypeDef)
    (b1 l1 b2 l2 epnum : Z) :
  pClassData pdev = Some hcdc -> TxState hcdc = USBD_OK ->
  let r1 := USBD_CDC_Transmit ll1 pdev b1 l1 in
  let r2 := USBD_CDC_DataIn itf r1.2 epnum in
  let r3 := USBD_CDC_Transmit ll2 r2.2 b2 l2 in
  r1.1 = ll1 /\ r2.1 = USBD_OK /\ r3.1 = ll2
  /\ trace r2.2 =
       trace pdev ++ [LL_Transmit CDC_IN_EP b1 l1]
       ++ (if Transmitted itf then [CDC_Transmitted b1 l1] else [])
  /\ trace r3.2 = trace r2.2 ++ [LL_Transmit CDC_IN_EP b2 l2]
  /\ (exists h2, pClassData r2.2 = Some h2 /\ TxState h2 = USBD_OK)
  /\ (exists h3, pClassData r3.2 = Some h3 /\ TxState h3 = USBD_BUSY
                 /\ TxBuffer h3 = b2 /\ TxLength h3 = l2).
Proof.
  intros Hh Hidle r1 r2 r3. subst r1 r2 r3. open_dev pdev hcdc Hh. subst ts.
  destruct (Transmitted itf) eqn:Et; cdc_norm; rewrite ?Et; cdc_norm;
    (split; [reflexivity|]); (split; [reflexivity|]); (split; [reflexivity|]);
    (split; [rewrite <- ?app_assoc, ?app_nil_r; reflexivity|]);
    (split; [reflexivity|]);
    (split; [eexists; split; reflexivity|]);
    eexists; repeat split; reflexivity.
Qed.

(** X17.  A reception: USBD_CDC_Receive records the buffer and prepares
    the OUT endpoint with it, returning the low level status;
    USBD_CDC_DataOut then reports that buffer with the received byte count
    to the Received callback, when there is one, and does nothing else: it
    does not prepare the endpoint again and leaves the handle as it is. *)
Theorem USBD_CDC_Receive_DataOut (itf : USBD_CDC_ItfTypeDef)
    (ll : USBD_StatusTypeDef) (pdev : Dev) (hcdc : USBD_CDC_HandleTypeDef)
    (pbuff length rx_size epnum : Z) :
  pClassData pdev = Some hcdc ->
  let r1 := USBD_CDC_Receive ll pdev pbuff length in
  let r2 := USBD_CDC_DataOut rx_size itf r1.2 epnum in
  r1.1 = ll /\ r2.1 = USBD_OK
  /\ pClassData r1.2 = Some (set_RxBuffer pbuff hcdc)
  /\ pClassData r2.2 = pClassData r1.2
  /\ trace r2.2 =
       trace pdev ++ [LL_PrepareReceive CDC_OUT_EP pbuff length]
       ++ (if Received itf then [CDC_Received pbuff rx_size] else []).
Proof.
  intros Hh r1 r2. subst r1 r2. open_dev pdev hcdc Hh.
  destruct (Received itf) eqn:Er; cdc_norm; rewrite ?Er; cdc_norm;
    repeat split; rewrite <- ?app_assoc, ?app_nil_r; reflexivity.
Qed.

(** X18.  A class request with a data stage from the host, of at most 255
    bytes: USBD_CDC_Setup records the request code and the length and
    prepares the reception into the staging buffer; at the end of the data
    stage USBD_CDC_EP0_RxReady hands the code, the buffer and the length to
    the Control callback, once: the recorded code is then 0xFF and a second
    USBD_CDC_EP0_RxReady does nothing.  A request whose code is 0xFF itself
    is never handed to the callback. *)
Theorem USBD_CDC_command_delivery (itf : USBD_CDC_ItfTypeDef)
    (ctl : Z -> list Z -> Z -> list Z) (pdev : Dev)
    (hcdc : USBD_CDC_HandleTypeDef) (req : USBD_SetupReqTypedef)
    (buf : list Z) :
  pClassData pdev = Some hcdc -> Control itf = Some ctl ->
  Z.land (bmRequest req) USB_REQ_TYPE_MASK = USB_REQ_TYPE_CLASS ->
  Z.land (bmRequest req) 0x80 = 0 ->
  0 < wLength req < 256 ->
  exists pdev1,
    USBD_CDC_Setup itf pdev req = Ok (USBD_OK, pdev1)
    /\ trace pdev1 = trace pdev ++ [CtlPrepareRx (wLength req)]
    /\ (bRequest req <> 0xFF ->
        exists pdev2 h2,
          USBD_CDC_EP0_RxReady itf (data_stage buf pdev1) = (USBD_OK, pdev2)
          /\ trace pdev2 =
               trace pdev ++ [CtlPrepareRx (wLength req);
                              CDC_Control (bRequest req) (wLength req)]
          /\ pClassData pdev2 = Some h2
          /\ data h2 = ctl (bRequest req) buf (wLength req)
          /\ CmdOpCode h2 = 0xFF
          /\ USBD_CDC_EP0_RxReady itf pdev2 = (USBD_OK, pdev2))
    /\ (bRequest req = 0xFF ->
        USBD_CDC_EP0_RxReady itf (data_stage buf pdev1)
        = (USBD_OK, data_stage buf pdev1)).
Proof.
  intros Hh Hctl Hty Hdir Hlen. open_dev pdev hcdc Hh.
  assert (T1 : (wLength req =? 0) = false) by lia.
  unfold USBD_CDC_Setup. rewrite Hty, Z.eqb_refl, T1, Hdir.
  change (0 =? 0) with true. cbn [negb]. cdc_norm.
  eexists. split; [reflexivity|]. split; [reflexivity|]. split.
  - intros Hop. cdc_norm. rewrite Hctl.
    destruct (Z.eqb_spec (bRequest req) 255) as [E|_]; [contradiction|].
    cbn [negb]. cdc_norm. do 2 eexists. split; [reflexivity|].
    split; [cdc_norm; rewrite <- app_assoc; reflexivity|].
    split; [reflexivity|]. split; [reflexivity|]. split; [reflexivity|].
    cdc_norm. rewrite ?Hctl. reflexivity.
  - intros Hop. cdc_norm. rewrite Hctl, Hop. reflexivity.
Qed.

(** X19.  USBD_CDC_Init followed by USBD_CDC_DeInit: the three endpoints
    are opened (bulk IN, bulk OUT, interrupt command) and closed again,
    whether or not the handle was allocated, so none of the three is left
    open; with a handle the interface's Init and DeInit callbacks, where
    there are, are called once each, without one neither is called; the
    handle is NULL at the end and the status is USBD_OK. *)
Theorem USBD_CDC_Init_DeInit (mem : option USBD_CDC_HandleTypeDef)
    (itf : USBD_CDC_ItfTypeDef) (pdev : Dev) (cfgidx : Z) :
  let r1 := USBD_CDC_Init mem itf pdev cfgidx in
  let r2 := USBD_CDC_DeInit itf r1.2 cfgidx in
  exists in_size out_size,
    r2.1 = USBD_OK /\ pClassData r2.2 = None
    /\ trace r2.2 =
         trace pdev
         ++ [LL_OpenEP CDC_IN_EP USBD_EP_TYPE_BULK in_size;
             LL_OpenEP CDC_OUT_EP USBD_EP_TYPE_BULK out_size;
             LL_OpenEP CDC_CMD_EP USBD_EP_TYPE_INTR CDC_CMD_PACKET_SIZE]
         ++ match mem with
            | Some _ => if Init itf then [Itf_Init] else []
            | None => []
            end
         ++ [LL_CloseEP CDC_IN_EP; LL_CloseEP CDC_OUT_EP; LL_CloseEP CDC_CMD_EP]
         ++ match mem with
            | Some _ => if DeInit itf then [Itf_DeInit] else []
            | None => []
            end
    /\ (forall ep, In ep [CDC_IN_EP; CDC_OUT_EP; CDC_CMD_EP] ->
                   ~ In ep (open_endpoints (trace r2.2))).
Proof.
  intros r1 r2. subst r1 r2. destruct pdev as [pc sp ep tr].
  unfold USBD_CDC_Init.
  match goal with
  | |- context [let '(_, _) := ?c in _] => destruct c as [i o]
  end.
  exists i, o.
  assert (Hclosed : forall (T : list Event) (X : list Event) (e : Z),
             Forall (fun e' => forall ep' ty mps, e' <> LL_OpenEP ep' ty mps) X ->
             In e [CDC_IN_EP; CDC_OUT_EP; CDC_CMD_EP] ->
             ~ In e (open_endpoints
                       ((((T ++ [LL_CloseEP CDC_IN_EP])
                          ++ [LL_CloseEP CDC_OUT_EP])
                         ++ [LL_CloseEP CDC_CMD_EP]) ++ X))).
  { intros T X e HX [<-|[<-|[<-|[]]]].
    - rewrite <- !app_assoc. rewrite app_assoc.
      apply closed_after_close. repeat constructor; try discriminate.
      eapply Forall_impl; [exact HX|]. intros x Hx ty mps. apply Hx.
    - rewrite <- (app_assoc _ _ X). rewrite app_assoc.
      rewrite <- (app_assoc _ [LL_CloseEP CDC_CMD_EP] X).
      apply closed_after_close. repeat constructor; try discriminate.
      eapply Forall_impl; [exact HX|]. intros x Hx ty mps. apply Hx.
    - apply closed_after_close.
      eapply Forall_impl; [exact HX|]. intros x Hx ty mps. apply Hx. }
  destruct mem as [[d op cl rx tx tl ts]|];
    [destruct (Init itf) eqn:Ei, (DeInit itf) eqn:Ed|];
    cdc_norm; rewrite ?Ei, ?Ed; cdc_norm;
    (split; [reflexivity|]); (split; [reflexivity|]);
    (split; [rewrite <- ?app_assoc, ?app_nil_r; reflexivity|]);
    intros e He.
  - apply (Hclosed _ [Itf_DeInit] e); [repeat constructor; discriminate | exact He].
  - rewrite <- (app_nil_r (_ ++ [LL_CloseEP CDC_CMD_EP])).
    apply (Hclosed _ [] e); [constructor | exact He].
  - apply (Hclosed _ [Itf_DeInit] e); [repeat constructor; discriminate | exact He].
  - rewrite <- (app_nil_r (_ ++ [LL_CloseEP CDC_CMD_EP])).
    apply (Hclosed _ [] e); [constructor | exact He].
  - rewrite <- (app_nil_r (_ ++ [LL_CloseEP CDC_CMD_EP])).
    apply (Hclosed _ [] e); [constructor | exact He].
Qed.

End Facts.

(** *** Runs with ST's endpoints *)

Lemma USBD_CDC_Transmit_DataIn_witness :
  trace (USBD_CDC_DataIn vcp_itf
           (USBD_CDC_Transmit (CD := cdc_st) USBD_OK ready_device
              0x20000100 64).2 0x81).2
  = trace ready_device
    ++ [LL_Transmit 0x81 0x20000100 64; CDC_Transmitted 0x20000100 64].
Proof.
  destruct (USBD_CDC_Transmit_DataIn (CD := cdc_st) vcp_itf USBD_OK USBD_OK
              ready_device _ 0x20000100 64 0x20000200 32 0x81
              eq_refl eq_refl)
    as (_ & _ & _ & Htr & _).
  exact Htr.
Defined.

Lemma USBD_CDC_Receive_DataOut_witness :
  trace (USBD_CDC_DataOut 12 vcp_itf
           (USBD_CDC_Receive (CD := cdc_st) USBD_OK ready_device
              0x20000300 64).2 0x01).2
  = trace ready_device
    ++ [LL_PrepareReceive 0x01 0x20000300 64; CDC_Received 0x20000300 12].
Proof.
  destruct (USBD_CDC_Receive_DataOut (CD := cdc_st) vcp_itf USBD_OK
              ready_device _ 0x20000300 64 12 0x01 eq_refl)
    as (_ & _ & _ & _ & Htr).
  exact Htr.
Defined.

Lemma USBD_CDC_command_delivery_witness :
  exists pdev1 pdev2,
    USBD_CDC_Setup (UD := usb_2_0) vcp_itf ready_device req_SET_LINE_CODING
    = Ok (USBD_OK, pdev1)
    /\ USBD_CDC_EP0_RxReady vcp_itf
         (data_stage [0x00; 0xC2; 0x01; 0x00; 0x00; 0x00; 0x08] pdev1)
       = (USBD_OK, pdev2)
    /\ trace pdev2 =
         trace ready_device ++ [CtlPrepareRx 7; CDC_Control 0x20 7]
    /\ USBD_CDC_EP0_RxReady vcp_itf pdev2 = (USBD_OK, pdev2).
Proof.
  destruct (USBD_CDC_command_delivery (UD := usb_2_0) vcp_itf
              (fun _ d _ => d) ready_device _ req_SET_LINE_CODING
              [0x00; 0xC2; 0x01; 0x00; 0x00; 0x00; 0x08]
              eq_refl eq_refl eq_refl eq_refl)
    as (p1 & E1 & _ & Hrun & _).
  - cbn. lia.
  - destruct Hrun as (p2 & h2 & E2 & Htr & _ & _ & _ & E3).
    + cbn. lia.
    + exists p1, p2. split; [exact E1|]. split; [exact E2|].
      split; [exact Htr | exact E3].
Defined.

End CDC_Facts.

(** * The RNDIS driver, call by call

    A callback of the interface is a call recorded in the trace; it acts on
    the handle only through the buffer it is handed (QuerySetServer). *)

Module RNDIS_Protocol.
Import RNDIS.

Ltac open_dev pdev hrndis Hh :=
  destruct pdev as [pc sp ep tr]; cbn in Hh; subst pc;
  destruct hrndis as [d txm rxm txl msl mts];
  cbn [data TxMsg RxMsg TxLength MsgLength MaxTransferSize
       pClassData trace dev_speed ep0_state] in *.

Tactic Notation "rndis_norm" :=
  cbv beta iota zeta delta
    [USBD_RNDIS_Init USBD_RNDIS_DeInit USBD_RNDIS_Setup
     USBD_RNDIS_ResponseReady EP0_RxReady_Query EP0_RxReady_Set
     USBD_RNDIS_EP0_RxReady USBD_RNDIS_DataIn USBD_RNDIS_DataOut
     USBD_RNDIS_TransmitMessage USBD_RNDIS_SetReceiveBuffer
     USBD_RNDIS_SendStatus data_stage encapsulated_command
     rbind deref emit emit_if set_pClassData
     set_data set_TxMsg set_RxMsg set_TxLength set_MsgLength
     set_MaxTransferSize
     data TxMsg RxMsg TxLength MsgLength MaxTransferSize
     rd wr nth insert list_insert wr_words RNDIS_InitCmplt
     w_MessageType w_MessageLength w_RequestID w_Oid w_Status
     w_InfoBufferLength w_InfoBufferOffset w_Set_Reserved
     w_Init_MaxTransferSize w_Reset_Status w_Reset_AddressingReset
     w_Ind_Status w_Ind_StatusBufferLength w_Ind_StatusBufferOffset
     w_Query_Payload
     pClassData dev_speed ep0_state trace fst snd].

(** A test between two constants, by evaluation. *)
Ltac eval_tests :=
  repeat match goal with
         | |- context [?a =? ?b] =>
             let r := eval vm_compute in (a =? b) in
             lazymatch r with
             | true => change (a =? b) with true
             | false => change (a =? b) with false
             end
         end.

Ltac eqb_false N := rewrite (proj2 (Z.eqb_neq _ _) N).

(** *** The table of object identifiers *)

(** The search stops at the first entry with the identifier. *)
Lemma find_oid_first (l1 l2 : list RNDIS_ObjectInfoType)
    (o : RNDIS_ObjectInfoType) :
  Forall (fun x => Oid x <> Oid o) l1 ->
  find_oid (l1 ++ o :: l2) (Oid o) = Some o.
Proof.
  induction 1 as [|x l1 Hx _ IH]; cbn [find_oid app].
  - rewrite Z.eqb_refl. reflexivity.
  - eqb_false Hx. exact IH.
Qed.

Lemma find_oid_none (tbl : list RNDIS_ObjectInfoType) (oid : Z) :
  Forall (fun x => Oid x <> oid) tbl -> find_oid tbl oid = None.
Proof.
  induction 1 as [|x tbl Hx _ IH]; cbn [find_oid]; [reflexivity|].
  eqb_false Hx. exact IH.
Qed.

Section Facts.
Context `{UD : UsbdDef}.

(** *** Packets *)

(** X20.  A packet message that RNDIS_CREATE_PACKET_MSG filled passes
    RNDIS_VALID_PACKET_MSG exactly when all of its MessageLength bytes were
    received, whatever the data length; USBD_RNDIS_DataOut then hands to the
    PacketReceived callback the address just after the 44 bytes of the header
    and the data length.  With a data length below 2^32 - 44 the message
    length is 44 more than the data length. *)
Theorem RNDIS_CREATE_PACKET_MSG_valid (pmsg : RNDIS_PacketMsgType)
    (data_length : Z) (itf : USBD_RNDIS_ItfTypeDef) (pdev : Dev)
    (hrndis : USBD_RNDIS_HandleTypeDef) (epnum : Z) :
  let msg := RNDIS_CREATE_PACKET_MSG pmsg data_length in
  (forall rxLength,
     RNDIS_VALID_PACKET_MSG msg rxLength = true
     <-> rxLength = MessageLength msg)
  /\ (PacketReceived itf = true -> pClassData pdev = Some hrndis ->
      USBD_RNDIS_DataOut (MessageLength msg) msg itf pdev epnum
      = (USBD_OK,
         emit (RNDIS_PacketReceived (RxMsg hrndis + 44)
                 (data_length mod 2^32)) pdev))
  /\ (0 <= data_length < 2^32 - 44 ->
      MessageLength msg = 44 + data_length /\ DataLength msg = data_length
      /\ DataOffset msg = 36).
Proof.
  intros msg.
  assert (Hframe : MessageLength msg
                   = wrap32 (DataLength msg + DataOffset msg
                             + offsetof_PacketMsg_DataOffset)).
  { subst msg. unfold RNDIS_CREATE_PACKET_MSG, wrap32.
    cbn [MessageLength DataLength DataOffset].
    unfold sizeof_RNDIS_PacketMsgType, offsetof_PacketMsg_DataOffset.
    replace (data_length mod 2^32 + (44 - 8) + 8)
      with (data_length mod 2^32 + 44) by lia.
    rewrite Z.add_mod_idemp_l by lia. f_equal. lia. }
  assert (Hvalid : forall rxLength,
             RNDIS_VALID_PACKET_MSG msg rxLength = true
             <-> rxLength = MessageLength msg).
  { intros rxLength. unfold RNDIS_VALID_PACKET_MSG.
    rewrite <- Hframe, (Z.eqb_refl (MessageLength msg)), andb_true_r.
    change (MessageType msg) with REMOTE_NDIS_PACKET_MSG.
    rewrite (Z.eqb_refl REMOTE_NDIS_PACKET_MSG), andb_true_r, Z.eqb_eq.
    split; congruence. }
  split; [exact Hvalid|]. split.
  - intros Hcb Hh. unfold USBD_RNDIS_DataOut. rewrite Hcb, Hh.
    rewrite (proj2 (Hvalid _) eq_refl).
    change (DataOffset msg) with 36.
    change (DataLength msg) with (data_length mod 2^32).
    unfold offsetof_PacketMsg_DataOffset.
    replace (RxMsg hrndis + 8 + 36) with (RxMsg hrndis + 44) by lia.
    reflexivity.
  - intros Hr. subst msg. cbn [RNDIS_CREATE_PACKET_MSG MessageLength
                                DataLength DataOffset].
    unfold wrap32, sizeof_RNDIS_PacketMsgType, offsetof_PacketMsg_DataOffset.
    rewrite !Z.mod_small by lia. repeat split; reflexivity.
Qed.


(** *** Control messages *)

(** X21.  REMOTE_NDIS_INITIALIZE_MSG, received as announced: the response
    written over it is the constant RNDIS_InitCmplt (type INITIALIZE_CMPLT,
    52 bytes, status success, version 1.0, one packet per transfer) with the
    RequestID of the request and with MaxTransferSize the larger of 44 and
    the MaxTransferSize of the handle; the interface's Init callback, when
    there is one, is called, and then the response available notification is
    sent on the command endpoint.  The words of the buffer after the 13 of
    the response stay. *)
Theorem USBD_RNDIS_EP0_RxReady_initialize (itf : USBD_RNDIS_ItfTypeDef)
    (pdev : Dev) (hrndis : USBD_RNDIS_HandleTypeDef) :
  pClassData pdev = Some hrndis ->
  rd (data hrndis) w_MessageLength = MsgLength hrndis ->
  rd (data hrndis) w_MessageType = REMOTE_NDIS_INITIALIZE_MSG ->
  (13 <= length (data hrndis))%nat ->
  exists pdev' d',
    USBD_RNDIS_EP0_RxReady itf pdev = Ok (USBD_OK, pdev')
    /\ pClassData pdev' = Some (set_data d' hrndis)
    /\ d' = [REMOTE_NDIS_INITIALIZE_CMPLT; 52; rd (data hrndis) w_RequestID;
             RNDIS_STATUS_SUCCESS; 1; 0; 1; 0; 1;
             Z.max 44 (MaxTransferSize hrndis); 0; 0; 0]
            ++ drop 13 (data hrndis)
    /\ trace pdev' =
         trace pdev
         ++ (if Init itf then [Itf_Init] else [])
         ++ [LL_TransmitBytes RNDIS_CMD_EP [1; 0; 0; 0; 0; 0; 0; 0] 8].
Proof.
  intros Hh Hlen Hty Hbuf. open_dev pdev hrndis Hh.
  destruct d as [|a0 [|a1 [|a2 [|a3 [|a4 [|a5 [|a6 [|a7 [|a8 [|a9 [|a10
                 [|a11 [|a12 rest]]]]]]]]]]]]]; cbn [length] in Hbuf; try lia.
  unfold rd, w_MessageLength, w_MessageType in Hlen, Hty.
  cbn [nth] in Hlen, Hty. subst a0 a1.
  rndis_norm. rewrite Z.eqb_refl. eval_tests. rndis_norm.
  assert (Hmax : (if mts >? sizeof_RNDIS_PacketMsgType
                  then mts else sizeof_RNDIS_PacketMsgType) = Z.max 44 mts).
  { unfold sizeof_RNDIS_PacketMsgType.
    destruct (Z.gtb_spec mts 44); lia. }
  destruct (Z.gtb_spec mts sizeof_RNDIS_PacketMsgType) as [Hgt|Hle];
    destruct (Init itf); rndis_norm;
    do 2 eexists; (split; [reflexivity|]);
    (split; [rndis_norm; reflexivity|]);
    (split; [unfold sizeof_RNDIS_PacketMsgType in *;
             first [rewrite Z.max_r by lia | rewrite Z.max_l by lia];
             reflexivity|]);
    rndis_norm; rewrite <- ?app_assoc; reflexivity.
Qed.


(** X23.  REMOTE_NDIS_RESET_MSG, received as announced: the interface's
    DeInit callback, the flush of the IN and of the OUT endpoint and the
    interface's Init callback are called in this order, the transmit length
    is reset, so that the next USBD_RNDIS_TransmitMessage is accepted, and
    the response is RESET_CMPLT, 16 bytes, status success, AddressingReset 1,
    followed by the response available notification. *)
Theorem USBD_RNDIS_EP0_RxReady_reset (itf : USBD_RNDIS_ItfTypeDef)
    (pdev : Dev) (hrndis : USBD_RNDIS_HandleTypeDef)
    (ll : USBD_StatusTypeDef) (msg : ptr) (m : RNDIS_PacketMsgType) :
  pClassData pdev = Some hrndis ->
  rd (data hrndis) w_MessageLength = MsgLength hrndis ->
  rd (data hrndis) w_MessageType = REMOTE_NDIS_RESET_MSG ->
  (4 <= length (data hrndis))%nat ->
  exists pdev' hrndis',
    USBD_RNDIS_EP0_RxReady itf pdev = Ok (USBD_OK, pdev')
    /\ pClassData pdev' = Some hrndis'
    /\ data hrndis' =
         [REMOTE_NDIS_RESET_CMPLT; 16; RNDIS_STATUS_SUCCESS; 1]
         ++ drop 4 (data hrndis)
    /\ TxLength hrndis' = 0
    /\ trace pdev' =
         trace pdev
         ++ (if DeInit itf then [Itf_DeInit] else [])
         ++ [LL_FlushEP RNDIS_IN_EP; LL_FlushEP RNDIS_OUT_EP]
         ++ (if Init itf then [Itf_Init] else [])
         ++ [LL_TransmitBytes RNDIS_CMD_EP [1; 0; 0; 0; 0; 0; 0; 0] 8]
    /\ (USBD_RNDIS_TransmitMessage ll pdev' msg m).1 = ll.
Proof.
  intros Hh Hlen Hty Hbuf. open_dev pdev hrndis Hh.
  destruct d as [|a0 [|a1 [|a2 [|a3 rest]]]]; cbn [length] in Hbuf; try lia.
  unfold rd, w_MessageLength, w_MessageType in Hlen, Hty.
  cbn [nth] in Hlen, Hty. subst a0 a1.
  rndis_norm. rewrite Z.eqb_refl. eval_tests. rndis_norm.
  destruct (DeInit itf), (Init itf); rndis_norm;
    do 2 eexists; (split; [reflexivity|]); (split; [reflexivity|]);
    (split; [reflexivity|]); (split; [reflexivity|]);
    (split; [rndis_norm; rewrite <- ?app_assoc; reflexivity|]);
    rndis_norm; reflexivity.
Qed.

(** X24.  A message that USBD_RNDIS_EP0_RxReady does not answer: when the
    MessageLength of the message in the buffer differs from the length the
    host announced, or when its type is none of INITIALIZE, QUERY, SET, RESET
    and KEEPALIVE (so for REMOTE_NDIS_HALT_MSG), the call returns USBD_OK and
    leaves the device as it is: no response is written and no notification
    sent. *)
Theorem USBD_RNDIS_EP0_RxReady_ignored (itf : USBD_RNDIS_ItfTypeDef)
    (pdev : Dev) (hrndis : USBD_RNDIS_HandleTypeDef) :
  pClassData pdev = Some hrndis ->
  rd (data hrndis) w_MessageLength <> MsgLength hrndis
  \/ ~ In (rd (data hrndis) w_MessageType)
         [REMOTE_NDIS_INITIALIZE_MSG; REMOTE_NDIS_QUERY_MSG;
          REMOTE_NDIS_SET_MSG; REMOTE_NDIS_RESET_MSG;
          REMOTE_NDIS_KEEPALIVE_MSG] ->
  USBD_RNDIS_EP0_RxReady itf pdev = Ok (USBD_OK, pdev).
Proof.
  intros Hh Hno. unfold USBD_RNDIS_EP0_RxReady. rewrite Hh.
  destruct Hno as [Hlen|Hty].
  - eqb_false Hlen. reflexivity.
  - destruct (_ =? MsgLength hrndis); [|reflexivity].
    cbn [In] in Hty.
    repeat match goal with
           | |- context [rd (data hrndis) w_MessageType =? ?c] =>
               let E := fresh "E" in
               destruct (Z.eqb_spec (rd (data hrndis) w_MessageType) c)
                 as [E|E];
               [exfalso; apply Hty; symmetry in E; tauto|]
           end.
    reflexivity.
Qed.



(** X26.  REMOTE_NDIS_QUERY_MSG for an Oid other than the supported list,
    received as announced.  When no entry of the interface's table has the
    Oid, the response is QUERY_CMPLT with the RequestID of the request, status
    failure, InfoBufferLength 0, InfoBufferOffset 16 and MessageLength 24.
    Otherwise the server of the first entry with that Oid is called, once,
    with the address just after the 24 bytes of the completion header and
    with the header already written (InfoBufferLength 0); the response
    carries the status it returns and MessageLength is 24 more than the
    InfoBufferLength it left, in 32 bits.  The response available
    notification is sent in both cases. *)
Theorem USBD_RNDIS_EP0_RxReady_query (itf : USBD_RNDIS_ItfTypeDef)
    (pdev : Dev) (hrndis : USBD_RNDIS_HandleTypeDef) :
  pClassData pdev = Some hrndis ->
  rd (data hrndis) w_MessageLength = MsgLength hrndis ->
  rd (data hrndis) w_MessageType = REMOTE_NDIS_QUERY_MSG ->
  rd (data hrndis) w_Oid <> OID_GEN_SUPPORTED_LIST ->
  (6 <= length (data hrndis))%nat ->
  let d := data hrndis in
  let oid := rd d w_Oid in
  let notify := LL_TransmitBytes RNDIS_CMD_EP [1; 0; 0; 0; 0; 0; 0; 0] 8 in
  let d0 := [REMOTE_NDIS_QUERY_CMPLT; rd d w_MessageLength; rd d w_RequestID;
             RNDIS_STATUS_FAILURE; 0; 16] ++ drop 6 d in
  (Forall (fun x => Oid x <> oid) (ObjectInfo itf) ->
   USBD_RNDIS_EP0_RxReady itf pdev
   = Ok (USBD_OK,
         emit notify
           (set_pClassData
              (Some (set_data
                       ([REMOTE_NDIS_QUERY_CMPLT; 24; rd d w_RequestID;
                         RNDIS_STATUS_FAILURE; 0; 16] ++ drop 6 d) hrndis))
              pdev)))
  /\
  (forall l1 o l2 status d1,
     ObjectInfo itf = l1 ++ o :: l2 -> Oid o = oid ->
     Forall (fun x => Oid x <> oid) l1 ->
     QuerySetServer o 24 d0 = (status, d1) ->
     (6 <= length d1)%nat ->
     USBD_RNDIS_EP0_RxReady itf pdev
     = Ok (USBD_OK,
           emit notify
             (set_pClassData
                (Some (set_data
                         ([rd d1 w_MessageType;
                           (24 + rd d1 w_InfoBufferLength) mod 2^32;
                           rd d1 w_RequestID; status;
                           rd d1 w_InfoBufferLength;
                           rd d1 w_InfoBufferOffset] ++ drop 6 d1) hrndis))
                (emit (RNDIS_QuerySetServer oid 24) pdev)))).
Proof.
  intros Hh Hlen Hty Hoid Hbuf. open_dev pdev hrndis Hh.
  destruct d as [|a0 [|a1 [|a2 [|a3 [|a4 [|a5 rest]]]]]];
    cbn [length] in Hbuf; try lia.
  unfold rd, w_MessageLength, w_MessageType, w_Oid in Hlen, Hty, Hoid.
  cbn [nth] in Hlen, Hty, Hoid. subst a0 a1.
  rndis_norm.
  rewrite Z.eqb_refl. eval_tests. eqb_false Hoid. split.
  - intros Hnone. rewrite (find_oid_none _ _ Hnone). rndis_norm. reflexivity.
  - intros l1 o l2 status d1 Htbl Ho Hl1 Hsrv Hd1.
    rewrite Htbl, <- Ho, find_oid_first by (rewrite Ho; exact Hl1).
    unfold sizeof_RNDIS_QueryCmpltType, offsetof_RequestID.
    change (24 - 8) with 16. rewrite Ho.
    change (drop 6 (REMOTE_NDIS_QUERY_MSG :: msl :: a2 :: a3 :: a4 :: a5 :: rest))
      with rest in Hsrv.
    cbn [app] in Hsrv. rewrite Hsrv.
    destruct d1 as [|c0 [|c1 [|c2 [|c3 [|c4 [|c5 rest1]]]]]];
      cbn [length] in Hd1; try lia.
    rndis_norm. reflexivity.
Qed.


(** *** Transmission, reception and the life of the handle *)

(** X27.  A transmission and its completion: after an accepted
    USBD_RNDIS_TransmitMessage, of a message whose length is not a multiple
    of 2^16, USBD_RNDIS_DataIn for the IN endpoint RNDIS_IN_EP frees the
    transmitter and the next message is accepted; USBD_RNDIS_DataIn for any
    other endpoint number changes nothing and the next message is refused
    with USBD_BUSY. *)
Theorem USBD_RNDIS_Transmit_DataIn (ll1 ll2 : USBD_StatusTypeDef)
    (pdev : Dev) (hrndis : USBD_RNDIS_HandleTypeDef) (p1 p2 : ptr)
    (m1 m2 : RNDIS_PacketMsgType) (epnum : Z) :
  pClassData pdev = Some hrndis -> TxLength hrndis = 0 ->
  MessageLength m1 mod 2^16 <> 0 ->
  let r1 := USBD_RNDIS_TransmitMessage ll1 pdev p1 m1 in
  let r2 := USBD_RNDIS_DataIn r1.2 epnum in
  let r3 := USBD_RNDIS_TransmitMessage ll2 r2.2 p2 m2 in
  r1.1 = ll1 /\ r2.1 = USBD_OK
  /\ (epnum = RNDIS_IN_EP ->
      r3.1 = ll2
      /\ (exists size1 size2,
            trace r3.2 = trace pdev ++ [LL_Transmit RNDIS_IN_EP p1 size1;
                                        LL_Transmit RNDIS_IN_EP p2 size2])
      /\ (exists h3, pClassData r3.2 = Some h3 /\ TxMsg h3 = p2))
  /\ (epnum <> RNDIS_IN_EP -> r2.2 = r1.2 /\ r3 = (USBD_BUSY, r1.2)).
Proof.
  intros Hh Hidle Hlen r1 r2 r3. subst r1 r2 r3. open_dev pdev hrndis Hh.
  subst txl. rndis_norm. change (0 =? 0) with true. rndis_norm.
  split; [reflexivity|]. split.
  { destruct (epnum =? RNDIS_IN_EP); reflexivity. }
  split.
  - intros ->. rewrite Z.eqb_refl. rndis_norm. change (0 =? 0) with true. rndis_norm.
    split; [reflexivity|]. split.
    + do 2 eexists. rewrite <- app_assoc. reflexivity.
    + eexists. split; reflexivity.
  - intros Hne. eqb_false Hne. rndis_norm. split; [reflexivity|].
    unfold wrap16. eqb_false Hlen. reflexivity.
Qed.

(** X28.  The transmit length is 16 bits wide: after an accepted
    USBD_RNDIS_TransmitMessage of a message whose MessageLength is a multiple
    of 2^16, the recorded length is 0, the value that means idle, so a second
    message is accepted before the first one is complete, and it replaces the
    recorded message. *)
Theorem USBD_RNDIS_TransmitMessage_length_wraps (ll1 ll2 : USBD_StatusTypeDef)
    (pdev : Dev) (hrndis : USBD_RNDIS_HandleTypeDef) (p1 p2 : ptr)
    (m1 m2 : RNDIS_PacketMsgType) :
  pClassData pdev = Some hrndis -> TxLength hrndis = 0 ->
  MessageLength m1 mod 2^16 = 0 ->
  let r1 := USBD_RNDIS_TransmitMessage ll1 pdev p1 m1 in
  let r2 := USBD_RNDIS_TransmitMessage ll2 r1.2 p2 m2 in
  r1.1 = ll1
  /\ (exists h1, pClassData r1.2 = Some h1 /\ TxMsg h1 = p1
                 /\ TxLength h1 = 0)
  /\ r2.1 = ll2
  /\ (exists size1 size2,
        trace r2.2 = trace pdev ++ [LL_Transmit RNDIS_IN_EP p1 size1;
                                    LL_Transmit RNDIS_IN_EP p2 size2])
  /\ (exists h2, pClassData r2.2 = Some h2 /\ TxMsg h2 = p2).
Proof.
  intros Hh Hidle Hlen r1 r2. subst r1 r2. open_dev pdev hrndis Hh.
  subst txl. rndis_norm. change (0 =? 0) with true. rndis_norm.
  unfold wrap16. rewrite Hlen. change (0 =? 0) with true. rndis_norm.
  split; [reflexivity|]. split; [eexists; repeat split; reflexivity|].
  split; [reflexivity|]. split.
  - do 2 eexists. rewrite <- app_assoc. reflexivity.
  - eexists. split; reflexivity.
Qed.

(** X29.  The receive buffer: after USBD_RNDIS_Init with a handle
    allocated, USBD_RNDIS_SetReceiveBuffer records the buffer, prepares the
    OUT endpoint with it and its capacity, returns the low level status, and
    leaves MaxTransferSize at the larger of 44, the size of the packet
    header, and the capacity; a later call with a smaller capacity does not
    lower it.  USBD_RNDIS_Init itself does not call the interface's Init
    callback. *)
Theorem USBD_RNDIS_SetReceiveBuffer_capacity
    (mem : USBD_RNDIS_HandleTypeDef) (ll ll' : USBD_StatusTypeDef)
    (pdev : Dev) (buffer buffer' : ptr) (size size' cfgidx : Z) :
  let r1 := USBD_RNDIS_Init (Some mem) pdev cfgidx in
  let r2 := USBD_RNDIS_SetReceiveBuffer ll r1.2 buffer size in
  let r3 := USBD_RNDIS_SetReceiveBuffer ll' r2.2 buffer' size' in
  r1.1 = USBD_OK /\ r2.1 = ll /\ r3.1 = ll'
  /\ (exists in_size out_size,
        trace r2.2 =
          trace pdev
          ++ [LL_OpenEP RNDIS_IN_EP USBD_EP_TYPE_BULK in_size;
              LL_OpenEP RNDIS_OUT_EP USBD_EP_TYPE_BULK out_size;
              LL_OpenEP RNDIS_CMD_EP USBD_EP_TYPE_INTR 8;
              LL_PrepareReceive RNDIS_OUT_EP buffer size])
  /\ (exists h2,
        pClassData r2.2 = Some h2 /\ RxMsg h2 = buffer
        /\ MaxTransferSize h2 = Z.max 44 size
        /\ TxLength h2 = 0 /\ data h2 = data mem)
  /\ (exists h3,
        pClassData r3.2 = Some h3 /\ RxMsg h3 = buffer'
        /\ MaxTransferSize h3 = Z.max (Z.max 44 size) size').
Proof.
  intros r1 r2 r3. subst r1 r2 r3. destruct pdev as [pc sp ep tr].
  destruct mem as [d txm rxm txl msl mts].
  unfold USBD_RNDIS_Init.
  match goal with
  | |- context [let '(_, _) := ?c in _] => destruct c as [i o]
  end.
  rndis_norm. change (wrap16 sizeof_RNDIS_PacketMsgType) with 44.
  split; [reflexivity|].
  destruct (Z.ltb_spec 44 size) as [H1|H1]; rndis_norm;
    [destruct (Z.ltb_spec size size') as [H2|H2]
    |destruct (Z.ltb_spec 44 size') as [H2|H2]]; rndis_norm;
    (split; [reflexivity|]); (split; [reflexivity|]);
    (split; [exists i, o; rewrite <- !app_assoc; reflexivity|]);
    (split;
     [eexists; (split; [reflexivity|]); (split; [reflexivity|]);
      (split; [cbn; lia|]); split; reflexivity|]);
    eexists; (split; [reflexivity|]); (split; [reflexivity|]); cbn; lia.
Qed.

(** X30.  USBD_RNDIS_Init followed by USBD_RNDIS_DeInit: the three
    endpoints are opened (bulk IN 0x82, bulk OUT 0x03, interrupt command
    0x81) and closed again, whether or not the handle was allocated, so none
    of the three is left open; the interface's DeInit callback, when there is
    one, is called if there was a handle, although Init never called the
    interface's Init; the handle is NULL at the end and the status is
    USBD_OK. *)
Theorem USBD_RNDIS_Init_DeInit (mem : option USBD_RNDIS_HandleTypeDef)
    (itf : USBD_RNDIS_ItfTypeDef) (pdev : Dev) (cfgidx : Z) :
  let r1 := USBD_RNDIS_Init mem pdev cfgidx in
  let r2 := USBD_RNDIS_DeInit itf r1.2 cfgidx in
  exists in_size out_size,
    r2.1 = USBD_OK /\ pClassData r2.2 = None
    /\ trace r2.2 =
         trace pdev
         ++ [LL_OpenEP 0x82 USBD_EP_TYPE_BULK in_size;
             LL_OpenEP 0x03 USBD_EP_TYPE_BULK out_size;
             LL_OpenEP 0x81 USBD_EP_TYPE_INTR 8;
             LL_CloseEP 0x82; LL_CloseEP 0x03; LL_CloseEP 0x81]
         ++ match mem with
            | Some _ => if DeInit itf then [Itf_DeInit] else []
            | None => []
            end
    /\ (forall ep, In ep [0x82; 0x03; 0x81] ->
                   ~ In ep (open_endpoints (trace r2.2))).
Proof.
  intros r1 r2. subst r1 r2. destruct pdev as [pc sp ep tr].
  unfold USBD_RNDIS_Init.
  match goal with
  | |- context [let '(_, _) := ?c in _] => destruct c as [i o]
  end.
  exists i, o.
  assert (Hclosed : forall (T : list Event) (X : list Event) (e : Z),
             Forall (fun e' => forall ep' ty mps, e' <> LL_OpenEP ep' ty mps) X ->
             In e [0x82; 0x03; 0x81] ->
             ~ In e (open_endpoints
                       ((((T ++ [LL_CloseEP RNDIS_IN_EP])
                          ++ [LL_CloseEP RNDIS_OUT_EP])
                         ++ [LL_CloseEP RNDIS_CMD_EP]) ++ X))).
  { intros T X e HX [<-|[<-|[<-|[]]]].
    - rewrite <- !app_assoc. rewrite app_assoc.
      apply closed_after_close. repeat constructor; try discriminate.
      eapply Forall_impl; [exact HX|]. intros x Hx ty mps. apply Hx.
    - rewrite <- (app_assoc _ _ X). rewrite app_assoc.
      rewrite <- (app_assoc _ [LL_CloseEP RNDIS_CMD_EP] X).
      apply closed_after_close. repeat constructor; try discriminate.
      eapply Forall_impl; [exact HX|]. intros x Hx ty mps. apply Hx.
    - apply closed_after_close.
      eapply Forall_impl; [exact HX|]. intros x Hx ty mps. apply Hx. }
  destruct mem as [[d txm rxm txl msl mts]|];
    [destruct (DeInit itf) eqn:Ed|];
    rndis_norm; rewrite ?Ed; rndis_norm;
    (split; [reflexivity|]); (split; [reflexivity|]);
    (split; [rewrite <- ?app_assoc, ?app_nil_r; reflexivity|]);
    intros e He.
  - apply (Hclosed _ [Itf_DeInit] e); [repeat constructor; discriminate | exact He].
  - rewrite <- (app_nil_r (_ ++ [LL_CloseEP RNDIS_CMD_EP])).
    apply (Hclosed _ [] e); [constructor | exact He].
  - rewrite <- (app_nil_r (_ ++ [LL_CloseEP RNDIS_CMD_EP])).
    apply (Hclosed _ [] e); [constructor | exact He].
Qed.

End Facts.

(** *** Runs under the USB 2.0 codes *)

(** A closed side condition, by evaluation. *)
Ltac closed :=
  first [ reflexivity
        | cbn; lia
        | vm_compute; lia
        | repeat constructor; cbn; lia ].

Lemma USBD_RNDIS_EP0_RxReady_initialize_witness :
  exists pdev' d',
    USBD_RNDIS_EP0_RxReady (eth_itf []) (device_with (initialize_msg 7))
    = Ok (USBD_OK, pdev')
    /\ pClassData pdev' = Some (set_data d' (handle_with (initialize_msg 7)))
    /\ take 13 d' = [0x80000002; 52; 7; 0; 1; 0; 1; 0; 1; 44; 0; 0; 0]
    /\ trace pdev' = [Itf_Init; LL_TransmitBytes 0x81 [1; 0; 0; 0; 0; 0; 0; 0] 8].
Proof.
  destruct (USBD_RNDIS_EP0_RxReady_initialize (eth_itf [])
              (device_with (initialize_msg 7)) _ eq_refl eq_refl eq_refl)
    as (p & d' & E & Hp & Hd & Htr).
  - closed.
  - exists p, d'. split; [exact E|]. split; [exact Hp|].
    split; [rewrite Hd; reflexivity | exact Htr].
Defined.


Lemma USBD_RNDIS_EP0_RxReady_reset_witness :
  exists pdev',
    USBD_RNDIS_EP0_RxReady (eth_itf []) (device_with reset_msg)
    = Ok (USBD_OK, pdev')
    /\ trace pdev' =
         [Itf_DeInit; LL_FlushEP 0x82; LL_FlushEP 0x03; Itf_Init;
          LL_TransmitBytes 0x81 [1; 0; 0; 0; 0; 0; 0; 0] 8].
Proof.
  destruct (USBD_RNDIS_EP0_RxReady_reset (eth_itf []) (device_with reset_msg)
              _ USBD_OK 0x20000400 (packet_msg 100 36 56)
              eq_refl eq_refl eq_refl)
    as (p & h & E & _ & _ & _ & Htr & _).
  - closed.
  - exists p. split; [exact E | exact Htr].
Defined.

Lemma USBD_RNDIS_EP0_RxReady_ignored_witness :
  USBD_RNDIS_EP0_RxReady (eth_itf []) (device_with (halt_msg 3))
  = Ok (USBD_OK, device_with (halt_msg 3)).
Proof.
  apply (USBD_RNDIS_EP0_RxReady_ignored (eth_itf [])
           (device_with (halt_msg 3)) _ eq_refl).
  right. vm_compute. lia.
Defined.


Lemma USBD_RNDIS_EP0_RxReady_query_witness :
  exists d',
    USBD_RNDIS_EP0_RxReady (eth_itf [0x00010101])
      (device_with (query_msg 7 0x0001010E))
    = Ok (USBD_OK,
          emit (LL_TransmitBytes 0x81 [1; 0; 0; 0; 0; 0; 0; 0] 8)
            (set_pClassData
               (Some (set_data d' (handle_with (query_msg 7 0x0001010E))))
               (device_with (query_msg 7 0x0001010E))))
    /\ take 6 d' = [0x80000004; 24; 7; 0xC0000001; 0; 16].
Proof.
  destruct (USBD_RNDIS_EP0_RxReady_query (eth_itf [0x00010101])
              (device_with (query_msg 7 0x0001010E)) _
              eq_refl eq_refl eq_refl)
    as [Hnone _].
  - closed.
  - closed.
  - eexists. split.
    + apply Hnone. repeat constructor. vm_compute. lia.
    + reflexivity.
Defined.

Lemma USBD_RNDIS_Transmit_DataIn_witness :
  (USBD_RNDIS_TransmitMessage USBD_OK
     (USBD_RNDIS_DataIn
        (USBD_RNDIS_TransmitMessage USBD_OK (device_with []) 0x20000400
           (packet_msg 100 36 56)).2 0x82).2
     0x20000500 (packet_msg 108 44 56)).1 = USBD_OK.
Proof.
  destruct (USBD_RNDIS_Transmit_DataIn USBD_OK USBD_OK (device_with []) _
              0x20000400 0x20000500 (packet_msg 100 36 56)
              (packet_msg 108 44 56) 0x82 eq_refl eq_refl)
    as (_ & _ & Hin & _).
  - closed.
  - exact (proj1 (Hin eq_refl)).
Defined.

Lemma USBD_RNDIS_TransmitMessage_length_wraps_witness :
  MessageLength (RNDIS_CREATE_PACKET_MSG (packet_msg 0 0 0) 65492) = 65536
  /\ (USBD_RNDIS_TransmitMessage USBD_OK
        (USBD_RNDIS_TransmitMessage USBD_OK (device_with []) 0x20000400
           (RNDIS_CREATE_PACKET_MSG (packet_msg 0 0 0) 65492)).2
        0x20000500 (packet_msg 100 36 56)).1 = USBD_OK.
Proof.
  split; [reflexivity|].
  destruct (USBD_RNDIS_TransmitMessage_length_wraps USBD_OK USBD_OK
              (device_with []) _ 0x20000400 0x20000500
              (RNDIS_CREATE_PACKET_MSG (packet_msg 0 0 0) 65492)
              (packet_msg 100 36 56) eq_refl eq_refl eq_refl)
    as (_ & _ & Hsecond & _).
  exact Hsecond.
Defined.

End RNDIS_Protocol.
